(** * Rise explorer client and data extractor: request retry, pagination, CSV

    A shallow embedding of the request layer of
    [rise explorer extraction.py] ([RiseExplorerClient]) and of the
    accumulation and serialization code of [data_extractor.py]
    ([DataExtractor]), with the properties the specification states about
    them.

    Python values decoded from JSON are the type [json]; a [float] is a
    binary float of the IEEE 754 specification, and a Python [dict] is an
    association list in insertion order, read with "first binding wins".
    A character of a Python [str] is one [ascii] (code points below 256), so
    that the order of [String.leb] is Python's code-point order on [str].
    Effects (HTTP exchanges, [time.sleep], warnings of the logger, files) are
    threaded through a state-and-exception monad over [world].  The world
    answers each HTTP exchange and each call of the file system ([mkdir],
    [open]): the outcome is its to give, and the properties hold whatever it
    gives.  A path is the text that joins its parts with ['/'].  Records of
    level INFO are not modelled. *)

From Stdlib Require Import ZArith String Ascii List SpecFloat DecimalString.
From stdpp Require Import gmap strings list sorting.

Local Open Scope Z_scope.
#[local] Set Warnings "-register-all".

(** ** Python values *)

Inductive json : Type :=
  | JNull
  | JBool (b : bool)
  | JInt (n : Z)
  | JFloat (x : spec_float)
  | JStr (s : string)
  | JList (items : list json)
  | JObj (fields : list (string * json)).

Abbreviation dict := (list (string * json)).

(** [d.get(k)]: [None] when the key is missing. *)
Fixpoint dict_get (d : dict) (k : string) : option json :=
  match d with
  | [] => None
  | (k', v) :: d' => if String.eqb k' k then Some v else dict_get d' k
  end.

(** [d.get(k, dflt)]. *)
Definition dict_get_default (d : dict) (k : string) (dflt : json) : json :=
  match dict_get d k with
  | Some v => v
  | None => dflt
  end.

(** [d.keys()], each key once, in the order of first insertion. *)
Fixpoint dict_keys (d : dict) : list string :=
  match d with
  | [] => []
  | (k, _) :: d' => k :: filter (λ k', k' ≠ k) (dict_keys d')
  end.

(** [v == s] for a string literal [s]: only a [str] equals a [str]. *)
Definition str_eq (v : option json) (s : string) : bool :=
  match v with
  | Some (JStr s') => String.eqb s' s
  | _ => false
  end.

(** Truth value of an object, as tested by [if not v]. *)
Definition truthy (v : json) : bool :=
  match v with
  | JNull => false
  | JBool b => b
  | JInt n => negb (n =? 0)
  | JFloat x => match x with S754_zero _ => false | _ => true end
  | JStr s => negb (String.eqb s "")
  | JList items => match items with [] => false | _ => true end
  | JObj fields => match fields with [] => false | _ => true end
  end.

Definition chars (s : string) : list json :=
  (λ c, JStr (String c EmptyString)) <$> list_ascii_of_string s.

(** The elements [iter(v)] yields; [None] stands for the [TypeError] of an
    object that is not iterable. *)
Definition py_iter (v : json) : option (list json) :=
  match v with
  | JList items => Some items
  | JStr s => Some (chars s)
  | JObj fields => Some (JStr <$> dict_keys fields)
  | JNull | JBool _ | JInt _ | JFloat _ => None
  end.

(** [isinstance(v, dict)]. *)
Definition is_dict (v : json) : bool :=
  match v with
  | JObj _ => true
  | _ => false
  end.

(** [type(v).__name__], as the messages of [TypeError] and [AttributeError]
    spell it. *)
Definition type_name (v : json) : string :=
  match v with
  | JNull => "NoneType"
  | JBool _ => "bool"
  | JInt _ => "int"
  | JFloat _ => "float"
  | JStr _ => "str"
  | JList _ => "list"
  | JObj _ => "dict"
  end.

(** [range(lo, hi)]. *)
Definition py_range (lo hi : Z) : list Z :=
  (λ i : nat, lo + Z.of_nat i) <$> seq 0 (Z.to_nat (hi - lo)).

(** [l[:n]]: a negative [n] counts from the end. *)
Definition py_slice_to {A} (l : list A) (n : Z) : list A :=
  if n <? 0 then take (Z.to_nat (Z.of_nat (length l) + n)) l
  else take (Z.to_nat n) l.

(** [s[:n]] on a string, for [n >= 0]. *)
Definition str_prefix (n : nat) (s : string) : string := substring 0 n s.

Definition upper_char (c : ascii) : ascii :=
  let n := nat_of_ascii c in
  if ((97 <=? n) && (n <=? 122))%nat then ascii_of_nat (n - 32) else c.

(** [s.upper()] on ASCII letters; the other characters are left as they are,
    which does not change whether the result is ["GET"]. *)
Fixpoint upper (s : string) : string :=
  match s with
  | EmptyString => EmptyString
  | String c s' => String (upper_char c) (upper s')
  end.

(** [str(n)] on an [int]. *)
Definition str_of_int (n : Z) : string := NilZero.string_of_int (Z.to_int n).

(** [sep.join(l)]. *)
Fixpoint join (sep : string) (l : list string) : string :=
  match l with
  | [] => ""
  | [s] => s
  | s :: l' => s +:+ sep +:+ join sep l'
  end.

(** ** Exceptions, the world, the monad *)

Inductive exn : Type :=
  | RequestException (msg : string)
  | ValueError (msg : string)
  | TypeError (msg : string)
  | AttributeError (msg : string)
  | KeyError (msg : string)
  | IndexError (msg : string)
  | JSONDecodeError (msg : string)
  | OSError (class : string) (msg : string).

(** [OutOfFuel] is not a Python outcome: it marks a [while] loop of the model
    that was given too few iterations (see [page_loop]). *)
Inductive outcome (A : Type) : Type :=
  | Ok (a : A)
  | Raise (e : exn)
  | OutOfFuel.
Arguments Ok {A} a.
Arguments Raise {A} e.
Arguments OutOfFuel {A}.

Inductive verb := GET | POST.

Record http_call := HttpCall {
  call_verb : verb;
  call_url : string;
  call_params : dict;
  call_timeout : Z
}.

(** What one exchange [session.get]/[session.post], [raise_for_status] and
    [response.json()] comes to: the decoded body, which is any JSON value, or
    the exception one of the three raised. *)
Inductive http_outcome :=
  | HttpOk (data : json)
  | HttpRaise (e : exn).

(** The calls of the file system: [path.mkdir(exist_ok=True)] and
    [open(path, 'w')]. *)
Inductive fs_call :=
  | Mkdir (path : string)
  | Open (path : string).

(** Records of level WARNING, with the values their message is built from. *)
Inductive log_record :=
  | WarnApiError (message : json)
  | WarnAttemptFailed (attempt : Z) (msg : string)
  | WarnNoData (filename : string)
  | WarnAbiNotJson
  | WarnContractNotFound (address : string).

(** What a written file holds: the object given to [json.dump], the text
    given to [f.write], or the header and the rows given to
    [csv.DictWriter]. *)
Inductive file_content :=
  | FJson (data : json)
  | FText (text : string)
  | FCsv (header : list string) (rows : list (list json)).

(** [net k] is the outcome of the [k]-th HTTP exchange of the run, counted
    from 0; [disk k] is the exception the [k]-th call of the file system
    raises ([OSError] and its subclasses, for a parent directory that is
    missing, a path that is taken, a permission that is denied, ...), or
    [None] when the call succeeds; [clock] is what
    [datetime.now().strftime("%Y%m%d_%H%M%S")] gives. *)
Record world := World {
  net : nat → http_outcome;
  disk : nat → option exn;
  clock : string;
  http_log : list http_call;
  fs_log : list fs_call;
  sleep_log : list Z;
  warn_log : list log_record;
  files : gmap string file_content
}.

Definition M (A : Type) : Type := world → outcome A * world.

Definition ret {A} (a : A) : M A := λ w, (Ok a, w).

Definition raise {A} (e : exn) : M A := λ w, (Raise e, w).

Definition out_of_fuel {A} : M A := λ w, (OutOfFuel, w).

Definition bind {A B} (m : M A) (k : A → M B) : M B :=
  λ w, match m w with
       | (Ok a, w1) => k a w1
       | (Raise e, w1) => (Raise e, w1)
       | (OutOfFuel, w1) => (OutOfFuel, w1)
       end.

Notation "x <- m ;; k" := (bind m (λ x, k))
  (at level 100, m at next level, right associativity).
Notation "m ;; k" := (bind m (λ _, k))
  (at level 100, right associativity).

(** [try: body except ...: handler]: [handler e] is [None] when no clause
    matches the class of [e]. *)
Definition try_except {A} (body : M A) (handler : exn → option (M A)) : M A :=
  λ w, match body w with
       | (Ok a, w1) => (Ok a, w1)
       | (Raise e, w1) =>
           match handler e with
           | Some h => h w1
           | None => (Raise e, w1)
           end
       | (OutOfFuel, w1) => (OutOfFuel, w1)
       end.

(** The five ways the code changes the world. *)
Definition sent (c : http_call) (w : world) : world :=
  World (net w) (disk w) (clock w) (http_log w ++ [c]) (fs_log w)
        (sleep_log w) (warn_log w) (files w).

Definition called (c : fs_call) (w : world) : world :=
  World (net w) (disk w) (clock w) (http_log w) (fs_log w ++ [c])
        (sleep_log w) (warn_log w) (files w).

Definition warned (r : log_record) (w : world) : world :=
  World (net w) (disk w) (clock w) (http_log w) (fs_log w)
        (sleep_log w) (warn_log w ++ [r]) (files w).

Definition slept (secs : Z) (w : world) : world :=
  World (net w) (disk w) (clock w) (http_log w) (fs_log w)
        (sleep_log w ++ [secs]) (warn_log w) (files w).

Definition wrote (path : string) (c : file_content) (w : world) : world :=
  World (net w) (disk w) (clock w) (http_log w) (fs_log w)
        (sleep_log w) (warn_log w) (<[path := c]> (files w)).

(** [logger.warning(...)]. *)
Definition log_warning (r : log_record) : M unit := λ w, (Ok tt, warned r w).

(** [time.sleep(secs)]. *)
Definition time_sleep (secs : Z) : M unit :=
  λ w, if secs <? 0
       then (Raise (ValueError "sleep length must be non-negative"), w)
       else (Ok tt, slept secs w).

(** One call of the file system: it is recorded, and it succeeds or raises
    as the next outcome of [disk] says. *)
Definition fs_request (c : fs_call) : M unit :=
  λ w, match disk w (length (fs_log w)) with
       | None => (Ok tt, called c w)
       | Some e => (Raise e, called c w)
       end.

(** [path.mkdir(exist_ok=True)]. *)
Definition mkdir (path : string) : M unit := fs_request (Mkdir path).

(** The writes to an open file that leave it holding [c]. *)
Definition put_file (path : string) (c : file_content) : M unit :=
  λ w, (Ok tt, wrote path c w).

(** [open(path, 'w')] followed by the writes that make up [c]. *)
Definition write_file (path : string) (c : file_content) : M unit :=
  fs_request (Open path) ;;
  put_file path c.

Definition timestamp : M string := λ w, (Ok (clock w), w).

(** ** RiseExplorerClient *)

Record RiseExplorerConfig := Config {
  base_url : string;
  timeout : Z;
  max_retries : Z;
  retry_delay : Z
}.

Definition default_config : RiseExplorerConfig :=
  Config "https://explorer.testnet.riselabs.xyz/api" 30 3 1.

Definition verb_of (method : string) : verb :=
  if String.eqb (upper method) "GET" then GET else POST.

(** One exchange of the session, [session.get] or [session.post] up to
    [response.json()]: the call is recorded, and the outcome is the next one
    of [net]. *)
Definition session_request (cfg : RiseExplorerConfig) (method : string)
    (params : dict) : M json :=
  λ w, let call := HttpCall (verb_of method) (base_url cfg) params (timeout cfg) in
       match net w (length (http_log w)) with
       | HttpOk data => (Ok data, sent call w)
       | HttpRaise e => (Raise e, sent call w)
       end.

(** The [AttributeError] of [v.name] for an attribute [v] does not have. *)
Definition no_attribute (v : json) (name : string) : exn :=
  AttributeError
    ("'" +:+ type_name v +:+ "' object has no attribute '" +:+ name +:+ "'").

(** The receiver of a call [v.name(...)] of a method of [dict]: only a
    [dict] has it. *)
Definition method_of_dict (name : string) (v : json) : M dict :=
  match v with
  | JObj fields => ret fields
  | _ => raise (no_attribute v name)
  end.

(** The body of the [try] of [_make_request]. *)
Definition try_request (cfg : RiseExplorerConfig) (params : dict) (method : string)
  : M dict :=
  body <- session_request cfg method params ;;
  data <- method_of_dict "get" body ;;
  (if str_eq (dict_get data "status") "0"
   then log_warning (WarnApiError
                       (dict_get_default data "message" (JStr "Unknown error")))
   else ret tt) ;;
  ret data.

(** The [for attempt in range(max_retries)] loop of [_make_request]; [None]
    when the loop ends without a [return] or a [raise]. *)
Fixpoint attempt_loop (cfg : RiseExplorerConfig) (params : dict) (method : string)
    (attempts : list Z) : M (option dict) :=
  match attempts with
  | [] => ret None
  | attempt :: rest =>
      r <- try_except
             (data <- try_request cfg params method ;; ret (Some data))
             (λ e, match e with
                   | RequestException msg =>
                       Some (log_warning (WarnAttemptFailed (attempt + 1) msg) ;;
                             if attempt <? max_retries cfg - 1
                             then time_sleep (retry_delay cfg * (attempt + 1)) ;;
                                  ret None
                             else raise e)
                   | _ => None
                   end) ;;
      match r with
      | Some data => ret (Some data)
      | None => attempt_loop cfg params method rest
      end
  end.

Definition _make_request (cfg : RiseExplorerConfig) (params : dict)
    (method : string) : M dict :=
  r <- attempt_loop cfg params method (py_range 0 (max_retries cfg)) ;;
  match r with
  | Some data => ret data
  | None => raise (RequestException "Max retries exceeded")
  end.

(** [d[k] = v]. *)
Fixpoint dict_set (d : dict) (k : string) (v : json) : dict :=
  match d with
  | [] => [(k, v)]
  | (k', v') :: d' =>
      if String.eqb k' k then (k', v) :: d' else (k', v') :: dict_set d' k v
  end.

(** [if x is not None: params[k] = x] for an optional block number. *)
Definition set_if_given (k : string) (x : option Z) (params : dict) : dict :=
  match x with
  | Some n => dict_set params k (JInt n)
  | None => params
  end.

Definition get_balance (cfg : RiseExplorerConfig) (address : string) : M dict :=
  _make_request cfg
    [("module", JStr "account"); ("action", JStr "balance");
     ("address", JStr address)] "GET".

Definition get_balance_multi (cfg : RiseExplorerConfig) (addresses : list string)
  : M dict :=
  if 20 <? Z.of_nat (length addresses)
  then raise (ValueError "Maximum 20 addresses allowed")
  else _make_request cfg
         [("module", JStr "account"); ("action", JStr "balancemulti");
          ("address", JStr (join "," addresses))] "GET".

Definition get_transactions (cfg : RiseExplorerConfig) (address : string)
    (startblock endblock : option Z) (page offset : Z) (sort : string) : M dict :=
  let params :=
    [("module", JStr "account"); ("action", JStr "txlist");
     ("address", JStr address); ("page", JInt page); ("offset", JInt offset);
     ("sort", JStr sort)] in
  _make_request cfg
    (set_if_given "endblock" endblock (set_if_given "startblock" startblock params))
    "GET".

Definition get_token_transfers (cfg : RiseExplorerConfig) (address : string)
    (contractaddress : option string) (startblock endblock : option Z)
    (page offset : Z) (sort : string) : M dict :=
  let params :=
    [("module", JStr "account"); ("action", JStr "tokentx");
     ("address", JStr address); ("page", JInt page); ("offset", JInt offset);
     ("sort", JStr sort)] in
  let params :=
    match contractaddress with
    | Some c => if String.eqb c "" then params
                else dict_set params "contractaddress" (JStr c)
    | None => params
    end in
  _make_request cfg
    (set_if_given "endblock" endblock (set_if_given "startblock" startblock params))
    "GET".

Definition get_token_list (cfg : RiseExplorerConfig) (address : string) : M dict :=
  _make_request cfg
    [("module", JStr "account"); ("action", JStr "tokenlist");
     ("address", JStr address)] "GET".

Definition get_block_reward (cfg : RiseExplorerConfig) (blockno : Z) : M dict :=
  _make_request cfg
    [("module", JStr "block"); ("action", JStr "getblockreward");
     ("blockno", JInt blockno)] "GET".

Definition get_contract_source_code (cfg : RiseExplorerConfig) (address : string)
  : M dict :=
  _make_request cfg
    [("module", JStr "contract"); ("action", JStr "getsourcecode");
     ("address", JStr address)] "GET".

Definition get_token_info (cfg : RiseExplorerConfig) (contractaddress : string)
  : M dict :=
  _make_request cfg
    [("module", JStr "token"); ("action", JStr "getToken");
     ("contractaddress", JStr contractaddress)] "GET".

Definition get_token_holders (cfg : RiseExplorerConfig) (contractaddress : string)
    (page offset : Z) : M dict :=
  _make_request cfg
    [("module", JStr "token"); ("action", JStr "getTokenHolders");
     ("contractaddress", JStr contractaddress); ("page", JInt page);
     ("offset", JInt offset)] "GET".

(** [if x: params[k] = x] for an optional text: [None] and [''] are both
    false. *)
Definition set_if_nonempty (k : string) (x : option string) (params : dict) : dict :=
  match x with
  | Some s => if String.eqb s "" then params else dict_set params k (JStr s)
  | None => params
  end.

(** The truth value of an optional text. *)
Definition given (x : option string) : bool :=
  match x with
  | Some s => negb (String.eqb s "")
  | None => false
  end.

Definition get_internal_transactions (cfg : RiseExplorerConfig)
    (address txhash : option string) (startblock endblock : option Z)
    (page offset : Z) (sort : string) : M dict :=
  if negb (given address) && negb (given txhash)
  then raise (ValueError "Either address or txhash must be provided")
  else
    let params :=
      [("module", JStr "account"); ("action", JStr "txlistinternal");
       ("page", JInt page); ("offset", JInt offset); ("sort", JStr sort)] in
    _make_request cfg
      (set_if_given "endblock" endblock
         (set_if_given "startblock" startblock
            (set_if_nonempty "txhash" txhash
               (set_if_nonempty "address" address params))))
      "GET".

Definition get_token_balance (cfg : RiseExplorerConfig)
    (contractaddress address : string) : M dict :=
  _make_request cfg
    [("module", JStr "account"); ("action", JStr "tokenbalance");
     ("contractaddress", JStr contractaddress); ("address", JStr address)] "GET".

Definition get_block_number_by_timestamp (cfg : RiseExplorerConfig)
    (timestamp : Z) (closest : string) : M dict :=
  if negb (String.eqb closest "before" || String.eqb closest "after")
  then raise (ValueError "closest must be 'before' or 'after'")
  else _make_request cfg
         [("module", JStr "block"); ("action", JStr "getblocknobytime");
          ("timestamp", JInt timestamp); ("closest", JStr closest)] "GET".

Definition get_contract_abi (cfg : RiseExplorerConfig) (address : string) : M dict :=
  _make_request cfg
    [("module", JStr "contract"); ("action", JStr "getabi");
     ("address", JStr address)] "GET".

Definition get_transaction_info (cfg : RiseExplorerConfig) (txhash : string)
  : M dict :=
  _make_request cfg
    [("module", JStr "transaction"); ("action", JStr "gettxinfo");
     ("txhash", JStr txhash)] "GET".

Definition get_transaction_receipt_status (cfg : RiseExplorerConfig)
    (txhash : string) : M dict :=
  _make_request cfg
    [("module", JStr "transaction"); ("action", JStr "gettxreceiptstatus");
     ("txhash", JStr txhash)] "GET".

Definition get_transaction_status (cfg : RiseExplorerConfig) (txhash : string)
  : M dict :=
  _make_request cfg
    [("module", JStr "transaction"); ("action", JStr "getstatus");
     ("txhash", JStr txhash)] "GET".

(** The optional arguments of [get_logs], in the order of its [if]s. *)
Record log_filter := LogFilter {
  log_address : option string;
  topic0 : option string;
  topic1 : option string;
  topic2 : option string;
  topic3 : option string;
  topic0_1_opr : option string;
  topic0_2_opr : option string;
  topic0_3_opr : option string;
  topic1_2_opr : option string;
  topic1_3_opr : option string;
  topic2_3_opr : option string
}.

Definition get_logs_params (fromBlock toBlock : Z) (f : log_filter) : dict :=
  let params :=
    [("module", JStr "logs"); ("action", JStr "getLogs");
     ("fromBlock", JInt fromBlock); ("toBlock", JInt toBlock)] in
  let params := set_if_nonempty "address" (log_address f) params in
  let params := set_if_nonempty "topic0" (topic0 f) params in
  let params := set_if_nonempty "topic1" (topic1 f) params in
  let params := set_if_nonempty "topic2" (topic2 f) params in
  let params := set_if_nonempty "topic3" (topic3 f) params in
  let params := set_if_nonempty "topic0_1_opr" (topic0_1_opr f) params in
  let params := set_if_nonempty "topic0_2_opr" (topic0_2_opr f) params in
  let params := set_if_nonempty "topic0_3_opr" (topic0_3_opr f) params in
  let params := set_if_nonempty "topic1_2_opr" (topic1_2_opr f) params in
  let params := set_if_nonempty "topic1_3_opr" (topic1_3_opr f) params in
  set_if_nonempty "topic2_3_opr" (topic2_3_opr f) params.

Definition get_logs (cfg : RiseExplorerConfig) (fromBlock toBlock : Z)
    (f : log_filter) : M dict :=
  _make_request cfg (get_logs_params fromBlock toBlock f) "GET".

Definition get_token_supply (cfg : RiseExplorerConfig) (contractaddress : string)
  : M dict :=
  _make_request cfg
    [("module", JStr "stats"); ("action", JStr "tokensupply");
     ("contractaddress", JStr contractaddress)] "GET".

Definition get_eth_supply (cfg : RiseExplorerConfig) : M dict :=
  _make_request cfg [("module", JStr "stats"); ("action", JStr "ethsupply")] "GET".

Definition get_coin_price (cfg : RiseExplorerConfig) : M dict :=
  _make_request cfg [("module", JStr "stats"); ("action", JStr "coinprice")] "GET".

(** ** DataExtractor *)

Record DataExtractor := Extractor {
  output_dir : string;
  client : RiseExplorerConfig
}.

(** [a / b] on paths. *)
Definition path_join (a b : string) : string := a +:+ "/" +:+ b.

Definition json_dir (self : DataExtractor) : string :=
  path_join (output_dir self) "json".

Definition csv_dir (self : DataExtractor) : string :=
  path_join (output_dir self) "csv".

(** [DataExtractor(output_dir)]: the three directories are made, and the
    client is [RiseExplorerClient()], with the default configuration. *)
Definition DataExtractor_init (output_dir : string) : M DataExtractor :=
  let self := Extractor output_dir default_config in
  mkdir output_dir ;;
  mkdir (json_dir self) ;;
  mkdir (csv_dir self) ;;
  ret self.

(** [if subdir: save_dir = base / subdir; save_dir.mkdir(exist_ok=True)] and
    [else: save_dir = base]. *)
Definition save_dir_of (base subdir : string) : M string :=
  if String.eqb subdir "" then ret base
  else
    let save_dir := path_join base subdir in
    mkdir save_dir ;;
    ret save_dir.

Definition _save_json (self : DataExtractor) (data : json)
    (filename subdir : string) : M string :=
  save_dir <- save_dir_of (json_dir self) subdir ;;
  let filepath := path_join save_dir (filename +:+ ".json") in
  write_file filepath (FJson data) ;;
  ret filepath.

(** The [TypeError] of [iter(v)]. *)
Definition not_iterable (v : json) : exn :=
  TypeError ("'" +:+ type_name v +:+ "' object is not iterable").

(** [for x in v], [list.extend(v)]: the elements, or [TypeError]. *)
Definition iterate (v : json) : M (list json) :=
  match py_iter v with
  | Some items => ret items
  | None => raise (not_iterable v)
  end.

(** [for record in data: keys.update(record.keys())]. *)
Fixpoint update_keys (data : list json) (keys : gset string) : M (gset string) :=
  match data with
  | [] => ret keys
  | JObj record :: rest => update_keys rest (keys ∪ list_to_set (dict_keys record))
  | record :: _ => raise (no_attribute record "keys")
  end.

(** [DictWriter._dict_to_list], with the defaults [restval=''] and
    [extrasaction='raise'].  The message of its [ValueError] goes on with the
    names of the fields; [_save_csv] never meets it, its field names being all
    the keys of the records. *)
Definition _dict_to_list (fieldnames : list string) (rowdict : json)
  : M (list json) :=
  match rowdict with
  | JObj record =>
      if forallb (λ k, bool_decide (k ∈ fieldnames)) (dict_keys record)
      then ret ((λ key, dict_get_default record key (JStr "")) <$> fieldnames)
      else raise (ValueError "dict contains fields not in fieldnames: ")
  | _ => raise (no_attribute rowdict "keys")
  end.

(** [DictWriter.writerows]: the rows, one list of cells per record. *)
Fixpoint writerows (fieldnames : list string) (rowdicts : list json)
  : M (list (list json)) :=
  match rowdicts with
  | [] => ret []
  | rowdict :: rest =>
      row <- _dict_to_list fieldnames rowdict ;;
      rows <- writerows fieldnames rest ;;
      ret (row :: rows)
  end.

Definition _save_csv (self : DataExtractor) (data : json)
    (filename subdir : string) : M (option string) :=
  if negb (truthy data) then
    log_warning (WarnNoData filename) ;;
    ret None
  else
    save_dir <- save_dir_of (csv_dir self) subdir ;;
    let filepath := path_join save_dir (filename +:+ ".csv") in
    records <- iterate data ;;
    keys <- update_keys records ∅ ;;
    let keys := merge_sort String.le (elements keys) in
    write_file filepath (FCsv keys []) ;;
    rows <- writerows keys records ;;
    put_file filepath (FCsv keys rows) ;;
    ret (Some filepath).

(** The [while len(all) < cap] loop of the three list extractions.  Each turn
    that goes on adds at least one record, so [cap] turns and a last test are
    enough: [OutOfFuel] is never the outcome of [accumulate]. *)
Fixpoint page_loop (fuel : nat) (fetch : Z → M dict) (cap : Z)
    (all : list json) (page : Z) : M (list json) :=
  match fuel with
  | O => out_of_fuel
  | S fuel' =>
      if Z.of_nat (length all) <? cap then
        result <- fetch page ;;
        if str_eq (dict_get result "status") "1" then
          let txs := dict_get_default result "result" (JList []) in
          if negb (truthy txs) then ret all
          else
            new <- iterate txs ;;
            page_loop fuel' fetch cap (all ++ new) (page + 1)
        else ret all
      else ret all
  end.

(** The loop from page 1, then [all = all[:cap]]. *)
Definition accumulate (fetch : Z → M dict) (cap : Z) : M (list json) :=
  all <- page_loop (S (Z.to_nat cap)) fetch cap [] 1 ;;
  ret (py_slice_to all cap).

(** [all_transactions] of [extract_account_data]. *)
Definition all_transactions (self : DataExtractor) (address : string)
    (max_transactions : Z) : M (list json) :=
  accumulate
    (λ page, get_transactions (client self) address None None page
               (Z.min 100 max_transactions) "desc")
    max_transactions.

(** [all_transfers] of [extract_token_transfers]. *)
Definition all_transfers (self : DataExtractor) (address : string)
    (contract_address : option string) (max_transfers : Z) : M (list json) :=
  accumulate
    (λ page, get_token_transfers (client self) address contract_address
               None None page 100 "desc")
    max_transfers.

(** [all_holders] of [extract_token_holders]. *)
Definition all_holders (self : DataExtractor) (contract_address : string)
    (max_holders : Z) : M (list json) :=
  accumulate
    (λ page, get_token_holders (client self) contract_address page
               (Z.min 100 max_holders))
    max_holders.

(** [Dict[str, Path]] of the saved files; [_save_csv] may give [None]. *)
Abbreviation saved := (gmap string (option string)).

Definition extract_account_data (self : DataExtractor) (address : string)
    (include_transactions include_tokens : bool) (max_transactions : Z)
  : M saved :=
  ts <- timestamp ;;
  let account_dir := "account_" +:+ str_prefix 10 address in
  balance_result <- get_balance (client self) address ;;
  p <- _save_json self (JObj balance_result) (ts +:+ "_balance") account_dir ;;
  let saved_files : saved := {["balance" := Some p]} in
  saved_files <-
    (if include_transactions then
       all <- all_transactions self address max_transactions ;;
       p <- _save_json self (JList all) (ts +:+ "_transactions") account_dir ;;
       let saved_files := <["transactions_json" := Some p]> saved_files in
       if truthy (JList all) then
         q <- _save_csv self (JList all) (ts +:+ "_transactions") account_dir ;;
         ret (<["transactions_csv" := q]> saved_files)
       else ret saved_files
     else ret saved_files) ;;
  if include_tokens then
    token_result <- get_token_list (client self) address ;;
    if str_eq (dict_get token_result "status") "1" then
      let tokens := dict_get_default token_result "result" (JList []) in
      p <- _save_json self tokens (ts +:+ "_tokens") account_dir ;;
      let saved_files := <["tokens_json" := Some p]> saved_files in
      if truthy tokens then
        q <- _save_csv self tokens (ts +:+ "_tokens") account_dir ;;
        ret (<["tokens_csv" := q]> saved_files)
      else ret saved_files
    else ret saved_files
  else ret saved_files.

Definition extract_token_transfers (self : DataExtractor) (address : string)
    (contract_address : option string) (max_transfers : Z) : M saved :=
  ts <- timestamp ;;
  all <- all_transfers self address contract_address max_transfers ;;
  if truthy (JList all) then
    let name := ts +:+ "_token_transfers_" +:+ str_prefix 10 address in
    p <- _save_json self (JList all) name "token_transfers" ;;
    q <- _save_csv self (JList all) name "token_transfers" ;;
    ret (<["csv" := q]> (<["json" := Some p]> ∅))
  else ret ∅.

(** [contracts[0]]. *)
Definition first_item (v : json) : M json :=
  match v with
  | JList (x :: _) => ret x
  | JList [] => raise (IndexError "list index out of range")
  | JStr (String c _) => ret (JStr (String c EmptyString))
  | JStr EmptyString => raise (IndexError "string index out of range")
  | JObj _ => raise (KeyError "0")
  | JNull | JBool _ | JInt _ | JFloat _ =>
      raise (TypeError ("'" +:+ type_name v +:+ "' object is not subscriptable"))
  end.

(** [f.write(v)] on a text file just opened at [path]: the text is written,
    or the file stays empty and [TypeError] is raised. *)
Definition write_text (path : string) (v : json) : M unit :=
  match v with
  | JStr text => write_file path (FText text)
  | _ => write_file path (FText "") ;;
         raise (TypeError ("write() argument must be str, not " +:+ type_name v))
  end.

Section contract.
(** [json.loads] on a [str]: the decoded value, or the message of the
    [JSONDecodeError] for a text that is not JSON. *)
Variable json_loads : string → json + string.

(** The [TypeError] of [json.loads(v)] for a [v] that is not a text. *)
Definition not_json_text (v : json) : exn :=
  TypeError ("the JSON object must be str, bytes or bytearray, not " +:+ type_name v).

Definition loads (v : json) : M json :=
  match v with
  | JStr s =>
      match json_loads s with
      | inl x => ret x
      | inr msg => raise (JSONDecodeError msg)
      end
  | _ => raise (not_json_text v)
  end.

Definition extract_contract_data (self : DataExtractor)
    (contract_address : string) : M saved :=
  ts <- timestamp ;;
  let contract_dir := "contract_" +:+ str_prefix 10 contract_address in
  source_result <- get_contract_source_code (client self) contract_address ;;
  if str_eq (dict_get source_result "status") "1" then
    let contracts := dict_get_default source_result "result" (JList []) in
    if truthy contracts then
      contract <- first_item contracts ;;
      p <- _save_json self contract (ts +:+ "_contract_full") contract_dir ;;
      let saved_files : saved := {["full_data" := Some p]} in
      fields <- method_of_dict "get" contract ;;
      let source_code := dict_get_default fields "SourceCode" (JStr "") in
      let source_file :=
        path_join (path_join (output_dir self) contract_dir)
                  (ts +:+ "_source.sol") in
      mkdir (path_join (output_dir self) contract_dir) ;;
      write_text source_file source_code ;;
      let saved_files := <["source_code" := Some source_file]> saved_files in
      let abi := dict_get_default fields "ABI" (JStr "") in
      let abi_file :=
        path_join (path_join (output_dir self) contract_dir)
                  (ts +:+ "_abi.json") in
      try_except
        (abi_parsed <- loads abi ;;
         write_file abi_file (FJson abi_parsed) ;;
         ret (<["abi" := Some abi_file]> saved_files))
        (λ e, match e with
              | JSONDecodeError _ =>
                  Some (log_warning WarnAbiNotJson ;; ret saved_files)
              | _ => None
              end)
    else ret ∅
  else
    log_warning (WarnContractNotFound contract_address) ;;
    ret ∅.
End contract.

(** The [for block_num in range(start_block, end_block + 1)] loop of
    [extract_block_range]. *)
Fixpoint block_loop (cfg : RiseExplorerConfig) (blocks : list Z)
    (block_data : list json) : M (list json) :=
  match blocks with
  | [] => ret block_data
  | block_num :: rest =>
      result <- get_block_reward cfg block_num ;;
      block_loop cfg rest
        (if str_eq (dict_get result "status") "1"
         then block_data ++ [dict_get_default result "result" (JObj [])]
         else block_data)
  end.

Definition block_data (self : DataExtractor) (start_block end_block : Z)
  : M (list json) :=
  block_loop (client self) (py_range start_block (end_block + 1)) [].

Definition extract_block_range (self : DataExtractor)
    (start_block end_block : Z) : M saved :=
  ts <- timestamp ;;
  blocks <- block_data self start_block end_block ;;
  if truthy (JList blocks) then
    let name := ts +:+ "_blocks_" +:+ str_of_int start_block +:+ "_to_"
                +:+ str_of_int end_block in
    p <- _save_json self (JList blocks) name "blocks" ;;
    q <- _save_csv self (JList blocks) name "blocks" ;;
    ret (<["csv" := q]> (<["json" := Some p]> ∅))
  else ret ∅.

Definition extract_token_holders (self : DataExtractor)
    (contract_address : string) (max_holders : Z) : M saved :=
  ts <- timestamp ;;
  token_info_result <- get_token_info (client self) contract_address ;;
  let token_info :=
    if str_eq (dict_get token_info_result "status") "1"
    then dict_get_default token_info_result "result" (JObj [])
    else JObj [] in
  all <- all_holders self contract_address max_holders ;;
  if truthy (JList all) then
    let data_to_save :=
      JObj [("token_info", token_info); ("holders", JList all);
            ("total_holders_fetched", JInt (Z.of_nat (length all)))] in
    let name := ts +:+ "_token_holders_" +:+ str_prefix 10 contract_address in
    p <- _save_json self data_to_save name "token_holders" ;;
    q <- _save_csv self (JList all) name "token_holders" ;;
    ret (<["csv" := q]> (<["json" := Some p]> ∅))
  else ret ∅.

(** ** Vocabulary of the statements

    What the properties below say about a run is said with these: the call a
    request makes, the world after a reply, the replies the network gives
    next, the records of a page. *)

Definition call_of (cfg : RiseExplorerConfig) (params : dict) (method : string)
  : http_call :=
  HttpCall (verb_of method) (base_url cfg) params (timeout cfg).

(** The world after a reply [data] to one exchange: the call is recorded, and
    a [status] of ['0'] leaves a warning. *)
Definition replied (cfg : RiseExplorerConfig) (params : dict) (method : string)
    (data : dict) (w : world) : world :=
  if str_eq (dict_get data "status") "0"
  then warned (WarnApiError (dict_get_default data "message" (JStr "Unknown error")))
              (sent (call_of cfg params method) w)
  else sent (call_of cfg params method) w.

Definition returns_at_most (cap : Z) (r : outcome (list json) * world) : Prop :=
  match r with
  | (Ok l, _) => Z.of_nat (length l) ≤ Z.max 0 cap
  | (Raise _, _) => True
  | (OutOfFuel, _) => False
  end.

(** The next exchanges succeed at once, with these bodies in this order. *)
Definition answers (w : world) (bodies : list dict) : Prop :=
  ∀ (j : nat) body,
    bodies !! j = Some body →
    net w (length (http_log w) + j)%nat = HttpOk (JObj body).

(** The records of a page: its [result] list. *)
Definition records (body : dict) : list json :=
  match dict_get body "result" with
  | Some (JList items) => items
  | _ => []
  end.

(** A page of status ['1'] whose [result] is a list with a record in it. *)
Definition full_page (body : dict) : bool :=
  str_eq (dict_get body "status") "1" &&
  match dict_get body "result" with
  | Some (JList (_ :: _)) => true
  | _ => false
  end.

(** The world after the pages [page], [page + 1], ... were asked for and
    answered at once by [bodies]. *)
Fixpoint replied_pages (cfg : RiseExplorerConfig) (params : Z → dict) (page : Z)
    (bodies : list dict) (w : world) : world :=
  match bodies with
  | [] => w
  | body :: rest =>
      replied_pages cfg params (page + 1) rest
        (replied cfg (params page) "GET" body w)
  end.

(** The run [r] from [w] returned [l], and the calls it made are those for
    the pages [pages], in this order. *)
Definition fetched (w : world) (r : outcome (list json) * world)
    (l : list json) (pages : list Z) : Prop :=
  r.1 = Ok l ∧
  ∃ calls, http_log r.2 = http_log w ++ calls ∧
           (λ c, dict_get (call_params c) "page") <$> calls
           = (λ page, Some (JInt page)) <$> pages.

(** What [extract_block_range] keeps of a reply: its [result] when the status
    is ['1'], nothing otherwise. *)
Definition block_result (body : dict) : option json :=
  if str_eq (dict_get body "status") "1"
  then Some (dict_get_default body "result" (JObj []))
  else None.

Definition block_call (cfg : RiseExplorerConfig) (blockno : Z) : http_call :=
  HttpCall GET (base_url cfg)
    [("module", JStr "block"); ("action", JStr "getblockreward");
     ("blockno", JInt blockno)] (timeout cfg).

(** The file system lets the next [n] calls succeed. *)
Definition accepts (w : world) (n : nat) : Prop :=
  ∀ i : nat, (i < n)%nat → disk w (length (fs_log w) + i)%nat = None.

(** The calls of the file system one save makes: the [mkdir] of a
    subdirectory, when there is one, and the [open]. *)
Definition save_calls (subdir : string) : nat :=
  if String.eqb subdir "" then 1%nat else 2%nat.

(** The world after calls of the file system that wrote nothing. *)
Definition after_calls (calls : list fs_call) (w : world) : world :=
  World (net w) (disk w) (clock w) (http_log w) (fs_log w ++ calls)
        (sleep_log w) (warn_log w) (files w).

(** How a save of [c] at [path], under [base / subdir], runs: the [mkdir]
    of the subdirectory, when there is one, then the [open]; what either
    raises ends the save, with no file written; otherwise the file holds [c]
    and [a] is returned. *)
Definition save_run {A} (base subdir path : string) (c : file_content) (a : A)
    (w : world) : outcome A * world :=
  let w1 := if String.eqb subdir "" then w
            else called (Mkdir (path_join base subdir)) w in
  match (if String.eqb subdir "" then None else disk w (length (fs_log w))) with
  | Some e => (Raise e, w1)
  | None =>
      match disk w (length (fs_log w1)) with
      | Some e => (Raise e, called (Open path) w1)
      | None => (Ok a, wrote path c (called (Open path) w1))
      end
  end.

(** The world after the calls of a save of [c] at [path], under
    [base / subdir], that the file system accepted. *)
Definition saved_file (base subdir path : string) (c : file_content) (w : world)
  : world :=
  wrote path c
    (called (Open path)
       (if String.eqb subdir "" then w
        else called (Mkdir (path_join base subdir)) w)).

(** The next exchanges raise transport errors, with these messages in this
    order. *)
Definition refuses (w : world) (msgs : list string) : Prop :=
  ∀ (i : nat) msg,
    msgs !! i = Some msg →
    net w (length (http_log w) + i)%nat = HttpRaise (RequestException msg).

(** The world after the attempts [attempt], [attempt + 1], ... of one
    request failed with the transport errors [msgs] and were retried: each
    leaves a call, a warning and a sleep. *)
Fixpoint retried (cfg : RiseExplorerConfig) (params : dict) (method : string)
    (attempt : Z) (msgs : list string) (w : world) : world :=
  match msgs with
  | [] => w
  | msg :: rest =>
      retried cfg params method (attempt + 1) rest
        (slept (retry_delay cfg * (attempt + 1))
           (warned (WarnAttemptFailed (attempt + 1) msg)
              (sent (call_of cfg params method) w)))
  end.

(** What a request carries for an optional text argument: nothing for [None]
    and for [''], the text otherwise. *)
Definition text_param (x : option string) : option json :=
  match x with
  | Some s => if String.eqb s "" then None else Some (JStr s)
  | None => None
  end.

(** The calls the run [r] from [w] added are GET calls to the base URL with
    the timeout of the configuration. *)
Definition only_gets (cfg : RiseExplorerConfig) (w : world) {A}
    (r : outcome A * world) : Prop :=
  ∃ calls, http_log r.2 = http_log w ++ calls ∧
           Forall (λ c, call_verb c = GET ∧ call_url c = base_url cfg
                        ∧ call_timeout c = timeout cfg) calls.

(** The calls the run [r] from [w] added are GET calls for pages of [size]
    records of one list endpoint, pages numbered from 1; there are at most
    [cap] times [max_retries] of them, and when there is one, [size] is
    between 1 and 100. *)
Definition asks_pages (cfg : RiseExplorerConfig) (action : string) (size cap : Z)
    (w : world) (r : outcome (list json) * world) : Prop :=
  ∃ calls,
    http_log r.2 = http_log w ++ calls ∧
    Forall (λ c, call_verb c = GET ∧
                 dict_get (call_params c) "action" = Some (JStr action) ∧
                 dict_get (call_params c) "offset" = Some (JInt size) ∧
                 ∃ page, 1 ≤ page ∧
                         dict_get (call_params c) "page" = Some (JInt page))
           calls ∧
    Z.of_nat (length calls) ≤ Z.max 0 cap * Z.max 0 (max_retries cfg) ∧
    (calls ≠ [] → 1 ≤ size ≤ 100).

(** The run [r] from [w] raised [e] after [calls] calls, and wrote no file. *)
Definition aborts {A} (e : exn) (calls : nat) (w : world)
    (r : outcome A * world) : Prop :=
  r.1 = Raise e ∧ files r.2 = files w ∧
  length (http_log r.2) = (length (http_log w) + calls)%nat.

(** The header and the rows [_save_csv] writes for the records [ds]. *)
Definition csv_header (ds : list dict) : list string :=
  merge_sort String.le
    (elements ((∅ : gset string) ∪ ⋃ ((λ r, list_to_set (dict_keys r)) <$> ds))).

Definition csv_rows (ds : list dict) : list (list json) :=
  (λ r, (λ k, dict_get_default r k (JStr "")) <$> csv_header ds) <$> ds.

(** The paths of [_save_json] and [_save_csv]. *)
Definition json_path (self : DataExtractor) (filename subdir : string) : string :=
  path_join (if String.eqb subdir "" then json_dir self
             else path_join (json_dir self) subdir) (filename +:+ ".json").

Definition csv_path (self : DataExtractor) (filename subdir : string) : string :=
  path_join (if String.eqb subdir "" then csv_dir self
             else path_join (csv_dir self) subdir) (filename +:+ ".csv").

(** How the export of a list ends.  A run [r] from [w] that returns has either
    saved nothing, or saved between 1 and [cap] records, all dicts, as a JSON
    file holding [content] of the records and a CSV file with a row per
    record, and returned the two paths; a run that raises has written no file,
    or the JSON file only. *)
Definition exported (self : DataExtractor) (w : world) (name subdir : string)
    (content : list json → json) (cap : Z) (r : outcome saved * world) : Prop :=
  match r with
  | (Ok saved_files, w') =>
      (saved_files = ∅ ∧ files w' = files w)
      ∨ ∃ ds, ds ≠ [] ∧ Z.of_nat (length ds) ≤ cap ∧
              saved_files = <["csv" := Some (csv_path self name subdir)]>
                              {["json" := Some (json_path self name subdir)]} ∧
              files w' = <[csv_path self name subdir :=
                             FCsv (csv_header ds) (csv_rows ds)]>
                           (<[json_path self name subdir :=
                                FJson (content (JObj <$> ds))]> (files w))
  | (Raise _, w') =>
      files w' = files w
      ∨ ∃ l, files w' = <[json_path self name subdir := FJson (content l)]> (files w)
  | (OutOfFuel, _) => False
  end.

(** ** Sample runs

    The inputs of the concrete runs checked at the end. *)

(** A world whose file system accepts every call. *)
Definition sample_world (replies : nat → http_outcome) : world :=
  World replies (λ _, None) "20260101_120000" [] [] [] [] ∅.

(** A world whose file system refuses every call, for a missing parent
    directory. *)
Definition missing_directory : exn :=
  OSError "FileNotFoundError" "[Errno 2] No such file or directory".

Definition sample_world_without_directory (replies : nat → http_outcome) : world :=
  World replies (λ _, Some missing_directory) "20260101_120000" [] [] [] [] ∅.

Definition sample_extractor : DataExtractor := Extractor "out" default_config.

Definition ok_body (result : json) : dict :=
  [("status", JStr "1"); ("message", JStr "OK"); ("result", result)].

Definition error_body : dict :=
  [("status", JStr "0"); ("message", JStr "No data found"); ("result", JNull)].

Definition record_of (n : Z) : json := JObj [("blockNumber", JInt n)].

(** Two timeouts, then a reply. *)
Definition replies_after_two_failures (k : nat) : http_outcome :=
  match k with
  | 0%nat | 1%nat => HttpRaise (RequestException "timeout")
  | _ => HttpOk (JObj (ok_body (JStr "42")))
  end.

Definition replies_never (k : nat) : http_outcome :=
  HttpRaise (RequestException "connection refused").

(** A page of two records, then an application-level failure. *)
Definition replies_page_then_failure (k : nat) : http_outcome :=
  match k with
  | 0%nat => HttpOk (JObj (ok_body (JList [record_of 1; record_of 2])))
  | _ => HttpOk (JObj error_body)
  end.

(** Three records on two pages, then an empty page. *)
Definition replies_three_records (k : nat) : http_outcome :=
  match k with
  | 0%nat => HttpOk (JObj (ok_body (JList [record_of 1; record_of 2])))
  | 1%nat => HttpOk (JObj (ok_body (JList [record_of 3])))
  | _ => HttpOk (JObj (ok_body (JList [])))
  end.

(** Blocks 100 and 102 are found, block 101 is not. *)
Definition replies_blocks (k : nat) : http_outcome :=
  match k with
  | 1%nat => HttpOk (JObj error_body)
  | _ => HttpOk (JObj (ok_body (JObj [("blockNumber", JInt (100 + Z.of_nat k))])))
  end.

Definition unverified_contract : dict :=
  [("SourceCode", JStr "contract C {}");
   ("ABI", JStr "Contract source code not verified")].

Definition replies_contract (k : nat) : http_outcome :=
  HttpOk (JObj (ok_body (JList [JObj unverified_contract]))).

(** A [json.loads] that knows one text. *)
Definition sample_loads (s : string) : json + string :=
  if String.eqb s "[]" then inl (JList [])
  else inr "Expecting value: line 1 column 1 (char 0)".

Definition sample_records : list dict :=
  [[("a", JInt 1); ("b", JInt 2)]; [("a", JInt 3); ("c", JInt 4)]].

Definition no_retry_config : RiseExplorerConfig :=
  Config "https://explorer.testnet.riselabs.xyz/api" 30 0 1.

(** Three attempts with no delay, and with a negative one. *)
Definition zero_delay_config : RiseExplorerConfig :=
  Config "https://explorer.testnet.riselabs.xyz/api" 30 3 0.

Definition negative_delay_config : RiseExplorerConfig :=
  Config "https://explorer.testnet.riselabs.xyz/api" 30 3 (-1).

(** A reply of status 200 whose body is a JSON list. *)
Definition replies_list (k : nat) : http_outcome := HttpOk (JList []).

Definition replies_always (body : dict) (k : nat) : http_outcome :=
  HttpOk (JObj body).

(** An exchange that raises something else than a transport error. *)
Definition replies_invalid (k : nat) : http_outcome :=
  HttpRaise (ValueError "Invalid header value").

(** A page of two records, then nothing but refusals. *)
Definition replies_page_then_refused (k : nat) : http_outcome :=
  match k with
  | 0%nat => HttpOk (JObj (ok_body (JList [record_of 1; record_of 2])))
  | _ => HttpRaise (RequestException "connection refused")
  end.

Definition verified_contract : dict :=
  [("SourceCode", JStr "contract C {}"); ("ABI", JStr "[]")].

Definition contract_without_abi : dict :=
  [("SourceCode", JStr "contract C {}"); ("ABI", JNull)].

(** * Properties *)

(** ** Ranges and slices *)

Lemma py_range_nil lo hi : hi ≤ lo → py_range lo hi = [].
Proof.
  intros H. unfold py_range.
  replace (Z.to_nat (hi - lo)) with 0%nat by lia. reflexivity.
Qed.

Lemma py_range_cons lo hi : lo < hi → py_range lo hi = lo :: py_range (lo + 1) hi.
Proof.
  intros H. unfold py_range.
  replace (Z.to_nat (hi - lo)) with (S (Z.to_nat (hi - (lo + 1)))) by lia.
  cbn [seq fmap list_fmap]. f_equal; [lia|].
  rewrite <- seq_shift, <- list_fmap_compose.
  apply list_fmap_ext. intros _ i _. cbn. lia.
Qed.

Lemma py_range_length lo hi : length (py_range lo hi) = Z.to_nat (hi - lo).
Proof. unfold py_range. by rewrite length_fmap, length_seq. Qed.

Lemma py_slice_to_take {A} (l : list A) n :
  0 ≤ n → py_slice_to l n = take (Z.to_nat n) l.
Proof. intros H. unfold py_slice_to. destruct (Z.ltb_spec n 0); [lia | done]. Qed.

Lemma py_slice_to_length {A} (l : list A) n :
  0 ≤ n → Z.of_nat (length (py_slice_to l n)) ≤ n.
Proof. intros H. rewrite py_slice_to_take, length_take by done. lia. Qed.

(** ** The request executor *)

Lemma try_request_ok cfg params method w data :
  net w (length (http_log w)) = HttpOk (JObj data) →
  try_request cfg params method w = (Ok data, replied cfg params method data w).
Proof.
  intros Hnet. unfold try_request, bind, session_request, replied.
  rewrite Hnet. fold (call_of cfg params method). cbn [method_of_dict]. unfold ret at 1.
  by destruct (str_eq (dict_get data "status") "0").
Qed.

(** A body that is not a [dict] has no [get]. *)
Lemma try_request_not_dict cfg params method w body :
  net w (length (http_log w)) = HttpOk body →
  is_dict body = false →
  try_request cfg params method w
  = (Raise (no_attribute body "get"), sent (call_of cfg params method) w).
Proof.
  intros Hnet Hbody. unfold try_request, bind, session_request.
  rewrite Hnet. fold (call_of cfg params method). by destruct body.
Qed.

Lemma try_request_raise cfg params method w e :
  net w (length (http_log w)) = HttpRaise e →
  try_request cfg params method w = (Raise e, sent (call_of cfg params method) w).
Proof.
  intros Hnet. unfold try_request, bind, session_request. by rewrite Hnet.
Qed.

Lemma attempt_loop_ok cfg params method attempt rest w data :
  net w (length (http_log w)) = HttpOk (JObj data) →
  attempt_loop cfg params method (attempt :: rest) w
  = (Ok (Some data), replied cfg params method data w).
Proof.
  intros Hnet. cbn [attempt_loop]. unfold bind at 1. unfold try_except.
  unfold bind at 1. by rewrite (try_request_ok _ _ _ _ _ Hnet).
Qed.

(** A failed attempt that is not the last one: a warning, a sleep, and the
    loop goes on. *)
Lemma attempt_loop_retry cfg params method attempt rest w msg :
  net w (length (http_log w)) = HttpRaise (RequestException msg) →
  attempt < max_retries cfg - 1 →
  0 ≤ retry_delay cfg * (attempt + 1) →
  attempt_loop cfg params method (attempt :: rest) w
  = attempt_loop cfg params method rest
      (slept (retry_delay cfg * (attempt + 1))
         (warned (WarnAttemptFailed (attempt + 1) msg)
            (sent (call_of cfg params method) w))).
Proof.
  intros Hnet Hlt Hpos. cbn [attempt_loop]. unfold bind at 1. unfold try_except.
  unfold bind at 1. rewrite (try_request_raise _ _ _ _ _ Hnet).
  unfold bind, log_warning, time_sleep, ret.
  destruct (Z.ltb_spec attempt (max_retries cfg - 1)); [|lia].
  destruct (Z.ltb_spec (retry_delay cfg * (attempt + 1)) 0); [lia|]. done.
Qed.

(** A failed last attempt: a warning, and the error of the attempt again. *)
Lemma attempt_loop_last cfg params method attempt rest w msg :
  net w (length (http_log w)) = HttpRaise (RequestException msg) →
  max_retries cfg - 1 ≤ attempt →
  attempt_loop cfg params method (attempt :: rest) w
  = (Raise (RequestException msg),
     warned (WarnAttemptFailed (attempt + 1) msg)
       (sent (call_of cfg params method) w)).
Proof.
  intros Hnet Hge. cbn [attempt_loop]. unfold bind at 1. unfold try_except.
  unfold bind at 1. rewrite (try_request_raise _ _ _ _ _ Hnet).
  unfold bind, log_warning, raise.
  destruct (Z.ltb_spec attempt (max_retries cfg - 1)); [lia|]. done.
Qed.

(** The [AttributeError] of a body that is not a [dict] is not caught: the
    loop ends with it, after the one call. *)
Lemma attempt_loop_not_dict cfg params method attempt rest w body :
  net w (length (http_log w)) = HttpOk body →
  is_dict body = false →
  attempt_loop cfg params method (attempt :: rest) w
  = (Raise (no_attribute body "get"), sent (call_of cfg params method) w).
Proof.
  intros Hnet Hbody. cbn [attempt_loop]. unfold bind at 1. unfold try_except.
  unfold bind at 1. by rewrite (try_request_not_dict _ _ _ _ _ Hnet Hbody).
Qed.

Lemma make_request_first_ok cfg params method w data :
  1 ≤ max_retries cfg →
  net w (length (http_log w)) = HttpOk (JObj data) →
  _make_request cfg params method w = (Ok data, replied cfg params method data w).
Proof.
  intros Hn Hnet. unfold _make_request, bind.
  rewrite py_range_cons by lia.
  by rewrite (attempt_loop_ok _ _ _ _ _ _ _ Hnet).
Qed.

Lemma make_request_first_not_dict cfg params method w body :
  1 ≤ max_retries cfg →
  net w (length (http_log w)) = HttpOk body →
  is_dict body = false →
  _make_request cfg params method w
  = (Raise (no_attribute body "get"), sent (call_of cfg params method) w).
Proof.
  intros Hn Hnet Hbody. unfold _make_request, bind.
  rewrite py_range_cons by lia.
  by rewrite (attempt_loop_not_dict _ _ _ _ _ _ _ Hnet Hbody).
Qed.

(** One turn of the attempt loop, by the outcome of its exchange. *)
Lemma attempt_loop_step cfg params method attempt rest w :
  attempt_loop cfg params method (attempt :: rest) w =
  match net w (length (http_log w)) with
  | HttpOk (JObj data) => (Ok (Some data), replied cfg params method data w)
  | HttpOk body =>
      (Raise (no_attribute body "get"), sent (call_of cfg params method) w)
  | HttpRaise (RequestException msg) =>
      let w1 := warned (WarnAttemptFailed (attempt + 1) msg)
                       (sent (call_of cfg params method) w) in
      if attempt <? max_retries cfg - 1 then
        if retry_delay cfg * (attempt + 1) <? 0
        then (Raise (ValueError "sleep length must be non-negative"), w1)
        else attempt_loop cfg params method rest
               (slept (retry_delay cfg * (attempt + 1)) w1)
      else (Raise (RequestException msg), w1)
  | HttpRaise e => (Raise e, sent (call_of cfg params method) w)
  end.
Proof.
  destruct (net w (length (http_log w))) as [body|e] eqn:Hnet.
  - destruct body; (by apply attempt_loop_ok) || by apply attempt_loop_not_dict.
  - cbn [attempt_loop]. unfold bind at 1. unfold try_except.
    unfold bind at 1. rewrite (try_request_raise _ _ _ _ _ Hnet).
    destruct e; try done.
    unfold bind, log_warning, time_sleep, raise, ret. cbn zeta.
    destruct (attempt <? max_retries cfg - 1); [|done].
    by destruct (retry_delay cfg * (attempt + 1) <? 0).
Qed.

(** From an attempt index below [max_retries], the loop never ends without a
    [return] or a [raise]. *)
Lemma attempt_loop_not_exhausted cfg params method (m : nat) :
  ∀ k w w', Z.to_nat (max_retries cfg - k) = S m →
    attempt_loop cfg params method (py_range k (max_retries cfg)) w ≠ (Ok None, w').
Proof.
  induction m as [|m IH]; intros k w w' Hm;
    rewrite py_range_cons by lia; rewrite attempt_loop_step;
    destruct (net w (length (http_log w))) as [[]|[]]; try done; cbn zeta.
  - destruct (Z.ltb_spec k (max_retries cfg - 1)); [lia | done].
  - destruct (Z.ltb_spec k (max_retries cfg - 1)); [|done].
    destruct (retry_delay cfg * (k + 1) <? 0); [done|].
    apply IH. lia.
Qed.

(** The calls of one [_make_request] are all the same call, at most
    [max_retries] of them. *)
Lemma attempt_loop_calls cfg params method attempts :
  ∀ w, ∃ n : nat,
    (n ≤ length attempts)%nat ∧
    http_log (attempt_loop cfg params method attempts w).2
    = http_log w ++ replicate n (call_of cfg params method).
Proof.
  induction attempts as [|attempt rest IH]; intros w.
  - exists 0%nat. split; [done|]. cbn. by rewrite app_nil_r.
  - rewrite attempt_loop_step.
    assert (∃ n : nat, (n ≤ S (length rest))%nat ∧
              http_log (sent (call_of cfg params method) w)
              = http_log w ++ replicate n (call_of cfg params method)) as Hone.
    { exists 1%nat. split; [lia | done]. }
    destruct (net w (length (http_log w))) as [body|e].
    + destruct body as [| | | | | |data]; try (cbn [snd length]; exact Hone).
      exists 1%nat. split; [cbn; lia|]. unfold replied.
      by destruct (str_eq (dict_get data "status") "0").
    + destruct e; try (cbn [snd length]; exact Hone). cbn zeta.
      destruct (attempt <? max_retries cfg - 1); [|cbn [snd length]; exact Hone].
      destruct (retry_delay cfg * (attempt + 1) <? 0);
        [cbn [snd length]; exact Hone|].
      match goal with |- context [attempt_loop _ _ _ rest ?w1] =>
        destruct (IH w1) as (n & Hn & ->) end.
      exists (S n). split; [cbn; lia|].
      cbn [http_log slept warned sent]. by rewrite <- app_assoc.
Qed.

(** An exception out of the attempt loop is the one an exchange raised, the
    [ValueError] of a negative sleep, or the [AttributeError] of a body that
    is not a [dict]. *)
Lemma attempt_loop_raises cfg params method attempts :
  ∀ w e w', attempt_loop cfg params method attempts w = (Raise e, w') →
    (∃ k, net w k = HttpRaise e)
    ∨ e = ValueError "sleep length must be non-negative"
    ∨ (∃ k body, net w k = HttpOk body ∧ is_dict body = false
                 ∧ e = no_attribute body "get").
Proof.
  induction attempts as [|attempt rest IH]; intros w e w'; [done|].
  rewrite attempt_loop_step.
  destruct (net w (length (http_log w))) as [body|e0] eqn:Hnet.
  { destruct body; try done; intros [= <- _]; right; right; eauto. }
  assert (∀ w1, (Raise e0 : outcome (option dict), w1) = (Raise e, w') →
            (∃ k, net w k = HttpRaise e)
            ∨ e = ValueError "sleep length must be non-negative"
            ∨ (∃ k body, net w k = HttpOk body ∧ is_dict body = false
                         ∧ e = no_attribute body "get")) as Hsame.
  { intros w1 [= <- _]. left. eauto. }
  destruct e0; try apply Hsame. cbn zeta.
  destruct (attempt <? max_retries cfg - 1); [|apply Hsame].
  destruct (retry_delay cfg * (attempt + 1) <? 0).
  - intros [= <- _]. right. by left.
  - intros H. by apply IH in H.
Qed.

Lemma make_request_raises cfg params method w e w' :
  _make_request cfg params method w = (Raise e, w') →
  (∃ k, net w k = HttpRaise e)
  ∨ e = ValueError "sleep length must be non-negative"
  ∨ e = RequestException "Max retries exceeded"
  ∨ (∃ k body, net w k = HttpOk body ∧ is_dict body = false
               ∧ e = no_attribute body "get").
Proof.
  unfold _make_request, bind.
  destruct (attempt_loop _ _ _ _ w) as [[[data|]|e0|] w1] eqn:Hloop; try done.
  - intros [= <- _]. auto.
  - intros [= <- _]. apply attempt_loop_raises in Hloop. tauto.
Qed.

Lemma make_request_calls cfg params method w :
  ∃ n : nat,
    Z.of_nat n ≤ Z.max 0 (max_retries cfg) ∧
    http_log (_make_request cfg params method w).2
    = http_log w ++ replicate n (call_of cfg params method).
Proof.
  destruct (attempt_loop_calls cfg params method
              (py_range 0 (max_retries cfg)) w) as (n & Hn & Hlog).
  exists n. split; [rewrite py_range_length in Hn; lia|].
  unfold _make_request, bind.
  by destruct (attempt_loop _ _ _ _ w) as [[[data|]|e0|] w1].
Qed.

(** C5: when the exchange of an attempt succeeds and the decoded body is a
    JSON object, the attempt loop returns the body as it is, whatever its
    [status] field, and so does [_make_request] when that attempt is the
    first: no exception, no retry (one call recorded, no sleep), and a warning
    exactly for a [status] of ['0'].  When the decoded body is not an object
    (a list, a text, a number, [null]), [data.get] raises [AttributeError],
    which is not caught: no retry, no sleep, no warning. *)
Theorem make_request_returns_body cfg params method attempt rest w body :
  net w (length (http_log w)) = HttpOk body →
  ∃ w',
    http_log w' = http_log w
                  ++ [HttpCall (verb_of method) (base_url cfg) params (timeout cfg)] ∧
    sleep_log w' = sleep_log w ∧
    files w' = files w ∧
    match body with
    | JObj data =>
        attempt_loop cfg params method (attempt :: rest) w = (Ok (Some data), w') ∧
        (1 ≤ max_retries cfg → _make_request cfg params method w = (Ok data, w')) ∧
        warn_log w' =
          warn_log w ++
          (if str_eq (dict_get data "status") "0"
           then [WarnApiError (dict_get_default data "message" (JStr "Unknown error"))]
           else [])
    | _ =>
        attempt_loop cfg params method (attempt :: rest) w
        = (Raise (no_attribute body "get"), w') ∧
        (1 ≤ max_retries cfg →
           _make_request cfg params method w = (Raise (no_attribute body "get"), w')) ∧
        warn_log w' = warn_log w
    end.
Proof.
  intros Hnet.
  destruct (is_dict body) eqn:Hbody.
  - destruct body as [| | | | | |data]; try done.
    exists (replied cfg params method data w).
    rewrite (attempt_loop_ok _ _ _ _ _ _ _ Hnet).
    assert (1 ≤ max_retries cfg →
            _make_request cfg params method w
            = (Ok data, replied cfg params method data w)) as Hfirst.
    { intros Hn. by apply make_request_first_ok. }
    unfold replied in *.
    destruct (str_eq (dict_get data "status") "0"); cbn;
      by rewrite ?app_nil_r.
  - exists (sent (call_of cfg params method) w).
    rewrite (attempt_loop_not_dict _ _ _ _ _ _ _ Hnet Hbody).
    assert (1 ≤ max_retries cfg →
            _make_request cfg params method w
            = (Raise (no_attribute body "get"), sent (call_of cfg params method) w))
      as Hfirst.
    { intros Hn. by apply make_request_first_not_dict. }
    by destruct body.
Qed.

(** C9: the final [raise RequestException("Max retries exceeded")] is reached
    exactly when [max_retries <= 0]: the attempt loop then ends at once, no
    HTTP call is made (the world is unchanged), and the error is the generic
    one; with [max_retries >= 1] the loop never ends without a [return] or a
    [raise] of its own. *)
Theorem fallback_only_without_attempts cfg params method w :
  (max_retries cfg ≤ 0 →
     attempt_loop cfg params method (py_range 0 (max_retries cfg)) w = (Ok None, w) ∧
     _make_request cfg params method w
     = (Raise (RequestException "Max retries exceeded"), w)) ∧
  (1 ≤ max_retries cfg →
     ∀ w', attempt_loop cfg params method (py_range 0 (max_retries cfg)) w
           ≠ (Ok None, w')).
Proof.
  split.
  - intros Hn. unfold _make_request, bind. by rewrite py_range_nil by lia.
  - intros Hn w'.
    apply (attempt_loop_not_exhausted _ _ _ (Z.to_nat (max_retries cfg) - 1)).
    lia.
Qed.

(** C2: with [max_retries = 3], when the first exchange raises a transport
    error.  With a [retry_delay] that is not negative and a second exchange
    that raises a transport error too, there are exactly two sleeps,
    [retry_delay * 1] then [retry_delay * 2], the second the longer exactly
    when [retry_delay] is positive; a third exchange that succeeds makes
    [_make_request] return its body, a third that fails makes it raise the
    third error, with no sleep after it.  With a negative [retry_delay] the
    first [time.sleep] raises [ValueError]: no sleep, no second exchange. *)
Theorem two_sleeps_then_third_attempt cfg params method w msg1 :
  max_retries cfg = 3 →
  net w (length (http_log w)) = HttpRaise (RequestException msg1) →
  let call := HttpCall (verb_of method) (base_url cfg) params (timeout cfg) in
  let d := retry_delay cfg in
  (0 ≤ d →
   ∀ msg2, net w (S (length (http_log w))) = HttpRaise (RequestException msg2) →
     (d * 1 < d * 2 ↔ 0 < d) ∧
     (∀ data, net w (S (S (length (http_log w)))) = HttpOk (JObj data) →
        ∃ w', _make_request cfg params method w = (Ok data, w') ∧
              sleep_log w' = sleep_log w ++ [d * 1; d * 2] ∧
              http_log w' = http_log w ++ [call; call; call]) ∧
     (∀ msg3, net w (S (S (length (http_log w)))) = HttpRaise (RequestException msg3) →
        ∃ w', _make_request cfg params method w = (Raise (RequestException msg3), w') ∧
              sleep_log w' = sleep_log w ++ [d * 1; d * 2] ∧
              http_log w' = http_log w ++ [call; call; call])) ∧
  (d < 0 →
   ∃ w', _make_request cfg params method w
         = (Raise (ValueError "sleep length must be non-negative"), w') ∧
         sleep_log w' = sleep_log w ∧
         http_log w' = http_log w ++ [call]).
Proof.
  intros Hn H1 call d.
  assert (py_range 0 (max_retries cfg) = [0; 1; 2]) as Hrange by (by rewrite Hn).
  split.
  - intros Hd msg2 H2. split; [lia|].
    set (w1 := slept (d * (0 + 1)) (warned (WarnAttemptFailed (0 + 1) msg1)
                                      (sent (call_of cfg params method) w))).
    set (w2 := slept (d * (1 + 1)) (warned (WarnAttemptFailed (1 + 1) msg2)
                                      (sent (call_of cfg params method) w1))).
    assert (net w1 (length (http_log w1)) = HttpRaise (RequestException msg2)) as H2'.
    { cbn. by rewrite length_app, Nat.add_1_r. }
    assert (attempt_loop cfg params method [0; 1; 2] w
            = attempt_loop cfg params method [2] w2) as Hloop.
    { rewrite (attempt_loop_retry _ _ _ _ _ _ msg1) by (done || lia).
      by rewrite (attempt_loop_retry _ _ _ _ _ _ msg2) by (done || lia). }
    assert (length (http_log w2) = S (S (length (http_log w)))) as Hlen.
    { cbn. rewrite !length_app. cbn. lia. }
    split.
    + intros data H3. exists (replied cfg params method data w2).
      unfold _make_request, bind. rewrite Hrange, Hloop.
      rewrite (attempt_loop_ok _ _ _ _ _ _ data) by (by rewrite Hlen).
      split; [done|]. unfold replied.
      destruct (str_eq (dict_get data "status") "0"); cbn;
        by rewrite <- !app_assoc.
    + intros msg3 H3.
      exists (warned (WarnAttemptFailed (2 + 1) msg3)
                (sent (call_of cfg params method) w2)).
      unfold _make_request, bind. rewrite Hrange, Hloop.
      rewrite (attempt_loop_last _ _ _ _ _ _ msg3) by (rewrite ?Hlen; done || lia).
      split; [done|]. cbn. by rewrite <- !app_assoc.
  - intros Hd.
    exists (warned (WarnAttemptFailed (0 + 1) msg1)
              (sent (call_of cfg params method) w)).
    unfold _make_request, bind. rewrite Hrange, attempt_loop_step, H1. cbn zeta.
    destruct (Z.ltb_spec 0 (max_retries cfg - 1)); [|lia].
    destruct (Z.ltb_spec (retry_delay cfg * (0 + 1)) 0); [done|]. unfold d in Hd. lia.
Qed.

(** C10: with more than 20 addresses [get_balance_multi] raises its
    [ValueError] and leaves the world as it is (no call); with 20 or fewer it
    is the one [_make_request] for the comma-joined addresses: every call it
    records is that GET, an exception can only come from the request layer,
    and an exchange that succeeds at once makes it the only call. *)
Theorem get_balance_multi_guard cfg addresses w :
  let params := [("module", JStr "account"); ("action", JStr "balancemulti");
                 ("address", JStr (join "," addresses))] in
  let call := HttpCall GET (base_url cfg) params (timeout cfg) in
  ((20 < length addresses)%nat →
     get_balance_multi cfg addresses w
     = (Raise (ValueError "Maximum 20 addresses allowed"), w)) ∧
  ((length addresses ≤ 20)%nat →
     get_balance_multi cfg addresses w = _make_request cfg params "GET" w ∧
     (∃ n : nat, Z.of_nat n ≤ Z.max 0 (max_retries cfg) ∧
                 http_log (get_balance_multi cfg addresses w).2
                 = http_log w ++ replicate n call) ∧
     (∀ e w', get_balance_multi cfg addresses w = (Raise e, w') →
        (∃ k, net w k = HttpRaise e)
        ∨ e = ValueError "sleep length must be non-negative"
        ∨ e = RequestException "Max retries exceeded"
        ∨ (∃ k body, net w k = HttpOk body ∧ is_dict body = false
                     ∧ e = no_attribute body "get")) ∧
     (∀ data, 1 ≤ max_retries cfg →
        net w (length (http_log w)) = HttpOk (JObj data) →
        ∃ w', get_balance_multi cfg addresses w = (Ok data, w') ∧
              http_log w' = http_log w ++ [call])).
Proof.
  intros params call. unfold get_balance_multi. fold params. split.
  - intros Hlen. by destruct (Z.ltb_spec 20 (Z.of_nat (length addresses))); [|lia].
  - intros Hlen.
    destruct (Z.ltb_spec 20 (Z.of_nat (length addresses))); [lia|].
    split; [done|]. split; [apply make_request_calls|].
    split; [apply make_request_raises|].
    intros data Hn Hnet. exists (replied cfg params "GET" data w).
    split; [by apply make_request_first_ok|]. unfold replied.
    by destruct (str_eq (dict_get data "status") "0").
Qed.

(** ** The pagination accumulator *)

(** A true object that can be iterated has an element: a turn of the loop
    that goes on makes the list longer. *)
Lemma truthy_iter_nonempty v items :
  truthy v = true → py_iter v = Some items → (0 < length items)%nat.
Proof.
  destruct v as [| | | |s|l|d]; try done; cbn.
  - destruct s; [done|]. intros _ [= <-]. cbn. lia.
  - destruct l; [done|]. intros _ [= <-]. cbn. lia.
  - destruct d as [|[k v] d]; [done|]. intros _ [= <-]. cbn. lia.
Qed.

(** The attempt loop has no [while]: it always ends. *)
Lemma attempt_loop_fuel cfg params method attempts :
  ∀ w, (attempt_loop cfg params method attempts w).1 ≠ OutOfFuel.
Proof.
  induction attempts as [|attempt rest IH]; intros w; [done|].
  rewrite attempt_loop_step.
  destruct (net w (length (http_log w))) as [[]|[]]; try done. cbn zeta.
  destruct (attempt <? max_retries cfg - 1); [|done].
  destruct (retry_delay cfg * (attempt + 1) <? 0); [done | apply IH].
Qed.

Lemma make_request_fuel cfg params method w :
  (_make_request cfg params method w).1 ≠ OutOfFuel.
Proof.
  unfold _make_request, bind.
  pose proof (attempt_loop_fuel cfg params method
                (py_range 0 (max_retries cfg)) w) as H.
  by destruct (attempt_loop _ _ _ _ w) as [[[data|]|e|] w1].
Qed.

(** With more turns left than records missing, the loop ends by itself, and
    what it returns extends the list it started from. *)
Lemma page_loop_total fetch cap (fuel : nat) :
  (∀ page w, (fetch page w).1 ≠ OutOfFuel) →
  ∀ all page w,
    (Z.to_nat (cap - Z.of_nat (length all)) < fuel)%nat →
    match page_loop fuel fetch cap all page w with
    | (Ok l, _) => (length all ≤ length l)%nat
                   ∧ (cap ≤ Z.of_nat (length all) → l = all)
    | (Raise _, _) => True
    | (OutOfFuel, _) => False
    end.
Proof.
  intros Hfetch.
  induction fuel as [|fuel IH]; intros all page w Hfuel; [lia|].
  cbn [page_loop].
  destruct (Z.ltb_spec (Z.of_nat (length all)) cap) as [Hlt|Hge]; [|by cbn].
  unfold bind at 1. specialize (Hfetch page w).
  destruct (fetch page w) as [[result|e|] w1]; [|done|done].
  destruct (str_eq (dict_get result "status") "1"); [|cbn; split; [done | lia]].
  destruct (truthy (dict_get_default result "result" (JList []))) eqn:Htrue;
    [|cbn; split; [done | lia]].
  cbn [negb]. unfold bind, iterate.
  destruct (py_iter (dict_get_default result "result" (JList [])))
    as [new|] eqn:Hiter; [|done].
  pose proof (truthy_iter_nonempty _ _ Htrue Hiter) as Hnew. unfold ret.
  specialize (IH (all ++ new) (page + 1) w1).
  rewrite length_app in IH.
  destruct (page_loop fuel fetch cap (all ++ new) (page + 1) w1) as [[l|e|] w2];
    [|done|]; (assert (Z.to_nat (cap - Z.of_nat (length all + length new)) < fuel)%nat
                as H by lia; specialize (IH H)); [|done].
  split; lia.
Qed.

Lemma accumulate_at_most fetch cap w :
  (∀ page w, (fetch page w).1 ≠ OutOfFuel) →
  returns_at_most cap (accumulate fetch cap w).
Proof.
  intros Hfetch. unfold accumulate, bind.
  assert (Z.to_nat (cap - Z.of_nat (length (@nil json))) < S (Z.to_nat cap))%nat
    as Hfuel by (cbn; lia).
  pose proof (page_loop_total fetch cap _ Hfetch [] 1 w Hfuel) as H.
  destruct (page_loop _ fetch cap [] 1 w) as [[l|e|] w1]; [|done|done].
  unfold ret, returns_at_most, py_slice_to.
  destruct (Z.ltb_spec cap 0).
  - destruct H as [_ Hnil]. rewrite Hnil by (cbn; lia). rewrite take_nil. cbn. lia.
  - rewrite length_take. lia.
Qed.

(** C1: whatever the cap and the replies, each of the three accumulators
    ends (the loop of the model is never short of turns), and when it returns
    a list, the list has at most [max(cap, 0)] records: at most [cap] for a
    cap that is not negative, none for a negative one. *)
Theorem accumulators_at_most_cap self address contract_address cap w :
  returns_at_most cap (all_transactions self address cap w) ∧
  returns_at_most cap (all_transfers self address contract_address cap w) ∧
  returns_at_most cap (all_holders self address cap w).
Proof.
  repeat split; apply accumulate_at_most; intros page w1;
    apply make_request_fuel.
Qed.

Lemma replied_net cfg params method data w :
  net (replied cfg params method data w) = net w.
Proof. unfold replied. by destruct (str_eq _ _). Qed.

Lemma replied_clock cfg params method data w :
  clock (replied cfg params method data w) = clock w.
Proof. unfold replied. by destruct (str_eq _ _). Qed.

Lemma replied_http_log cfg params method data w :
  http_log (replied cfg params method data w)
  = http_log w ++ [call_of cfg params method].
Proof. unfold replied. by destruct (str_eq _ _). Qed.

Lemma answers_cons cfg params method body rest w :
  answers w (body :: rest) →
  net w (length (http_log w)) = HttpOk (JObj body)
  ∧ answers (replied cfg params method body w) rest.
Proof.
  intros H. split.
  - rewrite <- (Nat.add_0_r (length _)). by apply H.
  - intros j b Hj. rewrite replied_net, replied_http_log, length_app. cbn.
    rewrite <- Nat.add_assoc. by apply H.
Qed.

Lemma full_page_records body :
  full_page body = true →
  str_eq (dict_get body "status") "1" = true
  ∧ truthy (dict_get_default body "result" (JList [])) = true
  ∧ py_iter (dict_get_default body "result" (JList [])) = Some (records body)
  ∧ (0 < length (records body))%nat.
Proof.
  unfold full_page, records, dict_get_default.
  intros [Hs Hr]%andb_prop. split; [done|].
  destruct (dict_get body "result") as [[| | | | |[|x l]|]|]; try done.
  repeat split; cbn; lia.
Qed.

(** Full pages answered at once are all taken, one call each, as long as the
    records fit under the cap. *)
Lemma page_loop_full_pages cfg params cap bodies :
  1 ≤ max_retries cfg →
  ∀ fuel all page w,
    answers w bodies →
    Forall (λ body, full_page body = true) bodies →
    Z.of_nat (length all + length (bodies ≫= records)) ≤ cap →
    page_loop (length bodies + fuel)
      (λ page, _make_request cfg (params page) "GET") cap all page w
    = page_loop fuel (λ page, _make_request cfg (params page) "GET") cap
        (all ++ (bodies ≫= records)) (page + Z.of_nat (length bodies))
        (replied_pages cfg params page bodies w).
Proof.
  intros Hn. induction bodies as [|body rest IH]; intros fuel all page w Hans Hfull Hcap.
  - cbn. by rewrite app_nil_r, Z.add_0_r.
  - apply Forall_cons in Hfull as [Hbody Hrest].
    apply (answers_cons cfg (params page) "GET") in Hans as [Hnet Hans].
    apply full_page_records in Hbody as (Hstatus & Htrue & Hiter & Hlen).
    rewrite bind_cons, length_app in Hcap.
    cbn [length Nat.add page_loop replied_pages].
    destruct (Z.ltb_spec (Z.of_nat (length all)) cap); [|lia].
    unfold bind at 1. rewrite (make_request_first_ok _ _ _ _ _ Hn Hnet).
    rewrite Hstatus, Htrue. cbn [negb]. unfold bind at 1, iterate.
    rewrite Hiter. unfold ret at 1.
    rewrite IH by (rewrite ?length_app; done || lia).
    rewrite bind_cons, <- app_assoc. f_equal. lia.
Qed.

Lemma py_range_snoc lo (n : nat) :
  py_range lo (lo + Z.of_nat n + 1) = py_range lo (lo + Z.of_nat n) ++ [lo + Z.of_nat n].
Proof.
  unfold py_range.
  replace (Z.to_nat (lo + Z.of_nat n + 1 - lo)) with (n + 1)%nat by lia.
  replace (Z.to_nat (lo + Z.of_nat n - lo)) with n by lia.
  by rewrite seq_app, fmap_app.
Qed.

Lemma replied_pages_net cfg params bodies :
  ∀ page w, net (replied_pages cfg params page bodies w) = net w.
Proof.
  induction bodies as [|body rest IH]; intros page w; [done|].
  cbn. by rewrite IH, replied_net.
Qed.

Lemma replied_pages_http_log cfg params bodies :
  ∀ page w,
    http_log (replied_pages cfg params page bodies w)
    = http_log w ++ ((λ p, call_of cfg (params p) "GET")
                       <$> py_range page (page + Z.of_nat (length bodies))).
Proof.
  induction bodies as [|body rest IH]; intros page w.
  - cbn. by rewrite py_range_nil, app_nil_r by lia.
  - cbn [replied_pages length]. rewrite IH, replied_http_log, <- app_assoc.
    rewrite (py_range_cons page) by lia.
    replace (page + Z.of_nat (S (length rest)))
      with (page + 1 + Z.of_nat (length rest)) by lia.
    done.
Qed.

Lemma full_pages_length bodies :
  Forall (λ body, full_page body = true) bodies →
  (length bodies ≤ length (bodies ≫= records))%nat.
Proof.
  induction 1 as [|body rest Hbody _ IH]; [done|].
  apply full_page_records in Hbody as (_ & _ & _ & Hlen).
  rewrite bind_cons, length_app. cbn. lia.
Qed.

(** Full pages below the cap, then a page that ends the loop (a status that
    is not ['1'], or no record): the result is the records of the full
    pages, and the calls are those for the pages 1, 2, ... up to the page
    that ended the loop. *)
Lemma accumulate_stops cfg params cap bodies last w :
  1 ≤ max_retries cfg →
  (∀ page, dict_get (params page) "page" = Some (JInt page)) →
  answers w (bodies ++ [last]) →
  Forall (λ body, full_page body = true) bodies →
  Z.of_nat (length (bodies ≫= records)) < cap →
  str_eq (dict_get last "status") "1" = false
  ∨ truthy (dict_get_default last "result" (JList [])) = false →
  fetched w (accumulate (λ page, _make_request cfg (params page) "GET") cap w)
    (bodies ≫= records) (py_range 1 (Z.of_nat (length bodies) + 2)).
Proof.
  intros Hn Hpage Hans Hfull Hcap Hlast.
  pose proof (full_pages_length _ Hfull) as Hlen.
  assert (answers w bodies) as Hans1.
  { intros j body Hj. apply Hans. by apply lookup_app_l_Some. }
  assert (net (replied_pages cfg params 1 bodies w)
              (length (http_log (replied_pages cfg params 1 bodies w)))
          = HttpOk (JObj last)) as Hnet.
  { rewrite replied_pages_net, replied_pages_http_log, length_app, length_fmap,
      py_range_length.
    replace (Z.to_nat (1 + Z.of_nat (length bodies) - 1)) with (length bodies) by lia.
    apply Hans. by rewrite lookup_app_r, Nat.sub_diag. }
  unfold accumulate, bind.
  replace (S (Z.to_nat cap))
    with (length bodies + S (Z.to_nat cap - length bodies))%nat by lia.
  rewrite (page_loop_full_pages _ _ _ _ Hn) by (done || (cbn; lia)).
  cbn [page_loop app].
  destruct (Z.ltb_spec (Z.of_nat (length (bodies ≫= records))) cap); [|lia].
  unfold bind at 1. rewrite (make_request_first_ok _ _ _ _ _ Hn Hnet).
  assert (∀ w1, (if str_eq (dict_get last "status") "1"
                 then if negb (truthy (dict_get_default last "result" (JList [])))
                      then ret (bodies ≫= records)
                      else new <- iterate (dict_get_default last "result" (JList [])) ;;
                           page_loop (Z.to_nat cap - length bodies)
                             (λ page, _make_request cfg (params page) "GET") cap
                             ((bodies ≫= records) ++ new)
                             (1 + Z.of_nat (length bodies) + 1)
                 else ret (bodies ≫= records)) w1
                = (Ok (bodies ≫= records), w1)) as ->.
  { intros w1. destruct Hlast as [-> | ->]; [done|].
    by destruct (str_eq (dict_get last "status") "1"). }
  unfold ret, fetched. cbn [fst snd]. split.
  - unfold py_slice_to. destruct (Z.ltb_spec cap 0); [lia|].
    by rewrite take_ge by lia.
  - exists ((λ p, call_of cfg (params p) "GET")
              <$> py_range 1 (Z.of_nat (length bodies) + 2)).
    split.
    + rewrite replied_http_log, replied_pages_http_log, <- app_assoc. f_equal.
      replace (Z.of_nat (length bodies) + 2) with (1 + Z.of_nat (length bodies) + 1)
        by lia.
      by rewrite py_range_snoc, fmap_app.
    + rewrite <- list_fmap_compose. apply list_fmap_ext. intros _ p _.
      cbn. apply Hpage.
Qed.

(** The three accumulators stop the same way: they are [accumulate] on a
    request whose [page] parameter is the page asked for. *)
Lemma accumulators_stop self address contract_address cap bodies last w :
  1 ≤ max_retries (client self) →
  answers w (bodies ++ [last]) →
  Forall (λ body, full_page body = true) bodies →
  Z.of_nat (length (bodies ≫= records)) < cap →
  str_eq (dict_get last "status") "1" = false
  ∨ truthy (dict_get_default last "result" (JList [])) = false →
  let l := bodies ≫= records in
  let pages := py_range 1 (Z.of_nat (length bodies) + 2) in
  fetched w (all_transactions self address cap w) l pages ∧
  fetched w (all_transfers self address contract_address cap w) l pages ∧
  fetched w (all_holders self address cap w) l pages.
Proof.
  intros Hn Hans Hfull Hcap Hlast l pages.
  assert (∀ params, (∀ page, dict_get (params page) "page" = Some (JInt page)) →
            fetched w (accumulate
                         (λ page, _make_request (client self) (params page) "GET")
                         cap w) l pages) as Hacc.
  { intros params Hpage. by apply (accumulate_stops _ _ _ _ last). }
  split; [|split].
  - by apply (Hacc (λ page, [("module", JStr "account"); ("action", JStr "txlist");
                             ("address", JStr address); ("page", JInt page);
                             ("offset", JInt (Z.min 100 cap));
                             ("sort", JStr "desc")])).
  - unfold all_transfers, get_token_transfers. cbn [set_if_given].
    destruct contract_address as [c|]; [destruct (String.eqb c "")|].
    + by apply (Hacc (λ page, [("module", JStr "account"); ("action", JStr "tokentx");
                               ("address", JStr address); ("page", JInt page);
                               ("offset", JInt 100); ("sort", JStr "desc")])).
    + by apply (Hacc (λ page, [("module", JStr "account"); ("action", JStr "tokentx");
                               ("address", JStr address); ("page", JInt page);
                               ("offset", JInt 100); ("sort", JStr "desc");
                               ("contractaddress", JStr c)])).
    + by apply (Hacc (λ page, [("module", JStr "account"); ("action", JStr "tokentx");
                               ("address", JStr address); ("page", JInt page);
                               ("offset", JInt 100); ("sort", JStr "desc")])).
  - by apply (Hacc (λ page, [("module", JStr "token");
                             ("action", JStr "getTokenHolders");
                             ("contractaddress", JStr address); ("page", JInt page);
                             ("offset", JInt (Z.min 100 cap))])).
Qed.

(** C3: when the pages before it were full pages answered at once and left
    the count below the cap, a page whose status is not ['1'] ends the
    accumulation: the result is exactly the records of the earlier pages, no
    exception is raised, and that page is the last one asked for. *)
Theorem failure_status_gives_earlier_pages
    self address contract_address cap bodies bad w :
  1 ≤ max_retries (client self) →
  answers w (bodies ++ [bad]) →
  Forall (λ body, full_page body = true) bodies →
  Z.of_nat (length (bodies ≫= records)) < cap →
  str_eq (dict_get bad "status") "1" = false →
  let l := bodies ≫= records in
  let pages := py_range 1 (Z.of_nat (length bodies) + 2) in
  fetched w (all_transactions self address cap w) l pages ∧
  fetched w (all_transfers self address contract_address cap w) l pages ∧
  fetched w (all_holders self address cap w) l pages.
Proof.
  intros Hn Hans Hfull Hcap Hbad. apply (accumulators_stop _ _ _ _ _ bad); auto.
Qed.

(** C4: when the source holds [N] records, fewer than the cap, served as full
    pages answered at once and then a page of status ['1'] with an empty
    list, the result is exactly these [N] records, and the calls are those
    for the pages 1, 2, ... up to the empty page, one each, with none after
    it. *)
Theorem empty_page_ends_accumulation
    self address contract_address cap bodies last w :
  1 ≤ max_retries (client self) →
  answers w (bodies ++ [last]) →
  Forall (λ body, full_page body = true) bodies →
  Z.of_nat (length (bodies ≫= records)) < cap →
  str_eq (dict_get last "status") "1" = true →
  dict_get_default last "result" (JList []) = JList [] →
  let l := bodies ≫= records in
  let pages := py_range 1 (Z.of_nat (length bodies) + 2) in
  fetched w (all_transactions self address cap w) l pages ∧
  fetched w (all_transfers self address contract_address cap w) l pages ∧
  fetched w (all_holders self address cap w) l pages.
Proof.
  intros Hn Hans Hfull Hcap Hstatus Hempty.
  apply (accumulators_stop _ _ _ _ _ last); auto.
  right. by rewrite Hempty.
Qed.

(** ** The block range *)

Lemma block_loop_answers cfg :
  1 ≤ max_retries cfg →
  ∀ blocks bodies block_data w,
    length bodies = length blocks →
    answers w bodies →
    ∃ w', block_loop cfg blocks block_data w
          = (Ok (block_data ++ omap block_result bodies), w') ∧
          http_log w' = http_log w ++ (block_call cfg <$> blocks).
Proof.
  intros Hn. induction blocks as [|block_num rest IH];
    intros [|body bodies] block_data w Hlen Hans; try done.
  - exists w. by rewrite !app_nil_r.
  - apply (answers_cons cfg [("module", JStr "block");
                             ("action", JStr "getblockreward");
                             ("blockno", JInt block_num)] "GET")
      in Hans as [Hnet Hans].
    cbn [block_loop]. unfold bind at 1, get_block_reward.
    rewrite (make_request_first_ok _ _ _ _ _ Hn Hnet).
    match goal with |- context [block_loop cfg rest ?acc ?w1] =>
      destruct (IH bodies acc w1) as (w' & -> & Hlog); [by injection Hlen | done |]
    end.
    exists w'. rewrite Hlog, replied_http_log, <- app_assoc.
    split; [|done]. do 2 f_equal. cbn [omap list_omap]. unfold block_result at 2.
    destruct (str_eq (dict_get body "status") "1"); [|done].
    by rewrite <- app_assoc.
Qed.

(** C6: when every exchange is answered at once, [extract_block_range] makes
    one block-reward call per block number, for [start_block],
    [start_block + 1], ... up to [end_block] in this order, and its block
    list is made of the [result] fields of the replies of status ['1'], in
    the same order, the other replies being left out. *)
Theorem block_range_keeps_successes self start_block end_block bodies w :
  1 ≤ max_retries (client self) →
  length bodies = Z.to_nat (end_block + 1 - start_block) →
  answers w bodies →
  ∃ w',
    block_data self start_block end_block w = (Ok (omap block_result bodies), w') ∧
    http_log w' =
      http_log w ++
      ((λ j : nat,
          HttpCall GET (base_url (client self))
            [("module", JStr "block"); ("action", JStr "getblockreward");
             ("blockno", JInt (start_block + Z.of_nat j))]
            (timeout (client self)))
         <$> seq 0 (Z.to_nat (end_block + 1 - start_block))).
Proof.
  intros Hn Hlen Hans. unfold block_data.
  destruct (block_loop_answers (client self) Hn
              (py_range start_block (end_block + 1)) bodies [] w)
    as (w' & Hrun & Hlog); [by rewrite py_range_length | done |].
  exists w'. split; [done|]. rewrite Hlog. unfold py_range.
  by rewrite <- list_fmap_compose.
Qed.

(** ** The file system *)

(** One call of the file system, by the outcome the world gives it. *)
Lemma fs_request_step c w :
  fs_request c w =
  match disk w (length (fs_log w)) with
  | None => (Ok tt, called c w)
  | Some e => (Raise e, called c w)
  end.
Proof. done. Qed.

Lemma write_file_step path c w :
  write_file path c w =
  match disk w (length (fs_log w)) with
  | None => (Ok tt, wrote path c (called (Open path) w))
  | Some e => (Raise e, called (Open path) w)
  end.
Proof. unfold write_file, bind. rewrite fs_request_step. by destruct (disk w _). Qed.

Lemma accepts_next w n : accepts w (S n) → disk w (length (fs_log w)) = None.
Proof. intros H. rewrite <- (Nat.add_0_r (length _)). apply H. lia. Qed.

Lemma accepts_le w n m : (m ≤ n)%nat → accepts w n → accepts w m.
Proof. intros Hle H i Hi. apply H. lia. Qed.

Lemma accepts_called c w n : accepts w (S n) → accepts (called c w) n.
Proof.
  intros H i Hi. cbn. rewrite length_app. cbn.
  replace (length (fs_log w) + 1 + i)%nat with (length (fs_log w) + S i)%nat by lia.
  apply H. lia.
Qed.

Lemma accepts_wrote path c w n : accepts w n → accepts (wrote path c w) n.
Proof. done. Qed.

Lemma accepts_warned r w n : accepts w n → accepts (warned r w) n.
Proof. done. Qed.

Lemma accepts_replied cfg params method data w n :
  accepts w n → accepts (replied cfg params method data w) n.
Proof. unfold replied. by destruct (str_eq _ _). Qed.

Lemma accepts_saved_file base subdir path c w n :
  accepts w (save_calls subdir + n) → accepts (saved_file base subdir path c w) n.
Proof.
  unfold save_calls, saved_file. intros H. apply accepts_wrote, accepts_called.
  destruct (String.eqb subdir ""); [done|]. by apply accepts_called.
Qed.

Lemma saved_file_files base subdir path c w :
  files (saved_file base subdir path c w) = <[path := c]> (files w).
Proof. unfold saved_file. by destruct (String.eqb subdir ""). Qed.

Lemma saved_file_logs base subdir path c w :
  net (saved_file base subdir path c w) = net w ∧
  clock (saved_file base subdir path c w) = clock w ∧
  http_log (saved_file base subdir path c w) = http_log w ∧
  sleep_log (saved_file base subdir path c w) = sleep_log w ∧
  warn_log (saved_file base subdir path c w) = warn_log w.
Proof. unfold saved_file. by destruct (String.eqb subdir ""). Qed.

(** A save the file system accepts. *)
Lemma save_run_ok {A} base subdir path c (a : A) w :
  accepts w (save_calls subdir) →
  save_run base subdir path c a w = (Ok a, saved_file base subdir path c w).
Proof.
  unfold save_calls, save_run, saved_file. intros H.
  destruct (String.eqb subdir "").
  - by rewrite (accepts_next _ _ H).
  - rewrite (accepts_next _ _ H).
    apply (accepts_called (Mkdir (path_join base subdir))), accepts_next in H.
    cbn [disk called] in H. by rewrite H.
Qed.

(** A save writes its file, or none. *)
Lemma save_run_cases {A} base subdir path c (a : A) w :
  match save_run base subdir path c a w with
  | (Ok a', w') => a' = a ∧ files w' = <[path := c]> (files w)
  | (Raise e, w') => (∃ k, disk w k = Some e) ∧ files w' = files w
  | (OutOfFuel, _) => False
  end.
Proof.
  unfold save_run. destruct (String.eqb subdir "").
  - destruct (disk w (length (fs_log w))) eqn:H; [by eauto | done].
  - destruct (disk w (length (fs_log w))) eqn:H; [by eauto|].
    destruct (disk w (length (fs_log (called _ w)))) eqn:H'; [by eauto | done].
Qed.

Lemma after_calls_nil w : after_calls [] w = w.
Proof. destruct w. unfold after_calls. cbn. by rewrite app_nil_r. Qed.

Lemma called_after_calls c calls w :
  called c (after_calls calls w) = after_calls (calls ++ [c]) w.
Proof. unfold called, after_calls. cbn. by rewrite app_assoc. Qed.

(** A save that raises has only called the file system. *)
Lemma save_run_raise {A} base subdir path c (a : A) w e w' :
  save_run base subdir path c a w = (Raise e, w') →
  ∃ calls, w' = after_calls calls w.
Proof.
  unfold save_run. destruct (String.eqb subdir "").
  - destruct (disk w (length (fs_log w))); [|done].
    intros [= _ <-]. exists [Open path].
    by rewrite <- (after_calls_nil w) at 1; rewrite called_after_calls.
  - destruct (disk w (length (fs_log w))).
    + intros [= _ <-]. exists [Mkdir (path_join base subdir)].
      by rewrite <- (after_calls_nil w) at 1; rewrite called_after_calls.
    + destruct (disk w (length (fs_log (called _ w)))); [|done].
      intros [= _ <-]. exists [Mkdir (path_join base subdir); Open path].
      rewrite <- (after_calls_nil w) at 1. by rewrite !called_after_calls.
Qed.

Lemma save_dir_of_step base subdir w :
  save_dir_of base subdir w =
  if String.eqb subdir "" then (Ok base, w)
  else match disk w (length (fs_log w)) with
       | None => (Ok (path_join base subdir), called (Mkdir (path_join base subdir)) w)
       | Some e => (Raise e, called (Mkdir (path_join base subdir)) w)
       end.
Proof.
  unfold save_dir_of. destruct (String.eqb subdir ""); [done|].
  unfold bind, mkdir. rewrite fs_request_step. by destruct (disk w _).
Qed.

Lemma save_json_run self data filename subdir w :
  _save_json self data filename subdir w
  = save_run (json_dir self) subdir (json_path self filename subdir) (FJson data)
      (json_path self filename subdir) w.
Proof.
  unfold _save_json, save_run, json_path. unfold bind at 1.
  rewrite save_dir_of_step. destruct (String.eqb subdir "").
  - unfold bind. rewrite write_file_step. by destruct (disk w _).
  - destruct (disk w (length (fs_log w))); [done|].
    unfold bind. rewrite write_file_step. cbn [disk called].
    by destruct (disk w _).
Qed.

Lemma save_json_ok self data filename subdir w :
  accepts w (save_calls subdir) →
  _save_json self data filename subdir w
  = (Ok (json_path self filename subdir),
     saved_file (json_dir self) subdir (json_path self filename subdir)
       (FJson data) w).
Proof. intros H. by rewrite save_json_run, save_run_ok. Qed.

(** ** CSV serialization *)

Lemma dict_keys_get d k : k ∈ dict_keys d ↔ dict_get d k ≠ None.
Proof.
  induction d as [|[k0 v] d IH]; cbn.
  - split; [by intros ?%elem_of_nil | done].
  - rewrite elem_of_cons, list_elem_of_filter, IH.
    destruct (String.eqb_spec k0 k) as [Heq|Hne].
    + split; [done | by left].
    + split; [intros [Heq|[_ H]]; done | auto].
Qed.

Lemma update_keys_records (records : list dict) :
  ∀ keys w,
    update_keys (JObj <$> records) keys w
    = (Ok (keys ∪ ⋃ ((λ r, list_to_set (dict_keys r)) <$> records)), w).
Proof.
  induction records as [|r rest IH]; intros keys w; cbn.
  - by rewrite (right_id_L ∅ (∪)).
  - by rewrite IH, (assoc_L (∪)).
Qed.

Lemma writerows_records fieldnames (records : list dict) :
  (∀ r k, r ∈ records → k ∈ dict_keys r → k ∈ fieldnames) →
  ∀ w, writerows fieldnames (JObj <$> records) w
       = (Ok ((λ r, (λ key, dict_get_default r key (JStr "")) <$> fieldnames)
                <$> records), w).
Proof.
  induction records as [|r rest IH]; intros Hkeys w; [done|].
  cbn [fmap list_fmap writerows]. unfold bind at 1, _dict_to_list.
  assert (forallb (λ k, bool_decide (k ∈ fieldnames)) (dict_keys r) = true) as ->.
  { apply Is_true_true, forallb_True, Forall_forall. intros k Hk.
    apply bool_decide_spec, (Hkeys r); [left | done]. }
  unfold ret at 1. unfold bind.
  rewrite IH by (intros r' k Hr'; apply Hkeys; by right). done.
Qed.

(** What [_save_csv] does on records that are dicts. *)
Lemma save_csv_records_run self (ds : list dict) filename subdir w :
  ds ≠ [] →
  _save_csv self (JList (JObj <$> ds)) filename subdir w
  = save_run (csv_dir self) subdir (csv_path self filename subdir)
      (FCsv (csv_header ds) (csv_rows ds)) (Some (csv_path self filename subdir)) w.
Proof.
  intros Hne.
  assert (∀ save_dir w1,
            let path := path_join save_dir (filename +:+ ".csv") in
            (records <- iterate (JList (JObj <$> ds)) ;;
             keys <- update_keys records ∅ ;;
             let keys := merge_sort String.le (elements keys) in
             write_file path (FCsv keys []) ;;
             rows <- writerows keys records ;;
             put_file path (FCsv keys rows) ;;
             ret (Some path)) w1
            = match disk w1 (length (fs_log w1)) with
              | None => (Ok (Some path),
                         wrote path (FCsv (csv_header ds) (csv_rows ds))
                           (called (Open path) w1))
              | Some e => (Raise e, called (Open path) w1)
              end) as Hrest.
  { intros save_dir w1 path.
    unfold bind at 1, iterate. cbn [py_iter]. unfold ret at 1.
    unfold bind at 1. rewrite update_keys_records. fold (csv_header ds).
    unfold bind at 1. rewrite write_file_step.
    destruct (disk w1 (length (fs_log w1))); [done|].
    unfold bind at 1. rewrite writerows_records.
    - unfold bind, put_file, ret, wrote. cbn. by rewrite insert_insert_eq.
    - intros r k Hr Hk. unfold csv_header.
      rewrite merge_sort_Permutation, elem_of_elements, elem_of_union,
        elem_of_union_list.
      right. exists (list_to_set (dict_keys r)).
      split; [|by apply elem_of_list_to_set].
      by apply (list_elem_of_fmap_2 (λ r, list_to_set (dict_keys r))). }
  unfold _save_csv, save_run, csv_path.
  assert (truthy (JList (JObj <$> ds)) = true) as -> by (by destruct ds).
  cbn [negb]. unfold bind at 1. rewrite save_dir_of_step.
  destruct (String.eqb subdir ""); [by rewrite Hrest|].
  destruct (disk w (length (fs_log w))); [done|]. by rewrite Hrest.
Qed.

(** C7: for a list of records that is not empty, [_save_csv] returns when the
    file system accepts its calls, and otherwise raises what the file system
    raised, with no file written; when it returns, it has written a file
    whose header is the sorted union of the keys of the records (sorted for
    the order of [str], each key once, a key being in the header exactly when
    a record has it), with one row per record, in which a record that lacks a
    key of the header has the empty string for cell. *)
Theorem save_csv_header_sorted_union self (records : list dict) filename subdir w :
  records ≠ [] →
  (accepts w (save_calls subdir) →
   ∃ path w', _save_csv self (JList (JObj <$> records)) filename subdir w
              = (Ok (Some path), w')) ∧
  match _save_csv self (JList (JObj <$> records)) filename subdir w with
  | (Ok (Some path), w') =>
      ∃ header rows,
        files w' !! path = Some (FCsv header rows) ∧
        Sorted String.le header ∧
        NoDup header ∧
        (∀ k, k ∈ header ↔ ∃ r, r ∈ records ∧ k ∈ dict_keys r) ∧
        rows = (λ r, (λ k, dict_get_default r k (JStr "")) <$> header) <$> records ∧
        (∀ (i j : nat) r k,
           records !! i = Some r → header !! j = Some k → k ∉ dict_keys r →
           rows !! i ≫= (.!! j) = Some (JStr ""))
  | (Ok None, _) => False
  | (Raise e, w') => (∃ k, disk w k = Some e) ∧ files w' = files w
  | (OutOfFuel, _) => False
  end.
Proof.
  intros Hne. rewrite save_csv_records_run by done. split.
  { intros Hok. rewrite save_run_ok by done. eauto. }
  pose proof (save_run_cases (csv_dir self) subdir (csv_path self filename subdir)
                (FCsv (csv_header records) (csv_rows records))
                (Some (csv_path self filename subdir)) w) as Hrun.
  destruct (save_run _ _ _ _ _ w) as [[[path|]|e|] w']; [|by destruct Hrun|done..].
  destruct Hrun as [[= ->] Hfiles].
  exists (csv_header records), (csv_rows records).
  split; [rewrite Hfiles; apply lookup_insert_eq|].
  split; [apply Sorted_merge_sort; apply _|].
  split; [unfold csv_header; rewrite merge_sort_Permutation; apply NoDup_elements|].
  split; [|split; [done|]].
  - intros k. unfold csv_header.
    rewrite merge_sort_Permutation, elem_of_elements, elem_of_union,
      elem_of_union_list. split.
    + intros [?%elem_of_empty|(X & (r & -> & Hr)%list_elem_of_fmap & Hk)]; [done|].
      apply elem_of_list_to_set in Hk. eauto.
    + intros (r & Hr & Hk). right. exists (list_to_set (dict_keys r)).
      split; [|by apply elem_of_list_to_set].
      by apply (list_elem_of_fmap_2 (λ r, list_to_set (dict_keys r))).
  - intros i j r k Hi Hj Hk. unfold csv_rows.
    rewrite list_lookup_fmap, Hi. cbn. rewrite list_lookup_fmap, Hj. cbn.
    f_equal. unfold dict_get_default.
    destruct (dict_get r k) eqn:Hget; [|done].
    exfalso. apply Hk, dict_keys_get. by rewrite Hget.
Qed.

(** ** Contract extraction *)

Lemma status_1_not_0 (body : dict) :
  str_eq (dict_get body "status") "1" = true →
  str_eq (dict_get body "status") "0" = false.
Proof.
  unfold str_eq. destruct (dict_get body "status") as [[| | | |s| |]|]; try done.
  by intros ->%String.eqb_eq.
Qed.


(** * Concrete runs *)

(** A body of status ['0'] comes back as it is, with one call, one warning
    and no sleep. *)
Lemma make_request_returns_body_witness :
  ∃ w', _make_request default_config [("module", JStr "stats")] "GET"
          (sample_world (λ _, HttpOk (JObj error_body)))
        = (Ok error_body, w') ∧
        warn_log w' = [WarnApiError (JStr "No data found")] ∧
        length (http_log w') = 1%nat ∧
        sleep_log w' = [].
Proof.
  destruct (make_request_returns_body default_config [("module", JStr "stats")]
              "GET" 0 [] (sample_world (λ _, HttpOk (JObj error_body)))
              (JObj error_body) eq_refl)
    as (w' & Hlog & Hsleep & _ & _ & Hreq & Hwarn).
  exists w'. split; [apply Hreq; cbn; lia|].
  rewrite Hwarn, Hlog, Hsleep. repeat split.
Defined.

(** A reply of status 200 whose body is a list is not returned: [data.get]
    raises, after the one call. *)
Lemma list_body_counterexample :
  ∃ w', _make_request default_config [("module", JStr "stats")] "GET"
          (sample_world replies_list)
        = (Raise (AttributeError "'list' object has no attribute 'get'"), w') ∧
        length (http_log w') = 1%nat.
Proof. eexists. split; reflexivity. Qed.

(** No attempt with [max_retries = 0]; with the default 3, the loop never
    falls through. *)
Lemma fallback_only_without_attempts_witness :
  _make_request no_retry_config [] "GET" (sample_world replies_never)
  = (Raise (RequestException "Max retries exceeded"), sample_world replies_never) ∧
  (∀ w', attempt_loop default_config [] "GET" (py_range 0 3)
           (sample_world replies_never) ≠ (Ok None, w')).
Proof.
  split.
  - apply (fallback_only_without_attempts no_retry_config [] "GET"
             (sample_world replies_never)). cbn. lia.
  - apply (fallback_only_without_attempts default_config [] "GET"
             (sample_world replies_never)). cbn. lia.
Defined.

(** Two timeouts then a reply, and three refusals: sleeps of 1 and 2 seconds
    in both runs.  With a delay of -1, the first timeout ends the request. *)
Lemma two_sleeps_then_third_attempt_witness :
  (∃ w', _make_request default_config [] "GET"
           (sample_world replies_after_two_failures)
         = (Ok (ok_body (JStr "42")), w') ∧ sleep_log w' = [1; 2]) ∧
  (∃ w', _make_request default_config [] "GET" (sample_world replies_never)
         = (Raise (RequestException "connection refused"), w') ∧
         sleep_log w' = [1; 2]) ∧
  (∃ w', _make_request negative_delay_config [] "GET"
           (sample_world replies_after_two_failures)
         = (Raise (ValueError "sleep length must be non-negative"), w') ∧
         sleep_log w' = [] ∧ length (http_log w') = 1%nat).
Proof.
  split; [|split].
  - destruct (two_sleeps_then_third_attempt default_config [] "GET"
                (sample_world replies_after_two_failures) "timeout"
                eq_refl eq_refl) as [Hpos _].
    destruct (Hpos ltac:(cbn; lia) "timeout" eq_refl) as (_ & Hok & _).
    destruct (Hok (ok_body (JStr "42")) eq_refl) as (w' & Hrun & Hsleep & _).
    exists w'. split; [exact Hrun | exact Hsleep].
  - destruct (two_sleeps_then_third_attempt default_config [] "GET"
                (sample_world replies_never) "connection refused"
                eq_refl eq_refl) as [Hpos _].
    destruct (Hpos ltac:(cbn; lia) "connection refused" eq_refl) as (_ & _ & Hfail).
    destruct (Hfail "connection refused" eq_refl) as (w' & Hrun & Hsleep & _).
    exists w'. split; [exact Hrun | exact Hsleep].
  - destruct (two_sleeps_then_third_attempt negative_delay_config [] "GET"
                (sample_world replies_after_two_failures) "timeout"
                eq_refl eq_refl) as [_ Hneg].
    destruct (Hneg ltac:(cbn; lia)) as (w' & Hrun & Hsleep & Hlog).
    exists w'. split; [exact Hrun|]. split; [exact Hsleep|]. by rewrite Hlog.
Defined.

(** With a delay of 0 the two sleeps are of 0 seconds: the second is not
    longer than the first. *)
Lemma zero_delay_counterexample :
  ∃ w' first second,
    _make_request zero_delay_config [] "GET"
      (sample_world replies_after_two_failures)
    = (Ok (ok_body (JStr "42")), w') ∧
    sleep_log w' = [first; second] ∧
    ¬ first < second.
Proof. eexists _, 0, 0. split; [reflexivity|]. split; [reflexivity | lia]. Qed.

(** 21 addresses are refused before any call; two addresses make one call
    for ["0xa,0xb"]. *)
Lemma get_balance_multi_guard_witness :
  get_balance_multi default_config (replicate 21 "0xa") (sample_world replies_contract)
  = (Raise (ValueError "Maximum 20 addresses allowed"), sample_world replies_contract) ∧
  ∃ w', get_balance_multi default_config ["0xa"; "0xb"] (sample_world replies_contract)
        = (Ok (ok_body (JList [JObj unverified_contract])), w') ∧
        http_log w' =
          [HttpCall GET "https://explorer.testnet.riselabs.xyz/api"
             [("module", JStr "account"); ("action", JStr "balancemulti");
              ("address", JStr "0xa,0xb")] 30].
Proof.
  split.
  - apply (get_balance_multi_guard default_config (replicate 21 "0xa")
             (sample_world replies_contract)). cbn. lia.
  - destruct (get_balance_multi_guard default_config ["0xa"; "0xb"]
                (sample_world replies_contract)) as [_ Hfew].
    destruct Hfew as (_ & _ & _ & Hone); [cbn; lia|].
    destruct (Hone (ok_body (JList [JObj unverified_contract]))) as (w' & Hrun & Hlog);
      [cbn; lia | reflexivity |].
    exists w'. split; [exact Hrun | exact Hlog].
Defined.

(** With a cap of -1 the loop does not run and the slice of the empty list is
    empty: the accumulator returns no record, which is more than -1. *)
Lemma negative_cap_counterexample :
  ∃ l w', all_transactions sample_extractor "0xabc" (-1)
            (sample_world replies_three_records) = (Ok l, w') ∧
          ¬ (Z.of_nat (length l) ≤ -1).
Proof.
  exists [], (sample_world replies_three_records). split; [reflexivity|].
  cbn. lia.
Qed.

(** The bound at work: with a cap of 1 the first page has two records, and
    one is returned. *)
Lemma accumulators_at_most_cap_witness :
  returns_at_most 1
    (all_transactions sample_extractor "0xabc" 1 (sample_world replies_three_records)) ∧
  (all_transactions sample_extractor "0xabc" 1 (sample_world replies_three_records)).1
  = Ok [record_of 1].
Proof.
  split; [|reflexivity].
  apply (accumulators_at_most_cap sample_extractor "0xabc" None 1
           (sample_world replies_three_records)).
Defined.

Lemma answers_page_then_failure :
  answers (sample_world replies_page_then_failure)
    ([ok_body (JList [record_of 1; record_of 2])] ++ [error_body]).
Proof. intros [|[|j]] body [= <-]; reflexivity. Defined.

(** Status ['0'] on page 2: the two records of page 1, pages 1 and 2 asked
    for. *)
Lemma failure_status_gives_earlier_pages_witness :
  let w := sample_world replies_page_then_failure in
  let l := [record_of 1; record_of 2] in
  fetched w (all_transactions sample_extractor "0xabc" 10 w) l [1; 2] ∧
  fetched w (all_transfers sample_extractor "0xabc" None 10 w) l [1; 2] ∧
  fetched w (all_holders sample_extractor "0xabc" 10 w) l [1; 2].
Proof.
  apply (failure_status_gives_earlier_pages sample_extractor "0xabc" None 10
           [ok_body (JList [record_of 1; record_of 2])] error_body
           (sample_world replies_page_then_failure)).
  - cbn. lia.
  - exact answers_page_then_failure.
  - repeat constructor.
  - cbn. lia.
  - reflexivity.
Defined.

Lemma answers_three_records :
  answers (sample_world replies_three_records)
    ([ok_body (JList [record_of 1; record_of 2]); ok_body (JList [record_of 3])]
       ++ [ok_body (JList [])]).
Proof. intros [|[|[|j]]] body [= <-]; reflexivity. Defined.

(** Three records and a cap of 10: the three records, pages 1, 2 and 3 asked
    for. *)
Lemma empty_page_ends_accumulation_witness :
  let w := sample_world replies_three_records in
  let l := [record_of 1; record_of 2; record_of 3] in
  fetched w (all_transactions sample_extractor "0xabc" 10 w) l [1; 2; 3] ∧
  fetched w (all_transfers sample_extractor "0xabc" None 10 w) l [1; 2; 3] ∧
  fetched w (all_holders sample_extractor "0xabc" 10 w) l [1; 2; 3].
Proof.
  apply (empty_page_ends_accumulation sample_extractor "0xabc" None 10
           [ok_body (JList [record_of 1; record_of 2]); ok_body (JList [record_of 3])]
           (ok_body (JList [])) (sample_world replies_three_records)).
  - cbn. lia.
  - exact answers_three_records.
  - repeat constructor.
  - cbn. lia.
  - reflexivity.
  - reflexivity.
Defined.

Lemma answers_blocks :
  answers (sample_world replies_blocks)
    [ok_body (JObj [("blockNumber", JInt 100)]); error_body;
     ok_body (JObj [("blockNumber", JInt 102)])].
Proof. intros [|[|[|j]]] body [= <-]; reflexivity. Defined.

(** Blocks 100 to 102 with block 101 not found: three calls, two blocks. *)
Lemma block_range_keeps_successes_witness :
  ∃ w', block_data sample_extractor 100 102 (sample_world replies_blocks)
        = (Ok [JObj [("blockNumber", JInt 100)]; JObj [("blockNumber", JInt 102)]], w') ∧
        (λ c, dict_get (call_params c) "blockno") <$> http_log w'
        = [Some (JInt 100); Some (JInt 101); Some (JInt 102)].
Proof.
  destruct (block_range_keeps_successes sample_extractor 100 102
              [ok_body (JObj [("blockNumber", JInt 100)]); error_body;
               ok_body (JObj [("blockNumber", JInt 102)])]
              (sample_world replies_blocks)) as (w' & Hrun & Hlog).
  - cbn. lia.
  - reflexivity.
  - exact answers_blocks.
  - exists w'. split; [exact Hrun|]. rewrite Hlog. reflexivity.
Defined.

(** The same range through [extract_block_range]: the two blocks go to a JSON
    file and a CSV file under [blocks]. *)
Example extract_block_range_sample :
  let r := extract_block_range sample_extractor 100 102 (sample_world replies_blocks) in
  let name := "20260101_120000_blocks_100_to_102" in
  let blocks := [JObj [("blockNumber", JInt 100)]; JObj [("blockNumber", JInt 102)]] in
  r.1 = Ok (<["csv" := Some ("out/csv/blocks/" +:+ name +:+ ".csv")]>
              {["json" := Some ("out/json/blocks/" +:+ name +:+ ".json")]}) ∧
  files r.2 !! ("out/json/blocks/" +:+ name +:+ ".json") = Some (FJson (JList blocks)) ∧
  files r.2 !! ("out/csv/blocks/" +:+ name +:+ ".csv")
  = Some (FCsv ["blockNumber"] [[JInt 100]; [JInt 102]]).
Proof. repeat split; vm_compute; reflexivity. Qed.

(** Records with the keys a, b and a, c. *)
Lemma save_csv_header_sorted_union_witness :
  ∃ path header rows w',
    _save_csv sample_extractor (JList (JObj <$> sample_records)) "blocks" ""
      (sample_world replies_never) = (Ok (Some path), w') ∧
    files w' !! path = Some (FCsv header rows) ∧
    Sorted String.le header ∧
    (∀ k, k ∈ header ↔ ∃ r, r ∈ sample_records ∧ k ∈ dict_keys r).
Proof.
  destruct (save_csv_header_sorted_union sample_extractor sample_records "blocks" ""
              (sample_world replies_never)) as [Hret Hfile]; [discriminate|].
  destruct Hret as (path & w' & Hrun); [intros i Hi; reflexivity|].
  rewrite Hrun in Hfile.
  destruct Hfile as (header & rows & Hfile & Hsorted & _ & Hmem & _).
  exists path, header, rows, w'. repeat split; try assumption; apply Hmem.
Defined.

Example save_csv_sample :
  let r := _save_csv sample_extractor (JList (JObj <$> sample_records)) "blocks" ""
             (sample_world replies_never) in
  r.1 = Ok (Some "out/csv/blocks.csv") ∧
  files r.2 !! "out/csv/blocks.csv"
  = Some (FCsv ["a"; "b"; "c"]
            [[JInt 1; JInt 2; JStr ""]; [JInt 3; JStr ""; JInt 4]]).
Proof. split; vm_compute; reflexivity. Qed.



(** * Further properties *)

(** ** The retry schedule *)

Lemma refuses_cons msg rest w c r secs :
  refuses w (msg :: rest) →
  net w (length (http_log w)) = HttpRaise (RequestException msg)
  ∧ refuses (slept secs (warned r (sent c w))) rest.
Proof.
  intros H. split.
  - rewrite <- (Nat.add_0_r (length _)). by apply H.
  - intros i m Hi. cbn. rewrite length_app. cbn.
    rewrite <- Nat.add_assoc. by apply H.
Qed.

Lemma retried_logs cfg params method msgs :
  ∀ attempt w,
    net (retried cfg params method attempt msgs w) = net w ∧
    files (retried cfg params method attempt msgs w) = files w ∧
    http_log (retried cfg params method attempt msgs w)
    = http_log w ++ replicate (length msgs) (call_of cfg params method) ∧
    sleep_log (retried cfg params method attempt msgs w)
    = sleep_log w ++ ((λ i, retry_delay cfg * i)
                        <$> py_range (attempt + 1)
                              (attempt + 1 + Z.of_nat (length msgs))) ∧
    warn_log (retried cfg params method attempt msgs w)
    = warn_log w ++ zip_with WarnAttemptFailed
                      (py_range (attempt + 1) (attempt + 1 + Z.of_nat (length msgs)))
                      msgs.
Proof.
  induction msgs as [|msg rest IH]; intros attempt w.
  - cbn. rewrite py_range_nil by lia. cbn. by rewrite !app_nil_r.
  - cbn [retried length].
    destruct (IH (attempt + 1)
                (slept (retry_delay cfg * (attempt + 1))
                   (warned (WarnAttemptFailed (attempt + 1) msg)
                      (sent (call_of cfg params method) w))))
      as (-> & -> & -> & -> & ->).
    rewrite (py_range_cons (attempt + 1)) by lia.
    replace (attempt + 1 + Z.of_nat (S (length rest)))
      with (attempt + 1 + 1 + Z.of_nat (length rest)) by lia.
    cbn. by rewrite <- !app_assoc.
Qed.

(** Failed attempts that are not the last one are retried one after the
    other. *)
Lemma attempt_loop_retried cfg params method msgs :
  0 ≤ retry_delay cfg →
  ∀ attempt w,
    0 ≤ attempt →
    refuses w msgs →
    attempt + Z.of_nat (length msgs) < max_retries cfg →
    attempt_loop cfg params method (py_range attempt (max_retries cfg)) w
    = attempt_loop cfg params method
        (py_range (attempt + Z.of_nat (length msgs)) (max_retries cfg))
        (retried cfg params method attempt msgs w).
Proof.
  intros Hd. induction msgs as [|msg rest IH]; intros attempt w Ha Href Hlt.
  - cbn. by rewrite Z.add_0_r.
  - cbn [length retried] in *.
    eapply refuses_cons in Href as [Hnet Href].
    rewrite py_range_cons by lia.
    rewrite (attempt_loop_retry _ _ _ _ _ _ msg) by (done || lia).
    rewrite IH by (done || lia). do 2 f_equal. lia.
Qed.

(** X1: whatever [max_retries], when the first [k < max_retries] exchanges of
    a request raise transport errors and the next one succeeds,
    [_make_request] returns the body of that exchange after [k + 1] calls and
    the [k] sleeps [retry_delay * 1], ..., [retry_delay * k]. *)
Theorem retries_until_success cfg params method w msgs data :
  0 ≤ retry_delay cfg →
  Z.of_nat (length msgs) < max_retries cfg →
  refuses w msgs →
  net w (length (http_log w) + length msgs)%nat = HttpOk (JObj data) →
  ∃ w',
    _make_request cfg params method w = (Ok data, w') ∧
    http_log w'
    = http_log w ++ replicate (S (length msgs))
                      (HttpCall (verb_of method) (base_url cfg) params (timeout cfg)) ∧
    sleep_log w'
    = sleep_log w ++ ((λ i, retry_delay cfg * i)
                        <$> py_range 1 (Z.of_nat (length msgs) + 1)) ∧
    files w' = files w.
Proof.
  intros Hd Hlt Href Hnet.
  destruct (retried_logs cfg params method msgs 0 w)
    as (Hn & Hf & Hh & Hs & _).
  assert (net (retried cfg params method 0 msgs w)
              (length (http_log (retried cfg params method 0 msgs w)))
          = HttpOk (JObj data)) as Hnet'.
  { by rewrite Hn, Hh, length_app, length_replicate. }
  exists (replied cfg params method data (retried cfg params method 0 msgs w)).
  split.
  - unfold _make_request, bind.
    rewrite (attempt_loop_retried _ _ _ msgs) by (done || lia).
    rewrite py_range_cons by lia.
    by rewrite (attempt_loop_ok _ _ _ _ _ _ _ Hnet').
  - rewrite replied_http_log, Hh, <- app_assoc, replicate_S_end.
    split; [done|].
    replace (Z.of_nat (length msgs) + 1) with (0 + 1 + Z.of_nat (length msgs)) by lia.
    unfold replied.
    destruct (str_eq (dict_get data "status") "0"); cbn; by rewrite Hs, Hf.
Qed.

(** Every attempt of a request fails. *)
Lemma make_request_refused cfg params method w msgs last :
  0 ≤ retry_delay cfg →
  max_retries cfg = Z.of_nat (length msgs) + 1 →
  refuses w (msgs ++ [last]) →
  ∃ w',
    _make_request cfg params method w = (Raise (RequestException last), w') ∧
    http_log w'
    = http_log w ++ replicate (S (length msgs))
                      (HttpCall (verb_of method) (base_url cfg) params (timeout cfg)) ∧
    sleep_log w'
    = sleep_log w ++ ((λ i, retry_delay cfg * i) <$> py_range 1 (max_retries cfg)) ∧
    warn_log w'
    = warn_log w ++ zip_with WarnAttemptFailed
                      (py_range 1 (max_retries cfg + 1)) (msgs ++ [last]) ∧
    files w' = files w.
Proof.
  intros Hd Hmax Href.
  destruct (retried_logs cfg params method msgs 0 w)
    as (Hn & Hf & Hh & Hs & Hw).
  assert (refuses w msgs) as Href1.
  { intros i msg Hi. apply Href. by apply lookup_app_l_Some. }
  assert (net (retried cfg params method 0 msgs w)
              (length (http_log (retried cfg params method 0 msgs w)))
          = HttpRaise (RequestException last)) as Hnet'.
  { rewrite Hn, Hh, length_app, length_replicate. apply Href.
    by rewrite lookup_app_r, Nat.sub_diag. }
  exists (warned (WarnAttemptFailed (0 + Z.of_nat (length msgs) + 1) last)
            (sent (call_of cfg params method) (retried cfg params method 0 msgs w))).
  split.
  - unfold _make_request, bind.
    rewrite (attempt_loop_retried _ _ _ msgs) by (done || lia).
    rewrite py_range_cons by lia.
    by rewrite (attempt_loop_last _ _ _ _ _ _ last) by (done || lia).
  - cbn [http_log sleep_log warn_log files warned sent].
    rewrite Hh, Hs, Hw, Hf, <- !app_assoc. repeat split.
    + by rewrite replicate_S_end.
    + do 3 f_equal. lia.
    + f_equal. rewrite Hmax.
      replace (Z.of_nat (length msgs) + 1 + 1)
        with (1 + Z.of_nat (length msgs) + 1) by lia.
      rewrite py_range_snoc, zip_with_app by (rewrite py_range_length; lia).
      cbn. do 3 f_equal; lia.
Qed.

(** X2: whatever [max_retries >= 1], when every exchange of a request raises
    a transport error, [_make_request] raises the error of the last attempt
    after [max_retries] calls, the sleeps [retry_delay * 1], ...,
    [retry_delay * (max_retries - 1)] and one warning per attempt, without
    touching a file. *)
Theorem every_attempt_fails cfg params method w msgs last :
  0 ≤ retry_delay cfg →
  max_retries cfg = Z.of_nat (length msgs) + 1 →
  refuses w (msgs ++ [last]) →
  ∃ w',
    _make_request cfg params method w = (Raise (RequestException last), w') ∧
    http_log w'
    = http_log w ++ replicate (S (length msgs))
                      (HttpCall (verb_of method) (base_url cfg) params (timeout cfg)) ∧
    sleep_log w'
    = sleep_log w ++ ((λ i, retry_delay cfg * i) <$> py_range 1 (max_retries cfg)) ∧
    warn_log w'
    = warn_log w ++ zip_with WarnAttemptFailed
                      (py_range 1 (max_retries cfg + 1)) (msgs ++ [last]) ∧
    files w' = files w.
Proof. apply make_request_refused. Qed.

(** X3: an exception of an exchange that is not a [RequestException] is not
    caught by [_make_request]: it leaves at once, after one call, with no
    warning, no sleep and no retry. *)
Theorem other_exception_not_retried cfg params method w e :
  1 ≤ max_retries cfg →
  net w (length (http_log w)) = HttpRaise e →
  (∀ msg, e ≠ RequestException msg) →
  _make_request cfg params method w
  = (Raise e, sent (HttpCall (verb_of method) (base_url cfg) params (timeout cfg)) w).
Proof.
  intros Hn Hnet He. unfold _make_request, bind.
  rewrite py_range_cons, attempt_loop_step, Hnet by lia.
  destruct e; try done. by destruct (He msg).
Qed.

(** From an attempt index, the loop makes at least one call when an attempt
    is left, at most one per attempt left, and sleeps only between calls. *)
Lemma attempt_loop_budget cfg params method (m : nat) :
  ∀ k w, Z.to_nat (max_retries cfg - k) = m →
    ∃ (n : nat) sleeps,
      http_log (attempt_loop cfg params method (py_range k (max_retries cfg)) w).2
      = http_log w ++ replicate n (call_of cfg params method) ∧
      sleep_log (attempt_loop cfg params method (py_range k (max_retries cfg)) w).2
      = sleep_log w ++ sleeps ∧
      (n ≤ m)%nat ∧ ((1 ≤ m)%nat → (1 ≤ n)%nat) ∧ (length sleeps ≤ pred n)%nat.
Proof.
  induction m as [|m IH]; intros k w Hm.
  - rewrite py_range_nil by lia. exists 0%nat, []. cbn.
    rewrite !app_nil_r. repeat split; lia.
  - rewrite py_range_cons by lia. rewrite attempt_loop_step.
    assert (∀ r : outcome (option dict) * world,
              http_log r.2 = http_log w ++ [call_of cfg params method] →
              sleep_log r.2 = sleep_log w →
              ∃ (n : nat) sleeps,
                http_log r.2 = http_log w ++ replicate n (call_of cfg params method) ∧
                sleep_log r.2 = sleep_log w ++ sleeps ∧
                (n ≤ S m)%nat ∧ ((1 ≤ S m)%nat → (1 ≤ n)%nat)
                ∧ (length sleeps ≤ pred n)%nat) as Hone.
    { intros r Hh Hs. exists 1%nat, []. rewrite Hh, Hs, app_nil_r. cbn.
      repeat split; lia. }
    destruct (net w (length (http_log w))) as [body|e].
    + destruct body as [| | | | | |data]; try (by apply Hone).
      apply Hone; [apply replied_http_log|]. unfold replied.
      by destruct (str_eq (dict_get data "status") "0").
    + destruct e; try (by apply Hone). cbn zeta.
      destruct (Z.ltb_spec k (max_retries cfg - 1)); [|by apply Hone].
      destruct (retry_delay cfg * (k + 1) <? 0); [by apply Hone|].
      match goal with |- context [attempt_loop _ _ _ _ ?w1] =>
        destruct (IH (k + 1) w1) as (n & sleeps & -> & -> & Hn & Hpos & Hsl);
          [lia|] end.
      exists (S n), (retry_delay cfg * (k + 1) :: sleeps).
      cbn [http_log sleep_log slept warned sent length].
      rewrite <- !app_assoc. repeat split; try done; lia.
Qed.

(** X4: one [_make_request] makes the same call again and again, at least
    once when [max_retries >= 1] and at most [max_retries] times, and it
    sleeps fewer times than it calls: never after its last call. *)
Theorem make_request_budget cfg params method w :
  ∃ (n : nat) sleeps,
    http_log (_make_request cfg params method w).2
    = http_log w ++ replicate n
                      (HttpCall (verb_of method) (base_url cfg) params (timeout cfg)) ∧
    sleep_log (_make_request cfg params method w).2 = sleep_log w ++ sleeps ∧
    Z.of_nat n ≤ Z.max 0 (max_retries cfg) ∧
    (1 ≤ max_retries cfg → (1 ≤ n)%nat) ∧
    (length sleeps ≤ pred n)%nat.
Proof.
  destruct (attempt_loop_budget cfg params method
              (Z.to_nat (max_retries cfg - 0)) 0 w eq_refl)
    as (n & sleeps & Hh & Hs & Hn & Hpos & Hsl).
  exists n, sleeps.
  assert ((_make_request cfg params method w).2
          = (attempt_loop cfg params method (py_range 0 (max_retries cfg)) w).2)
    as ->.
  { unfold _make_request, bind.
    by destruct (attempt_loop _ _ _ _ w) as [[[data|]|e|] w1]. }
  repeat split; try done; lia.
Qed.

(** X5: an exception that leaves [_make_request] is one that an exchange
    raised, or the [ValueError] of a negative sleep length, or the final
    "Max retries exceeded", or the [AttributeError] of [data.get] on the body
    of a successful exchange that is not an object; it is never [OutOfFuel]:
    the request ends. *)
Theorem make_request_exceptions cfg params method w :
  match _make_request cfg params method w with
  | (Ok _, _) => True
  | (Raise e, _) =>
      (∃ k, net w k = HttpRaise e)
      ∨ e = ValueError "sleep length must be non-negative"
      ∨ e = RequestException "Max retries exceeded"
      ∨ (∃ k body, net w k = HttpOk body ∧ is_dict body = false
                   ∧ e = no_attribute body "get")
  | (OutOfFuel, _) => False
  end.
Proof.
  pose proof (make_request_fuel cfg params method w) as Hfuel.
  destruct (_make_request cfg params method w) as [[data|e|] w'] eqn:Hrun;
    [done| |done].
  by apply make_request_raises in Hrun.
Qed.

(** ** The parameters of the client methods *)

Lemma dict_get_set d k v k' :
  dict_get (dict_set d k v) k'
  = if String.eqb k k' then Some v else dict_get d k'.
Proof.
  induction d as [|[k0 v0] d IH]; cbn; [done|].
  destruct (String.eqb_spec k0 k) as [->|Hne]; cbn.
  - by destruct (String.eqb k k').
  - rewrite IH. destruct (String.eqb_spec k0 k') as [->|Hne'].
    + by destruct (String.eqb_spec k k') as [->|].
    + done.
Qed.

Lemma dict_get_set_if_nonempty d k x k' :
  dict_get (set_if_nonempty k x d) k'
  = match text_param x with
    | Some v => if String.eqb k k' then Some v else dict_get d k'
    | None => dict_get d k'
    end.
Proof.
  unfold set_if_nonempty, text_param. destruct x as [s|]; [|done].
  destruct (String.eqb s ""); [done | apply dict_get_set].
Qed.

Lemma dict_get_set_if_given d k x k' :
  dict_get (set_if_given k x d) k'
  = match x with
    | Some n => if String.eqb k k' then Some (JInt n) else dict_get d k'
    | None => dict_get d k'
    end.
Proof. destruct x; [apply dict_get_set | done]. Qed.

Lemma text_param_not_empty x : text_param x ≠ Some (JStr "").
Proof.
  unfold text_param. destruct x as [s|]; [|done].
  destruct (String.eqb_spec s ""); [done | congruence].
Qed.

(** X6: [get_internal_transactions] with neither an address nor a
    transaction hash ([None] or ['']) raises its [ValueError] without a call;
    with one of them it is one request that carries the page, the offset and
    the sort order, the address and the hash that are given, and the block
    bounds that are given. *)
Theorem internal_transactions_guard
    cfg address txhash startblock endblock page offset sort w :
  (given address = false → given txhash = false →
     get_internal_transactions cfg address txhash startblock endblock
       page offset sort w
     = (Raise (ValueError "Either address or txhash must be provided"), w)) ∧
  (given address = true ∨ given txhash = true →
     ∃ params,
       get_internal_transactions cfg address txhash startblock endblock
         page offset sort w
       = _make_request cfg params "GET" w ∧
       dict_get params "action" = Some (JStr "txlistinternal") ∧
       dict_get params "page" = Some (JInt page) ∧
       dict_get params "offset" = Some (JInt offset) ∧
       dict_get params "sort" = Some (JStr sort) ∧
       dict_get params "address" = text_param address ∧
       dict_get params "txhash" = text_param txhash ∧
       dict_get params "startblock" = JInt <$> startblock ∧
       dict_get params "endblock" = JInt <$> endblock).
Proof.
  unfold get_internal_transactions. split.
  - by intros -> ->.
  - intros Hgiven.
    assert (negb (given address) && negb (given txhash) = false) as ->.
    { destruct Hgiven as [-> | ->]; [done | apply andb_false_r]. }
    eexists. split; [reflexivity|].
    rewrite !dict_get_set_if_given, !dict_get_set_if_nonempty.
    destruct startblock, endblock, (text_param address), (text_param txhash);
      repeat split.
Qed.

(** X7: [get_block_number_by_timestamp] with a [closest] that is neither
    ['before'] nor ['after'] raises its [ValueError] without a call;
    otherwise it is one request that carries the timestamp and [closest]. *)
Theorem block_number_by_timestamp_guard cfg timestamp closest w :
  (closest ≠ "before" → closest ≠ "after" →
     get_block_number_by_timestamp cfg timestamp closest w
     = (Raise (ValueError "closest must be 'before' or 'after'"), w)) ∧
  (closest = "before" ∨ closest = "after" →
     get_block_number_by_timestamp cfg timestamp closest w
     = _make_request cfg
         [("module", JStr "block"); ("action", JStr "getblocknobytime");
          ("timestamp", JInt timestamp); ("closest", JStr closest)] "GET" w).
Proof.
  unfold get_block_number_by_timestamp. split.
  - intros Hb Ha.
    destruct (String.eqb_spec closest "before"); [done|].
    by destruct (String.eqb_spec closest "after").
  - by intros [-> | ->].
Qed.

Lemma dict_get_set_if_nonempty_ne d k x k' :
  k ≠ k' → dict_get (set_if_nonempty k x d) k' = dict_get d k'.
Proof.
  intros Hne. rewrite dict_get_set_if_nonempty.
  destruct (text_param x); [|done]. by destruct (String.eqb_spec k k').
Qed.

Lemma dict_get_set_if_nonempty_eq d k x :
  dict_get d k = None → dict_get (set_if_nonempty k x d) k = text_param x.
Proof.
  intros Hnone. rewrite dict_get_set_if_nonempty, String.eqb_refl.
  by destruct (text_param x).
Qed.

Lemma set_if_nonempty_not_empty d k x :
  (∀ k', dict_get d k' ≠ Some (JStr "")) →
  ∀ k', dict_get (set_if_nonempty k x d) k' ≠ Some (JStr "").
Proof.
  intros Hd k'. rewrite dict_get_set_if_nonempty.
  pose proof (text_param_not_empty x) as Hx.
  destruct (text_param x); [|apply Hd].
  destruct (String.eqb k k'); [congruence | apply Hd].
Qed.

(** X8: the request of [get_logs] always carries the two block bounds, and
    carries each optional filter exactly when its argument is a text that is
    not empty, with that text for value; no parameter of the request is the
    empty string. *)
Theorem get_logs_parameters fromBlock toBlock f :
  let params := get_logs_params fromBlock toBlock f in
  dict_get params "module" = Some (JStr "logs") ∧
  dict_get params "action" = Some (JStr "getLogs") ∧
  dict_get params "fromBlock" = Some (JInt fromBlock) ∧
  dict_get params "toBlock" = Some (JInt toBlock) ∧
  dict_get params "address" = text_param (log_address f) ∧
  dict_get params "topic0" = text_param (topic0 f) ∧
  dict_get params "topic1" = text_param (topic1 f) ∧
  dict_get params "topic2" = text_param (topic2 f) ∧
  dict_get params "topic3" = text_param (topic3 f) ∧
  dict_get params "topic0_1_opr" = text_param (topic0_1_opr f) ∧
  dict_get params "topic0_2_opr" = text_param (topic0_2_opr f) ∧
  dict_get params "topic0_3_opr" = text_param (topic0_3_opr f) ∧
  dict_get params "topic1_2_opr" = text_param (topic1_2_opr f) ∧
  dict_get params "topic1_3_opr" = text_param (topic1_3_opr f) ∧
  dict_get params "topic2_3_opr" = text_param (topic2_3_opr f) ∧
  (∀ k, dict_get params k ≠ Some (JStr "")).
Proof.
  intros params. unfold params, get_logs_params. cbn zeta.
  repeat split;
    try (rewrite ?dict_get_set_if_nonempty_ne by done;
         first [ reflexivity
               | rewrite dict_get_set_if_nonempty_eq;
                 [reflexivity | by rewrite ?dict_get_set_if_nonempty_ne by done] ]).
  do 11 apply set_if_nonempty_not_empty.
  intros k. cbn [dict_get]. repeat (destruct (String.eqb _ k); [done|]). done.
Qed.

Lemma make_request_only_gets cfg params w :
  only_gets cfg w (_make_request cfg params "GET" w).
Proof.
  destruct (make_request_calls cfg params "GET" w) as (n & _ & Hlog).
  exists (replicate n (call_of cfg params "GET")). split; [done|].
  by apply Forall_replicate.
Qed.

Lemma raise_only_gets {A} cfg e w : only_gets cfg w (raise (A:=A) e w).
Proof. exists []. split; [by rewrite app_nil_r | done]. Qed.

(** X9: no method of the client ever posts: whatever the replies, every call
    a method adds is a GET call to the base URL with the timeout of the
    configuration (the guarded methods add none when their guard raises). *)
Theorem client_methods_only_get
    cfg w (address contract txhash sort closest : string)
    (addresses : list string) (opt_address opt_txhash opt_contract : option string)
    (startblock endblock : option Z) (page offset blockno stamp lo hi : Z)
    (f : log_filter) :
  only_gets cfg w (get_balance cfg address w) ∧
  only_gets cfg w (get_balance_multi cfg addresses w) ∧
  only_gets cfg w (get_transactions cfg address startblock endblock page offset sort w) ∧
  only_gets cfg w (get_internal_transactions cfg opt_address opt_txhash
                     startblock endblock page offset sort w) ∧
  only_gets cfg w (get_token_transfers cfg address opt_contract
                     startblock endblock page offset sort w) ∧
  only_gets cfg w (get_token_balance cfg contract address w) ∧
  only_gets cfg w (get_token_list cfg address w) ∧
  only_gets cfg w (get_block_reward cfg blockno w) ∧
  only_gets cfg w (get_block_number_by_timestamp cfg stamp closest w) ∧
  only_gets cfg w (get_contract_abi cfg address w) ∧
  only_gets cfg w (get_contract_source_code cfg address w) ∧
  only_gets cfg w (get_transaction_info cfg txhash w) ∧
  only_gets cfg w (get_transaction_receipt_status cfg txhash w) ∧
  only_gets cfg w (get_transaction_status cfg txhash w) ∧
  only_gets cfg w (get_logs cfg lo hi f w) ∧
  only_gets cfg w (get_token_info cfg contract w) ∧
  only_gets cfg w (get_token_holders cfg contract page offset w) ∧
  only_gets cfg w (get_token_supply cfg contract w) ∧
  only_gets cfg w (get_eth_supply cfg w) ∧
  only_gets cfg w (get_coin_price cfg w).
Proof.
  repeat split; try apply make_request_only_gets.
  - unfold get_balance_multi.
    destruct (20 <? Z.of_nat (length addresses));
      [apply raise_only_gets | apply make_request_only_gets].
  - unfold get_internal_transactions.
    destruct (negb (given opt_address) && negb (given opt_txhash));
      [apply raise_only_gets | apply make_request_only_gets].
  - unfold get_block_number_by_timestamp.
    destruct (negb _); [apply raise_only_gets | apply make_request_only_gets].
Qed.

(** ** Saving files *)

Lemma append_assoc (a b c : string) : (a +:+ b) +:+ c = a +:+ b +:+ c.
Proof.
  induction a as [|x a IH]; [reflexivity|].
  change (String x ((a +:+ b) +:+ c) = String x (a +:+ b +:+ c)). by f_equal.
Qed.

(** Every JSON path starts with the output directory and [/json/], every CSV
    path with the output directory and [/csv/]. *)
Lemma json_csv_paths_differ self filename subdir filename' subdir' :
  path_join (if String.eqb subdir "" then json_dir self
             else path_join (json_dir self) subdir) (filename +:+ ".json")
  ≠ path_join (if String.eqb subdir' "" then csv_dir self
               else path_join (csv_dir self) subdir') (filename' +:+ ".csv").
Proof.
  unfold json_dir, csv_dir, path_join.
  destruct (String.eqb subdir ""), (String.eqb subdir' "");
    rewrite !append_assoc; intros H; apply (inj (String.app _)) in H;
    discriminate H.
Qed.

(** The keys loop of [_save_csv] changes nothing in the world; it ends well
    exactly on a list of dicts. *)
Lemma update_keys_run records :
  ∀ keys w,
    (∃ ds, records = JObj <$> ds ∧
           update_keys records keys w
           = (Ok (keys ∪ ⋃ ((λ r, list_to_set (dict_keys r)) <$> ds)), w))
    ∨ (∃ record, record ∈ records ∧ is_dict record = false ∧
                 update_keys records keys w
                 = (Raise (no_attribute record "keys"), w)).
Proof.
  induction records as [|record rest IH]; intros keys w.
  - left. exists []. split; [done|]. cbn. by rewrite (right_id_L ∅ (∪)).
  - destruct record as [| | | | | |d];
      try (right; eexists; split; [by left | by split]).
    cbn [update_keys].
    destruct (IH (keys ∪ list_to_set (dict_keys d)) w)
      as [(ds & -> & Hrun)|(record & Hin & Hnot & Hrun)].
    + left. exists (d :: ds). split; [done|]. rewrite Hrun. cbn.
      by rewrite (assoc_L (∪)).
    + right. exists record. split; [by right | by split].
Qed.

(** The ways [_save_csv] ends: with nothing to save, with an exception and no
    file written, or with the file of the records, which are dicts. *)
Lemma save_csv_cases self data filename subdir w :
  (truthy data = false ∧
   _save_csv self data filename subdir w = (Ok None, warned (WarnNoData filename) w))
  ∨ (∃ e w', truthy data = true ∧
             _save_csv self data filename subdir w = (Raise e, w') ∧
             files w' = files w ∧
             (∃ calls, w' = after_calls calls w) ∧
             (e = not_iterable data
              ∨ (∃ record, is_dict record = false ∧ e = no_attribute record "keys")
              ∨ ∃ k, disk w k = Some e))
  ∨ (∃ ds w', truthy data = true ∧ py_iter data = Some (JObj <$> ds) ∧
              _save_csv self data filename subdir w
              = (Ok (Some (csv_path self filename subdir)), w') ∧
              files w' = <[csv_path self filename subdir :=
                             FCsv (csv_header ds) (csv_rows ds)]> (files w)).
Proof.
  destruct (truthy data) eqn:Htrue.
  2:{ left. split; [done|]. unfold _save_csv. by rewrite Htrue. }
  right.
  assert (∃ save_dir calls,
            (∃ e, save_dir_of (csv_dir self) subdir w = (Raise e, after_calls calls w) ∧
                  ∃ k, disk w k = Some e)
            ∨ save_dir_of (csv_dir self) subdir w = (Ok save_dir, after_calls calls w))
    as (save_dir & calls & Hdir).
  { rewrite save_dir_of_step. destruct (String.eqb subdir "").
    - exists (csv_dir self), []. right. by rewrite after_calls_nil.
    - exists (path_join (csv_dir self) subdir),
        [Mkdir (path_join (csv_dir self) subdir)].
      change (called (Mkdir (path_join (csv_dir self) subdir)) w)
        with (after_calls [Mkdir (path_join (csv_dir self) subdir)] w).
      destruct (disk w (length (fs_log w))) eqn:Hdisk; by eauto. }
  destruct Hdir as [(e & Hdir & Hdisk)|Hdir].
  { left. exists e, (after_calls calls w). split; [done|].
    split; [|by eauto 6].
    unfold _save_csv. rewrite Htrue. cbn [negb]. unfold bind at 1.
    by rewrite Hdir. }
  destruct (py_iter data) as [records|] eqn:Hiter.
  2:{ left. exists (not_iterable data), (after_calls calls w). split; [done|].
      split; [|by eauto 6].
      unfold _save_csv. rewrite Htrue. cbn [negb]. unfold bind at 1.
      rewrite Hdir. unfold bind, iterate. by rewrite Hiter. }
  destruct (update_keys_run records ∅ (after_calls calls w))
    as [(ds & -> & Hrun)|(record & _ & Hnot & Hrun)].
  2:{ left. exists (no_attribute record "keys"), (after_calls calls w).
      split; [done|]. split; [|by eauto 8].
      unfold _save_csv. rewrite Htrue. cbn [negb]. unfold bind at 1.
      rewrite Hdir. unfold bind at 1, iterate. rewrite Hiter. unfold ret at 1.
      unfold bind at 1. by rewrite Hrun. }
  assert (ds ≠ []) as Hne.
  { intros ->. apply truthy_iter_nonempty in Hiter; [|done]. cbn in Hiter. lia. }
  pose proof (save_csv_records_run self ds filename subdir w Hne) as Hsave.
  pose proof (save_run_cases (csv_dir self) subdir (csv_path self filename subdir)
                (FCsv (csv_header ds) (csv_rows ds))
                (Some (csv_path self filename subdir)) w) as Hcases.
  assert (_save_csv self data filename subdir w
          = _save_csv self (JList (JObj <$> ds)) filename subdir w) as Hsame.
  { unfold _save_csv. rewrite Htrue.
    assert (truthy (JList (JObj <$> ds)) = true) as -> by (by destruct ds).
    cbn [negb]. unfold iterate. by rewrite Hiter. }
  rewrite Hsame, Hsave.
  destruct (save_run _ _ _ _ _ w) as [[a|e|] w'] eqn:Hsaved; [| |done].
  - destruct Hcases as [-> Hfiles]. right. by exists ds, w'.
  - destruct Hcases as [Hdisk Hfiles]. apply save_run_raise in Hsaved.
    left. exists e, w'. auto 8.
Qed.

(** X10: [_save_csv] writes its file whole or not at all.  Whatever the data
    and the file system, either it returns the path of the CSV file, under the
    [csv] directory, and that file is the only one it wrote; or it touches no
    file: it returns [None] with a warning for data that is false (an empty
    list), and raises, having done no more than calls of the file system, for
    data that cannot be iterated or has a record that is not a dict, or what
    the file system raised. *)
Theorem save_csv_all_or_nothing self data filename subdir w :
  let path := path_join (if String.eqb subdir "" then csv_dir self
                         else path_join (csv_dir self) subdir)
                        (filename +:+ ".csv") in
  match _save_csv self data filename subdir w with
  | (Ok (Some p), w') =>
      p = path ∧ ∃ header rows, files w' = <[path := FCsv header rows]> (files w)
  | (Ok None, w') =>
      truthy data = false ∧ w' = warned (WarnNoData filename) w
  | (Raise e, w') =>
      truthy data = true ∧ (∃ calls, w' = after_calls calls w) ∧
      (e = not_iterable data
       ∨ (∃ record, is_dict record = false ∧ e = no_attribute record "keys")
       ∨ ∃ k, disk w k = Some e)
  | (OutOfFuel, _) => False
  end.
Proof.
  intros path.
  destruct (save_csv_cases self data filename subdir w)
    as [[Hfalse ->]|[(e & w' & Htrue & -> & Hfiles & Hcalls & He)
                    |(ds & w' & Htrue & _ & -> & Hfiles)]]; [done..|].
  split; [done|]. by eauto.
Qed.

(** ** More on the accumulators *)

(** The three accumulators are [accumulate] on a request that carries the
    page asked for, a fixed page size and a fixed action. *)
Lemma accumulators_are_accumulate self address contract_address cap w
    (P : Z → string → outcome (list json) * world → Prop) :
  (∀ size action params,
     (∀ page, dict_get (params page) "page" = Some (JInt page) ∧
              dict_get (params page) "offset" = Some (JInt size) ∧
              dict_get (params page) "action" = Some (JStr action)) →
     P size action
       (accumulate (λ page, _make_request (client self) (params page) "GET") cap w)) →
  P (Z.min 100 cap) "txlist" (all_transactions self address cap w) ∧
  P 100 "tokentx" (all_transfers self address contract_address cap w) ∧
  P (Z.min 100 cap) "getTokenHolders" (all_holders self address cap w).
Proof.
  intros Hacc. split; [|split].
  - by apply (Hacc _ _ (λ page, [("module", JStr "account"); ("action", JStr "txlist");
                               ("address", JStr address); ("page", JInt page);
                               ("offset", JInt (Z.min 100 cap));
                               ("sort", JStr "desc")])).
  - unfold all_transfers, get_token_transfers. cbn [set_if_given].
    destruct contract_address as [c|]; [destruct (String.eqb c "")|].
    + by apply (Hacc _ _ (λ page, [("module", JStr "account"); ("action", JStr "tokentx");
                                 ("address", JStr address); ("page", JInt page);
                                 ("offset", JInt 100); ("sort", JStr "desc")])).
    + by apply (Hacc _ _ (λ page, [("module", JStr "account"); ("action", JStr "tokentx");
                                 ("address", JStr address); ("page", JInt page);
                                 ("offset", JInt 100); ("sort", JStr "desc");
                                 ("contractaddress", JStr c)])).
    + by apply (Hacc _ _ (λ page, [("module", JStr "account"); ("action", JStr "tokentx");
                                 ("address", JStr address); ("page", JInt page);
                                 ("offset", JInt 100); ("sort", JStr "desc")])).
  - by apply (Hacc _ _ (λ page, [("module", JStr "token");
                               ("action", JStr "getTokenHolders");
                               ("contractaddress", JStr address); ("page", JInt page);
                               ("offset", JInt (Z.min 100 cap))])).
Qed.

(** Full pages answered at once, the last of which reaches the cap: the
    result is the first [cap] records, and no page is asked for after it. *)
Lemma accumulate_cap_reached cfg params cap bodies last w :
  1 ≤ max_retries cfg →
  (∀ page, dict_get (params page) "page" = Some (JInt page)) →
  answers w (bodies ++ [last]) →
  Forall (λ body, full_page body = true) (bodies ++ [last]) →
  Z.of_nat (length (bodies ≫= records)) < cap →
  cap ≤ Z.of_nat (length ((bodies ++ [last]) ≫= records)) →
  fetched w (accumulate (λ page, _make_request cfg (params page) "GET") cap w)
    (take (Z.to_nat cap) ((bodies ++ [last]) ≫= records))
    (py_range 1 (Z.of_nat (length bodies) + 2)).
Proof.
  intros Hn Hpage Hans Hfull Hlt Hge.
  apply Forall_app in Hfull as [Hfull Hlast].
  apply Forall_singleton, full_page_records in Hlast
    as (Hstatus & Htrue & Hiter & _).
  pose proof (full_pages_length _ Hfull) as Hlen.
  assert (answers w bodies) as Hans1.
  { intros j body Hj. apply Hans. by apply lookup_app_l_Some. }
  assert (net (replied_pages cfg params 1 bodies w)
              (length (http_log (replied_pages cfg params 1 bodies w)))
          = HttpOk (JObj last)) as Hnet.
  { rewrite replied_pages_net, replied_pages_http_log, length_app, length_fmap,
      py_range_length.
    replace (Z.to_nat (1 + Z.of_nat (length bodies) - 1)) with (length bodies) by lia.
    apply Hans. by rewrite lookup_app_r, Nat.sub_diag. }
  rewrite bind_app in Hge. cbn in Hge. rewrite app_nil_r, length_app in Hge.
  unfold accumulate, bind.
  replace (S (Z.to_nat cap))
    with (length bodies + S (S (Z.to_nat cap - length bodies - 1)))%nat by lia.
  rewrite (page_loop_full_pages _ _ _ _ Hn) by (done || (cbn; lia)).
  cbn [page_loop app].
  destruct (Z.ltb_spec (Z.of_nat (length (bodies ≫= records))) cap); [|lia].
  unfold bind at 1. rewrite (make_request_first_ok _ _ _ _ _ Hn Hnet).
  rewrite Hstatus, Htrue. cbn [negb]. unfold bind at 1, iterate.
  rewrite Hiter. unfold ret at 1.
  destruct (Z.ltb_spec (Z.of_nat (length ((bodies ≫= records) ++ records last))) cap);
    [rewrite length_app in *; lia|].
  unfold ret, fetched. cbn [fst snd]. split.
  - rewrite py_slice_to_take by lia. rewrite bind_app. cbn.
    by rewrite app_nil_r.
  - exists ((λ p, call_of cfg (params p) "GET")
              <$> py_range 1 (Z.of_nat (length bodies) + 2)).
    split.
    + rewrite replied_http_log, replied_pages_http_log, <- app_assoc. f_equal.
      replace (Z.of_nat (length bodies) + 2) with (1 + Z.of_nat (length bodies) + 1)
        by lia.
      by rewrite py_range_snoc, fmap_app.
    + rewrite <- list_fmap_compose. apply list_fmap_ext. intros _ p _.
      cbn. apply Hpage.
Qed.

(** X11: when full pages are answered at once and the last of them brings
    the count to the cap or over it, each accumulator returns exactly the
    first [cap] records of these pages, so the overshoot is dropped, and the
    page that reached the cap is the last one asked for. *)
Theorem cap_reached_truncates self address contract_address cap bodies last w :
  1 ≤ max_retries (client self) →
  answers w (bodies ++ [last]) →
  Forall (λ body, full_page body = true) (bodies ++ [last]) →
  Z.of_nat (length (bodies ≫= records)) < cap →
  cap ≤ Z.of_nat (length ((bodies ++ [last]) ≫= records)) →
  let l := take (Z.to_nat cap) ((bodies ++ [last]) ≫= records) in
  let pages := py_range 1 (Z.of_nat (length bodies) + 2) in
  fetched w (all_transactions self address cap w) l pages ∧
  fetched w (all_transfers self address contract_address cap w) l pages ∧
  fetched w (all_holders self address cap w) l pages.
Proof.
  intros Hn Hans Hfull Hlt Hge l pages.
  apply (accumulators_are_accumulate self address contract_address cap w
           (λ _ _ r, fetched w r l pages)).
  intros size action params Hparams.
  apply accumulate_cap_reached; try done. intros page. apply Hparams.
Qed.

(** Whatever the replies, the calls of the page loop are calls for pages from
    the current one on, at most [max_retries] for each record that is
    missing to reach the cap. *)
Lemma page_loop_asks cfg params cap (fuel : nat) :
  ∀ all page w,
    ∃ calls,
      http_log (page_loop fuel (λ page, _make_request cfg (params page) "GET")
                  cap all page w).2
      = http_log w ++ calls ∧
      Forall (λ c, ∃ p, page ≤ p ∧ c = call_of cfg (params p) "GET") calls ∧
      (length calls
       ≤ Z.to_nat (cap - Z.of_nat (length all)) * Z.to_nat (max_retries cfg))%nat.
Proof.
  induction fuel as [|fuel IH]; intros all page w.
  { exists []. split; [cbn; by rewrite app_nil_r|].
    split; [done | apply Nat.le_0_l]. }
  cbn [page_loop].
  destruct (Z.ltb_spec (Z.of_nat (length all)) cap) as [Hlt|Hge].
  2:{ exists []. split; [cbn; by rewrite app_nil_r|].
      split; [done | apply Nat.le_0_l]. }
  destruct (make_request_calls cfg (params page) "GET" w) as (n & Hn & Hlog).
  assert (∀ r : outcome (list json),
            ∃ calls,
              http_log (r, (_make_request cfg (params page) "GET" w).2).2
              = http_log w ++ calls ∧
              Forall (λ c, ∃ p, page ≤ p ∧ c = call_of cfg (params p) "GET") calls ∧
              (length calls
               ≤ Z.to_nat (cap - Z.of_nat (length all))
                 * Z.to_nat (max_retries cfg))%nat) as Hstop.
  { intros r. exists (replicate n (call_of cfg (params page) "GET")).
    split; [done|]. split.
    - apply Forall_replicate. exists page. split; [lia | done].
    - rewrite length_replicate. nia. }
  unfold bind at 1.
  destruct (_make_request cfg (params page) "GET" w) as [[result|e|] w1];
    [|apply Hstop..].
  destruct (str_eq (dict_get result "status") "1"); [|apply Hstop].
  destruct (truthy (dict_get_default result "result" (JList []))) eqn:Htrue;
    [|apply Hstop].
  cbn [negb]. unfold bind, iterate.
  destruct (py_iter (dict_get_default result "result" (JList [])))
    as [new|] eqn:Hiter; [|apply Hstop].
  pose proof (truthy_iter_nonempty _ _ Htrue Hiter) as Hnew. unfold ret.
  destruct (IH (all ++ new) (page + 1) w1) as (calls & -> & Hcalls & Hlen).
  exists (replicate n (call_of cfg (params page) "GET") ++ calls).
  cbn [snd] in Hlog. rewrite Hlog, <- app_assoc. split; [done|]. split.
  - apply Forall_app. split.
    + apply Forall_replicate. exists page. split; [lia | done].
    + eapply Forall_impl; [exact Hcalls|]. intros c (p & Hp & ->).
      exists p. split; [lia | done].
  - rewrite length_app, length_replicate. rewrite length_app in Hlen. nia.
Qed.

Lemma accumulate_asks cfg params action size cap w :
  (∀ page, dict_get (params page) "page" = Some (JInt page) ∧
           dict_get (params page) "offset" = Some (JInt size) ∧
           dict_get (params page) "action" = Some (JStr action)) →
  size = 100 ∨ size = Z.min 100 cap →
  asks_pages cfg action size cap w
    (accumulate (λ page, _make_request cfg (params page) "GET") cap w).
Proof.
  intros Hparams Hsize.
  destruct (page_loop_asks cfg params cap (S (Z.to_nat cap)) [] 1 w)
    as (calls & Hlog & Hcalls & Hlen).
  exists calls. split; [|split; [|split]].
  - rewrite <- Hlog. unfold accumulate, bind.
    by destruct (page_loop _ _ cap [] 1 w) as [[l|e|] w1].
  - eapply Forall_impl; [exact Hcalls|]. intros c (p & Hp & ->).
    destruct (Hparams p) as (Hpage & Hoffset & Haction).
    repeat split; try done. by exists p.
  - cbn in Hlen. nia.
  - intros Hne. assert (0 < length calls)%nat by (destruct calls; [done | cbn; lia]).
    cbn in Hlen. lia.
Qed.

(** X12: whatever the replies (failures and retries included), every call an
    accumulator makes is a GET for its own list action, for a page numbered
    from 1, with a page size that is [min(100, cap)] (always 100 for token
    transfers) and so between 1 and 100; and it makes at most
    [cap * max_retries] calls. *)
Theorem accumulators_ask_bounded_pages self address contract_address cap w :
  asks_pages (client self) "txlist" (Z.min 100 cap) cap w
    (all_transactions self address cap w) ∧
  asks_pages (client self) "tokentx" 100 cap w
    (all_transfers self address contract_address cap w) ∧
  asks_pages (client self) "getTokenHolders" (Z.min 100 cap) cap w
    (all_holders self address cap w).
Proof.
  destruct (accumulators_are_accumulate self address contract_address cap w
              (λ size action r,
                 size = 100 ∨ size = Z.min 100 cap →
                 asks_pages (client self) action size cap w r))
    as (Htx & Htransfers & Hholders).
  { intros size action params Hparams Hsize. by apply accumulate_asks. }
  auto.
Qed.

Lemma replied_pages_files cfg params bodies :
  ∀ page w, files (replied_pages cfg params page bodies w) = files w.
Proof.
  induction bodies as [|body rest IH]; intros page w; [done|].
  cbn. rewrite IH. unfold replied. by destruct (str_eq _ "0").
Qed.

(** Full pages answered at once, then a page whose attempts all fail: the
    error of the last attempt leaves the accumulator. *)
Lemma accumulate_refused cfg params cap bodies msgs last w :
  0 ≤ retry_delay cfg →
  max_retries cfg = Z.of_nat (length msgs) + 1 →
  answers w bodies →
  Forall (λ body, full_page body = true) bodies →
  Z.of_nat (length (bodies ≫= records)) < cap →
  (∀ (i : nat) msg,
     (msgs ++ [last]) !! i = Some msg →
     net w (length (http_log w) + length bodies + i)%nat
     = HttpRaise (RequestException msg)) →
  ∃ w', accumulate (λ page, _make_request cfg (params page) "GET") cap w
        = (Raise (RequestException last), w') ∧
        files w' = files w ∧
        length (http_log w')
        = (length (http_log w) + length bodies + S (length msgs))%nat.
Proof.
  intros Hd Hmax Hans Hfull Hcap Href.
  pose proof (full_pages_length _ Hfull) as Hlen.
  set (w1 := replied_pages cfg params 1 bodies w).
  assert (length (http_log w1) = (length (http_log w) + length bodies)%nat) as Hlog1.
  { unfold w1. rewrite replied_pages_http_log, length_app, length_fmap,
      py_range_length. lia. }
  assert (refuses w1 (msgs ++ [last])) as Href1.
  { intros i msg Hi. unfold w1 at 1. rewrite replied_pages_net, Hlog1.
    by apply Href. }
  destruct (make_request_refused cfg (params (1 + Z.of_nat (length bodies))) "GET"
              w1 msgs last Hd Hmax Href1) as (w' & Hrun & Hh & _ & _ & Hf).
  exists w'. split; [|split].
  - unfold accumulate, bind.
    replace (S (Z.to_nat cap))
      with (length bodies + S (Z.to_nat cap - length bodies))%nat by lia.
    assert (1 ≤ max_retries cfg) as Hn by lia.
    rewrite (page_loop_full_pages _ _ _ _ Hn) by (done || (cbn; lia)).
    cbn [page_loop app].
    destruct (Z.ltb_spec (Z.of_nat (length (bodies ≫= records))) cap); [|lia].
    unfold bind at 1. fold w1. by rewrite Hrun.
  - rewrite Hf. apply replied_pages_files.
  - rewrite Hh, length_app, length_replicate. lia.
Qed.

(** X13: a transport failure loses the pages already fetched.  When full
    pages were answered at once and every attempt for the next page raises a
    transport error, each accumulator raises the error of the last attempt
    instead of returning the records it holds, and [extract_token_transfers]
    raises it too, having written no file. *)
Theorem transport_failure_aborts
    self address contract_address cap bodies msgs last w :
  0 ≤ retry_delay (client self) →
  max_retries (client self) = Z.of_nat (length msgs) + 1 →
  answers w bodies →
  Forall (λ body, full_page body = true) bodies →
  Z.of_nat (length (bodies ≫= records)) < cap →
  (∀ (i : nat) msg,
     (msgs ++ [last]) !! i = Some msg →
     net w (length (http_log w) + length bodies + i)%nat
     = HttpRaise (RequestException msg)) →
  let e := RequestException last in
  let calls := (length bodies + S (length msgs))%nat in
  aborts e calls w (all_transactions self address cap w) ∧
  aborts e calls w (all_transfers self address contract_address cap w) ∧
  aborts e calls w (all_holders self address cap w) ∧
  aborts e calls w (extract_token_transfers self address contract_address cap w).
Proof.
  intros Hd Hmax Hans Hfull Hcap Href e calls.
  destruct (accumulators_are_accumulate self address contract_address cap w
              (λ _ _ r, aborts e calls w r))
    as (Htx & Htransfers & Hholders).
  { intros size action params Hparams.
    destruct (accumulate_refused (client self) params cap bodies msgs last w)
      as (w' & Hrun & Hf & Hh); try done.
    rewrite Hrun. repeat split; [done|]. cbn. rewrite Hh. unfold calls. lia. }
  split; [exact Htx | split; [exact Htransfers | split; [exact Hholders|]]].
  unfold aborts, extract_token_transfers, bind, timestamp.
  destruct Htransfers as (He & Hf & Hh).
  destruct (all_transfers self address contract_address cap w)
    as [[l|e'|] w']; cbn in He; [discriminate He | | discriminate He].
  by injection He as ->.
Qed.

(** ** What the extractions leave on disk *)

(** Requests change the logs of the world only. *)
Lemma attempt_loop_files cfg params method attempts :
  ∀ w, files (attempt_loop cfg params method attempts w).2 = files w.
Proof.
  induction attempts as [|attempt rest IH]; intros w; [done|].
  rewrite attempt_loop_step.
  destruct (net w (length (http_log w))) as [[]|[]]; try done.
  - unfold replied. by destruct (str_eq _ "0").
  - cbn zeta. destruct (attempt <? max_retries cfg - 1); [|done].
    destruct (retry_delay cfg * (attempt + 1) <? 0); [done|]. by rewrite IH.
Qed.

Lemma make_request_files cfg params method w :
  files (_make_request cfg params method w).2 = files w.
Proof.
  rewrite <- (attempt_loop_files cfg params method
                (py_range 0 (max_retries cfg)) w).
  unfold _make_request, bind.
  by destruct (attempt_loop _ _ _ _ w) as [[[data|]|e|] w1].
Qed.

Lemma page_loop_files fetch cap (fuel : nat) :
  (∀ page w, files (fetch page w).2 = files w) →
  ∀ all page w, files (page_loop fuel fetch cap all page w).2 = files w.
Proof.
  intros Hfetch. induction fuel as [|fuel IH]; intros all page w; [done|].
  cbn [page_loop]. destruct (Z.of_nat (length all) <? cap); [|done].
  unfold bind at 1. specialize (Hfetch page w).
  destruct (fetch page w) as [[result|e|] w1]; [|done..].
  destruct (str_eq (dict_get result "status") "1"); [|done].
  destruct (negb (truthy _)); [done|]. unfold bind, iterate.
  destruct (py_iter _) as [new|]; [|done]. unfold ret.
  by rewrite IH.
Qed.

Lemma accumulate_files fetch cap w :
  (∀ page w, files (fetch page w).2 = files w) →
  files (accumulate fetch cap w).2 = files w.
Proof.
  intros Hfetch. rewrite <- (page_loop_files fetch cap (S (Z.to_nat cap)) Hfetch [] 1 w).
  unfold accumulate, bind.
  by destruct (page_loop _ fetch cap [] 1 w) as [[l|e|] w1].
Qed.

(** What an accumulator returns: fewer than [max(cap, 0)] records or as
    many, with the files as they were. *)
Lemma accumulators_run self address contract_address cap w :
  let good (r : outcome (list json) * world) :=
    returns_at_most cap r ∧ files r.2 = files w in
  good (all_transactions self address cap w) ∧
  good (all_transfers self address contract_address cap w) ∧
  good (all_holders self address cap w).
Proof.
  intros good.
  apply (accumulators_are_accumulate self address contract_address cap w
           (λ _ _ r, good r)).
  intros size action params _. split.
  - apply accumulate_at_most. intros page w1. apply make_request_fuel.
  - apply accumulate_files. intros page w1. apply make_request_files.
Qed.

(** The end of the three list extractions: nothing for an empty list, the
    JSON file then the CSV file otherwise. *)
Lemma save_both_exported self w w1 (all : list json) name subdir content cap :
  files w1 = files w →
  Z.of_nat (length all) ≤ Z.max 0 cap →
  exported self w name subdir content cap
    ((if truthy (JList all) then
        p <- _save_json self (content all) name subdir ;;
        q <- _save_csv self (JList all) name subdir ;;
        ret (<["csv" := q]> (<["json" := Some p]> ∅))
      else ret ∅) w1).
Proof.
  intros Hfiles Hlen.
  destruct (truthy (JList all)) eqn:Htrue; [|by left].
  assert (all ≠ []) as Hall by (by intros ->).
  unfold bind at 1. rewrite save_json_run.
  pose proof (save_run_cases (json_dir self) subdir (json_path self name subdir)
                (FJson (content all)) (json_path self name subdir) w1) as Hjson.
  destruct (save_run _ _ _ _ _ w1) as [[p|e|] w2];
    [|left; destruct Hjson; cbn; congruence|done].
  destruct Hjson as [-> Hfiles2]. unfold bind at 1.
  destruct (save_csv_cases self (JList all) name subdir w2)
    as [[Hfalse _]|[(e & w' & _ & -> & Hfiles' & _)
                   |(ds & w' & _ & [= Hds] & -> & Hfiles')]]; [congruence | |].
  - right. exists all. by rewrite Hfiles', Hfiles2, Hfiles.
  - right. exists ds. subst all.
    assert (ds ≠ []) as Hne by (by intros ->).
    split; [done|]. split.
    { rewrite length_fmap in Hlen. destruct ds; [done | cbn in *; lia]. }
    split; [done|]. unfold ret. by rewrite Hfiles', Hfiles2, Hfiles.
Qed.

(** X14: whatever the replies, [extract_token_transfers] ends in one of these
    ways.  It returns the empty map and has written no file (no transfer was
    accumulated); or it returns the paths of a JSON file and a CSV file under
    [token_transfers], which are the two files it wrote, holding the same
    records, at least one and at most the cap, one CSV row for each; or it
    raises, having written no file or the JSON file only. *)
Theorem token_transfers_export self address contract_address cap w :
  exported self w (clock w +:+ "_token_transfers_" +:+ str_prefix 10 address)
    "token_transfers" JList cap
    (extract_token_transfers self address contract_address cap w).
Proof.
  destruct (accumulators_run self address contract_address cap w)
    as (_ & [Hmost Hfiles] & _).
  unfold extract_token_transfers. unfold bind at 1, timestamp. unfold bind at 1.
  destruct (all_transfers self address contract_address cap w) as [[all|e|] w1];
    [|by left|done].
  by apply (save_both_exported self w w1 all _ _ JList).
Qed.

(** X15: whatever the replies, [extract_token_holders] ends like the export
    of a list under [token_holders], and the JSON file it writes is
    consistent: its [total_holders_fetched] is the length of its [holders]
    list, which has at least one and at most the cap holders, the ones of the
    CSV file. *)
Theorem token_holders_export self contract_address cap w :
  ∃ token_info,
    exported self w (clock w +:+ "_token_holders_" +:+ str_prefix 10 contract_address)
      "token_holders"
      (λ holders, JObj [("token_info", token_info); ("holders", JList holders);
                        ("total_holders_fetched", JInt (Z.of_nat (length holders)))])
      cap
      (extract_token_holders self contract_address cap w).
Proof.
  unfold extract_token_holders. unfold bind at 1, timestamp. unfold bind at 1.
  unfold get_token_info.
  pose proof (make_request_files (client self)
                [("module", JStr "token"); ("action", JStr "getToken");
                 ("contractaddress", JStr contract_address)] "GET" w) as Hfiles0.
  pose proof (make_request_fuel (client self)
                [("module", JStr "token"); ("action", JStr "getToken");
                 ("contractaddress", JStr contract_address)] "GET" w) as Hfuel0.
  destruct (_make_request _ _ "GET" w) as [[token_info_result|e|] w0];
    [|exists (JObj []); by left|done].
  eexists. unfold bind at 1.
  destruct (accumulators_run self contract_address None cap w0)
    as (_ & _ & [Hmost Hfiles]).
  destruct (all_holders self contract_address cap w0) as [[all|e|] w1];
    [|left; cbn in *; congruence|done].
  cbn in Hfiles0, Hfiles, Hmost.
  apply (save_both_exported self w w1 all _ _
           (λ holders, JObj [("token_info", _); ("holders", JList holders);
                             ("total_holders_fetched",
                              JInt (Z.of_nat (length holders)))]));
    [congruence | done].
Qed.

(** Whatever the replies, the block loop ends, keeps at most one entry per
    block and writes no file. *)
Lemma block_loop_run cfg blocks :
  ∀ block_data w,
    match block_loop cfg blocks block_data w with
    | (Ok l, w') =>
        (length l ≤ length block_data + length blocks)%nat ∧ files w' = files w
    | (Raise _, w') => files w' = files w
    | (OutOfFuel, _) => False
    end.
Proof.
  induction blocks as [|block_num rest IH]; intros block_data w.
  - cbn. split; [lia | done].
  - cbn [block_loop]. unfold bind at 1, get_block_reward.
    pose proof (make_request_files cfg
                  [("module", JStr "block"); ("action", JStr "getblockreward");
                   ("blockno", JInt block_num)] "GET" w) as Hfiles.
    pose proof (make_request_fuel cfg
                  [("module", JStr "block"); ("action", JStr "getblockreward");
                   ("blockno", JInt block_num)] "GET" w) as Hfuel.
    destruct (_make_request _ _ "GET" w) as [[result|e|] w1]; [|done..].
    cbn in Hfiles.
    match goal with |- context [block_loop cfg rest ?acc w1] =>
      specialize (IH acc w1);
      assert (length acc ≤ S (length block_data))%nat as Hacc
        by (destruct (str_eq _ "1"); rewrite ?length_app; cbn; lia);
      destruct (block_loop cfg rest acc w1) as [[l|e|] w2]
    end; [|congruence|done].
    destruct IH as [Hlen Hf]. split; [cbn; lia | congruence].
Qed.

(** X16: whatever the replies, [extract_block_range] ends like the export of
    a list under [blocks]: nothing saved when no block has status ['1'], or a
    JSON file and a CSV file with the same blocks, at least one and at most
    one per block number of the range. *)
Theorem block_range_export self start_block end_block w :
  exported self w
    (clock w +:+ "_blocks_" +:+ str_of_int start_block +:+ "_to_"
     +:+ str_of_int end_block)
    "blocks" JList (Z.max 0 (end_block + 1 - start_block))
    (extract_block_range self start_block end_block w).
Proof.
  unfold extract_block_range. unfold bind at 1, timestamp. unfold bind at 1.
  unfold block_data.
  pose proof (block_loop_run (client self)
                (py_range start_block (end_block + 1)) [] w) as Hrun.
  destruct (block_loop _ _ [] w) as [[blocks|e|] w1]; [|by left|done].
  destruct Hrun as [Hlen Hfiles]. rewrite py_range_length in Hlen.
  apply (save_both_exported self w w1 blocks _ _ JList); [done|].
  cbn in Hlen. lia.
Qed.

Lemma csv_path_not_json self filename subdir filename' subdir' :
  csv_path self filename subdir ≠ json_path self filename' subdir'.
Proof. intros H. symmetry in H. by apply json_csv_paths_differ in H. Qed.

(** X22: [_save_json] writes its file or none.  On a file system that
    accepts its calls it returns the path of the file, under the [json]
    directory, after the [mkdir] of the subdirectory, when there is one, and
    the [open]; whatever the file system, when it returns the file holds the
    data, and when it raises, it raises what the file system raised and has
    written no file; a subdirectory that cannot be made (one whose parent is
    missing, which is the case of a name with ['/'] in it) ends the save
    before the [open]. *)
Theorem save_json_all_or_nothing self data filename subdir w :
  let path := json_path self filename subdir in
  (accepts w (save_calls subdir) →
   ∃ w', _save_json self data filename subdir w = (Ok path, w') ∧
         fs_log w' = fs_log w
                     ++ (if String.eqb subdir "" then []
                         else [Mkdir (path_join (json_dir self) subdir)])
                     ++ [Open path]) ∧
  match _save_json self data filename subdir w with
  | (Ok p, w') => p = path ∧ files w' = <[path := FJson data]> (files w)
  | (Raise e, w') => (∃ k, disk w k = Some e) ∧ files w' = files w
  | (OutOfFuel, _) => False
  end ∧
  (String.eqb subdir "" = false →
   ∀ e, disk w (length (fs_log w)) = Some e →
     _save_json self data filename subdir w
     = (Raise e, called (Mkdir (path_join (json_dir self) subdir)) w)).
Proof.
  intros path. rewrite save_json_run. fold path. split; [|split].
  - intros Hok. rewrite save_run_ok by done. eexists. split; [done|].
    unfold saved_file. destruct (String.eqb subdir ""); cbn; [done|].
    by rewrite <- app_assoc.
  - apply save_run_cases.
  - intros Hsub e Hdisk. unfold save_run. by rewrite Hsub, Hdisk.
Qed.

(** X23: [DataExtractor(output_dir)] makes the output directory, then its
    [json] and [csv] directories, and its client has the default
    configuration; it makes no HTTP call and writes no file, and it raises
    what the file system raised when a directory cannot be made. *)
Theorem init_makes_directories output_dir w :
  let self := Extractor output_dir default_config in
  (accepts w 3 →
   ∃ w', DataExtractor_init output_dir w = (Ok self, w') ∧
         fs_log w' = fs_log w ++ [Mkdir output_dir; Mkdir (json_dir self);
                                  Mkdir (csv_dir self)]) ∧
  match DataExtractor_init output_dir w with
  | (Ok self', w') => self' = self ∧ files w' = files w ∧ http_log w' = http_log w
  | (Raise e, w') =>
      (∃ k, disk w k = Some e) ∧ files w' = files w ∧ http_log w' = http_log w
  | (OutOfFuel, _) => False
  end.
Proof.
  intros self.
  set (w1 := called (Mkdir output_dir) w).
  set (w2 := called (Mkdir (json_dir self)) w1).
  set (w3 := called (Mkdir (csv_dir self)) w2).
  assert (DataExtractor_init output_dir w
          = match disk w (length (fs_log w) + 0) with
            | Some e => (Raise e, w1)
            | None =>
                match disk w (length (fs_log w) + 1) with
                | Some e => (Raise e, w2)
                | None =>
                    match disk w (length (fs_log w) + 2) with
                    | Some e => (Raise e, w3)
                    | None => (Ok self, w3)
                    end
                end
            end) as ->.
  { unfold DataExtractor_init. fold self. unfold bind at 1, mkdir.
    rewrite fs_request_step, Nat.add_0_r. fold w1.
    destruct (disk w (length (fs_log w))); [done|].
    unfold bind at 1. rewrite fs_request_step. fold w2.
    replace (length (fs_log w1)) with (length (fs_log w) + 1)%nat
      by (cbn; by rewrite length_app).
    change (disk w1) with (disk w).
    destruct (disk w (length (fs_log w) + 1)); [done|].
    unfold bind at 1. rewrite fs_request_step. fold w3.
    replace (length (fs_log w2)) with (length (fs_log w) + 2)%nat
      by (cbn; rewrite !length_app; cbn; lia).
    change (disk w2) with (disk w).
    by destruct (disk w (length (fs_log w) + 2)). }
  split.
  - intros Hok. rewrite !Hok by lia. eexists. split; [done|].
    cbn. by rewrite <- !app_assoc.
  - destruct (disk w (length (fs_log w) + 0)) eqn:H1; [by eauto|].
    destruct (disk w (length (fs_log w) + 1)) eqn:H2; [by eauto|].
    destruct (disk w (length (fs_log w) + 2)) eqn:H3; [by eauto|].
    done.
Qed.

(** X24: an account directory that cannot be made ends
    [extract_account_data].  When the balance request is answered at once
    and the [mkdir] of the account directory raises (as it does for an
    address with ['/'] among its first ten characters, the parent of the
    directory being missing), the extraction raises that error, whatever was
    asked for, after the one HTTP call and with no file written. *)
Theorem account_directory_refused
    self address include_transactions include_tokens max_transactions body e w :
  1 ≤ max_retries (client self) →
  net w (length (http_log w)) = HttpOk (JObj body) →
  disk w (length (fs_log w)) = Some e →
  ∃ w',
    extract_account_data self address include_transactions include_tokens
      max_transactions w = (Raise e, w') ∧
    files w' = files w ∧
    length (http_log w') = S (length (http_log w)) ∧
    fs_log w' = fs_log w ++ [Mkdir (path_join (json_dir self)
                                      ("account_" +:+ str_prefix 10 address))].
Proof.
  intros Hn Hnet Hdisk.
  set (params := [("module", JStr "account"); ("action", JStr "balance");
                  ("address", JStr address)]).
  set (dir := "account_" +:+ str_prefix 10 address).
  exists (called (Mkdir (path_join (json_dir self) dir))
            (replied (client self) params "GET" body w)).
  split; [|split; [|split]].
  - unfold extract_account_data. unfold bind at 1, timestamp. unfold bind at 1.
    unfold get_balance. rewrite (make_request_first_ok _ _ _ _ _ Hn Hnet).
    fold params dir. unfold bind at 1. rewrite save_json_run.
    unfold save_run. change (String.eqb dir "") with false.
    assert (disk (replied (client self) params "GET" body w)
              (length (fs_log (replied (client self) params "GET" body w)))
            = Some e) as ->; [|done].
    unfold replied. by destruct (str_eq _ "0").
  - cbn. unfold replied. by destruct (str_eq _ "0").
  - cbn [http_log called]. rewrite replied_http_log, length_app. cbn. lia.
  - cbn [fs_log called]. unfold replied. by destruct (str_eq _ "0").
Qed.

(** X17: [extract_account_data] saves the balance reply as it is, whatever
    its status.  With neither transactions nor tokens asked for, a balance
    request answered at once with an object, and a file system that accepts
    the [mkdir] of the account directory and the [open] of the file, make one
    call, and the only file written is the balance JSON file, holding the
    whole reply, even one of status ['0']. *)
Theorem balance_saved_whatever_status self address max_transactions body w :
  1 ≤ max_retries (client self) →
  net w (length (http_log w)) = HttpOk (JObj body) →
  accepts w 2 →
  let dir := "account_" +:+ str_prefix 10 address in
  let path := json_path self (clock w +:+ "_balance") dir in
  ∃ w',
    extract_account_data self address false false max_transactions w
    = (Ok {["balance" := Some path]}, w') ∧
    files w' = <[path := FJson (JObj body)]> (files w) ∧
    http_log w'
    = http_log w ++ [HttpCall GET (base_url (client self))
                       [("module", JStr "account"); ("action", JStr "balance");
                        ("address", JStr address)] (timeout (client self))] ∧
    fs_log w' = fs_log w ++ [Mkdir (path_join (json_dir self) dir); Open path].
Proof.
  intros Hn Hnet Hdisk dir path.
  set (params := [("module", JStr "account"); ("action", JStr "balance");
                  ("address", JStr address)]).
  exists (saved_file (json_dir self) dir path (FJson (JObj body))
            (replied (client self) params "GET" body w)).
  split; [|split; [|split]].
  - unfold extract_account_data. unfold bind at 1, timestamp. unfold bind at 1.
    unfold get_balance. rewrite (make_request_first_ok _ _ _ _ _ Hn Hnet).
    fold params dir. unfold bind at 1.
    by rewrite save_json_ok by (by apply accepts_replied).
  - rewrite saved_file_files. unfold replied. by destruct (str_eq _ "0").
  - rewrite (proj1 (proj2 (proj2 (saved_file_logs _ _ _ _ _)))).
    apply replied_http_log.
  - unfold saved_file. change (String.eqb dir "") with false.
    cbn [fs_log wrote called]. unfold replied.
    destruct (str_eq _ "0"); cbn; by rewrite <- app_assoc.
Qed.

(** X18: whatever the replies, when [extract_account_data] is asked for the
    transactions (and not the tokens) and returns, the returned map has the
    balance file and the transactions JSON file, this file holds the
    accumulated list, of at most [max(cap, 0)] transactions, even when the
    list is empty, and the map has a transactions CSV entry exactly when the
    list is not empty. *)
Theorem transactions_json_always_saved self address cap w :
  let dir := "account_" +:+ str_prefix 10 address in
  let balance := json_path self (clock w +:+ "_balance") dir in
  let transactions := json_path self (clock w +:+ "_transactions") dir in
  match extract_account_data self address true false cap w with
  | (Ok saved_files, w') =>
      saved_files !! "balance" = Some (Some balance) ∧
      saved_files !! "transactions_json" = Some (Some transactions) ∧
      ∃ all, files w' !! transactions = Some (FJson (JList all)) ∧
             Z.of_nat (length all) ≤ Z.max 0 cap ∧
             (saved_files !! "transactions_csv" = None ↔ all = [])
  | (Raise _, _) => True
  | (OutOfFuel, _) => False
  end.
Proof.
  intros dir balance transactions.
  unfold extract_account_data. unfold bind at 1, timestamp. unfold bind at 1.
  unfold get_balance.
  pose proof (make_request_fuel (client self)
                [("module", JStr "account"); ("action", JStr "balance");
                 ("address", JStr address)] "GET" w) as Hfuel0.
  destruct (_make_request _ _ "GET" w) as [[balance_result|e|] w0]; [|done..].
  unfold bind at 1. rewrite save_json_run. fold dir balance.
  pose proof (save_run_cases (json_dir self) dir balance
                (FJson (JObj balance_result)) balance w0) as Hbalance.
  destruct (save_run _ _ _ _ _ w0) as [[p|e|] w0']; [|done..].
  destruct Hbalance as [-> _].
  unfold bind at 1. unfold bind at 1.
  destruct (accumulators_run self address None cap w0') as ([Hmost _] & _ & _).
  destruct (all_transactions self address cap w0') as [[all|e|] w1]; [|done..].
  cbn in Hmost.
  unfold bind at 1. rewrite save_json_run. fold transactions.
  pose proof (save_run_cases (json_dir self) dir transactions
                (FJson (JList all)) transactions w1) as Htxs.
  destruct (save_run _ _ _ _ _ w1) as [[p|e|] w2]; [|done..].
  destruct Htxs as [-> Hfiles2].
  destruct (truthy (JList all)) eqn:Htrue.
  - unfold bind at 1.
    destruct (save_csv_cases self (JList all) (clock w +:+ "_transactions") dir w2)
      as [[Hfalse _]|[(e & w' & _ & -> & _)|(ds & w' & _ & _ & -> & Hfiles')]];
      [congruence|done|].
    cbn. split; [done|]. split; [done|]. exists all. split; [|split].
    + rewrite Hfiles', lookup_insert_ne by apply csv_path_not_json.
      rewrite Hfiles2. apply lookup_insert_eq.
    + done.
    + split; [done|]. by intros ->.
  - cbn. split; [done|]. split; [done|]. exists all. split; [|split].
    + rewrite Hfiles2. apply lookup_insert_eq.
    + done.
    + split; [|done]. intros _. by destruct all.
Qed.

(** ** More on contract extraction *)

(** X19: when the source-code request is answered at once, a status that is
    not ['1'] makes [extract_contract_data] log that the contract was not
    found and return the empty map; a status ['1'] with no contract in the
    result makes it return the empty map without a warning of its own; no
    file is written in either case. *)
Theorem contract_not_found json_loads self contract_address source_result w :
  1 ≤ max_retries (client self) →
  net w (length (http_log w)) = HttpOk (JObj source_result) →
  (str_eq (dict_get source_result "status") "1" = false →
     ∃ w', extract_contract_data json_loads self contract_address w = (Ok ∅, w') ∧
           files w' = files w ∧
           last (warn_log w') = Some (WarnContractNotFound contract_address)) ∧
  (str_eq (dict_get source_result "status") "1" = true →
   truthy (dict_get_default source_result "result" (JList [])) = false →
     ∃ w', extract_contract_data json_loads self contract_address w = (Ok ∅, w') ∧
           files w' = files w ∧ warn_log w' = warn_log w).
Proof.
  intros Hn Hnet.
  set (params := [("module", JStr "contract"); ("action", JStr "getsourcecode");
                  ("address", JStr contract_address)]).
  assert (extract_contract_data json_loads self contract_address w
          = (if str_eq (dict_get source_result "status") "1"
             then if truthy (dict_get_default source_result "result" (JList []))
                  then extract_contract_data json_loads self contract_address w
                  else (Ok ∅, replied (client self) params "GET" source_result w)
             else (Ok ∅, warned (WarnContractNotFound contract_address)
                           (replied (client self) params "GET" source_result w))))
    as Hrun.
  { destruct (str_eq (dict_get source_result "status") "1") eqn:Hs;
      [destruct (truthy _) eqn:Ht; [done|]|];
      unfold extract_contract_data, timestamp, get_contract_source_code;
      unfold bind at 1; unfold bind at 1; fold params;
      rewrite (make_request_first_ok _ _ _ _ _ Hn Hnet), Hs, ?Ht; done. }
  split.
  - intros Hs. rewrite Hs in Hrun. eexists. split; [exact Hrun|]. split.
    + cbn. unfold replied. by destruct (str_eq _ "0").
    + cbn. apply last_snoc.
  - intros Hs Ht. rewrite Hs, Ht in Hrun. eexists. split; [exact Hrun|].
    unfold replied. by rewrite (status_1_not_0 _ Hs).
Qed.

(** The start of a contract extraction that is answered at once with a
    first contract that is an object, on a file system that accepts the four
    calls of the full-data and source saves. *)
Lemma contract_files_saved
    json_loads self contract_address source_result fields others text w :
  1 ≤ max_retries (client self) →
  net w (length (http_log w)) = HttpOk (JObj source_result) →
  str_eq (dict_get source_result "status") "1" = true →
  dict_get source_result "result" = Some (JList (JObj fields :: others)) →
  dict_get_default fields "SourceCode" (JStr "") = JStr text →
  accepts w 4 →
  let dir := "contract_" +:+ str_prefix 10 contract_address in
  let full := json_path self (clock w +:+ "_contract_full") dir in
  let source := path_join (path_join (output_dir self) dir)
                          (clock w +:+ "_source.sol") in
  let abi_file := path_join (path_join (output_dir self) dir)
                            (clock w +:+ "_abi.json") in
  let saved_files : saved :=
    <["source_code" := Some source]> {["full_data" := Some full]} in
  ∃ w1,
    extract_contract_data json_loads self contract_address w
    = try_except
        (abi_parsed <- loads json_loads (dict_get_default fields "ABI" (JStr "")) ;;
         write_file abi_file (FJson abi_parsed) ;;
         ret (<["abi" := Some abi_file]> saved_files))
        (λ e, match e with
              | JSONDecodeError _ =>
                  Some (log_warning WarnAbiNotJson ;; ret saved_files)
              | _ => None
              end) w1 ∧
    files w1 = <[source := FText text]> (<[full := FJson (JObj fields)]> (files w)) ∧
    warn_log w1 = warn_log w ∧
    (∀ n, accepts w (4 + n) → accepts w1 n).
Proof.
  intros Hn Hnet Hstatus Hresult Hsource Hdisk dir full source abi_file saved_files.
  set (params := [("module", JStr "contract"); ("action", JStr "getsourcecode");
                  ("address", JStr contract_address)]).
  set (w0 := replied (client self) params "GET" source_result w).
  set (w1 := saved_file (json_dir self) dir full (FJson (JObj fields)) w0).
  set (w2 := called (Mkdir (path_join (output_dir self) dir)) w1).
  assert (∀ n, accepts w (4 + n) → accepts w2 (1 + n)) as Hdisk2.
  { intros n H. apply accepts_called, accepts_saved_file. by apply accepts_replied. }
  exists (wrote source (FText text) (called (Open source) w2)).
  split; [|split; [|split]].
  - unfold extract_contract_data, timestamp, get_contract_source_code.
    unfold bind at 1. unfold bind at 1. fold params.
    rewrite (make_request_first_ok _ _ _ _ _ Hn Hnet), Hstatus. fold w0.
    unfold dict_get_default at 1 2. rewrite Hresult.
    cbn [truthy first_item]. unfold bind at 1, ret at 1.
    unfold bind at 1. replace (clock w0) with (clock w)
      by (symmetry; apply replied_clock).
    fold dir. rewrite save_json_ok
      by (apply (accepts_le _ 4); [change (2 ≤ 4)%nat; lia | by apply accepts_replied]).
    fold full w1.
    unfold bind at 1, method_of_dict, ret at 1. rewrite Hsource.
    unfold bind at 1, mkdir. rewrite fs_request_step.
    rewrite (accepts_next w1 1)
      by (apply accepts_saved_file; by apply accepts_replied).
    fold w2. unfold bind at 1, write_text. fold source.
    rewrite write_file_step, (accepts_next w2 0) by (by apply (Hdisk2 0%nat)).
    reflexivity.
  - cbn [files warned wrote called w2]. unfold w1. rewrite saved_file_files.
    unfold w0, replied. by destruct (str_eq _ "0").
  - cbn [warn_log warned wrote called w2]. unfold w1.
    rewrite (proj2 (proj2 (proj2 (proj2 (saved_file_logs _ _ _ _ _))))).
    unfold w0, replied. by rewrite (status_1_not_0 _ Hstatus).
  - intros n H. apply accepts_wrote, accepts_called. by apply Hdisk2.
Qed.

(** X20: when the ABI field is a text that [json.loads] decodes, and the
    file system accepts the five calls of the three saves, the decoded value
    is written to the ABI file, after the full-data and the source files, the
    returned map has the three entries, and nothing is logged. *)
Theorem abi_saved_when_json
    json_loads self contract_address source_result fields others text abi
    abi_parsed w :
  1 ≤ max_retries (client self) →
  net w (length (http_log w)) = HttpOk (JObj source_result) →
  str_eq (dict_get source_result "status") "1" = true →
  dict_get source_result "result" = Some (JList (JObj fields :: others)) →
  dict_get_default fields "SourceCode" (JStr "") = JStr text →
  dict_get_default fields "ABI" (JStr "") = JStr abi →
  json_loads abi = inl abi_parsed →
  accepts w 5 →
  let dir := "contract_" +:+ str_prefix 10 contract_address in
  let full := json_path self (clock w +:+ "_contract_full") dir in
  let source := path_join (path_join (output_dir self) dir)
                          (clock w +:+ "_source.sol") in
  let abi_file := path_join (path_join (output_dir self) dir)
                            (clock w +:+ "_abi.json") in
  ∃ w',
    extract_contract_data json_loads self contract_address w
    = (Ok (<["abi" := Some abi_file]>
             (<["source_code" := Some source]> {["full_data" := Some full]})), w') ∧
    files w' = <[abi_file := FJson abi_parsed]>
                 (<[source := FText text]>
                    (<[full := FJson (JObj fields)]> (files w))) ∧
    warn_log w' = warn_log w.
Proof.
  intros Hn Hnet Hstatus Hresult Hsource Habi Hloads Hdisk dir full source abi_file.
  destruct (contract_files_saved json_loads self contract_address source_result
              fields others text w Hn Hnet Hstatus Hresult Hsource)
    as (w1 & -> & Hfiles & Hwarn & Hdisk1); [by apply (accepts_le _ 5); [lia|]|].
  fold dir full source abi_file in Hfiles |- *.
  exists (wrote abi_file (FJson abi_parsed) (called (Open abi_file) w1)).
  split; [|split; cbn; congruence].
  unfold try_except, bind at 1, loads. rewrite Habi, Hloads. unfold ret at 1.
  unfold bind at 1. rewrite write_file_step.
  by rewrite (accepts_next w1 0) by (by apply Hdisk1).
Qed.

(** X21: only a text that is not JSON is forgiven.  When the ABI field is
    present and is not a text (a null, a number, a list, ...), the
    [TypeError] of [json.loads] is not caught: [extract_contract_data]
    raises it, after the full-data file and the source file were written on a
    file system that accepts the four calls of their saves. *)
Theorem abi_not_text_is_fatal
    json_loads self contract_address source_result fields others text abi w :
  1 ≤ max_retries (client self) →
  net w (length (http_log w)) = HttpOk (JObj source_result) →
  str_eq (dict_get source_result "status") "1" = true →
  dict_get source_result "result" = Some (JList (JObj fields :: others)) →
  dict_get_default fields "SourceCode" (JStr "") = JStr text →
  dict_get fields "ABI" = Some abi →
  (∀ s, abi ≠ JStr s) →
  accepts w 4 →
  let dir := "contract_" +:+ str_prefix 10 contract_address in
  let full := json_path self (clock w +:+ "_contract_full") dir in
  let source := path_join (path_join (output_dir self) dir)
                          (clock w +:+ "_source.sol") in
  ∃ w',
    extract_contract_data json_loads self contract_address w
    = (Raise (TypeError ("the JSON object must be str, bytes or bytearray, not "
                         +:+ type_name abi)), w') ∧
    files w' = <[source := FText text]> (<[full := FJson (JObj fields)]> (files w)) ∧
    warn_log w' = warn_log w.
Proof.
  intros Hn Hnet Hstatus Hresult Hsource Habi Hnot Hdisk dir full source.
  destruct (contract_files_saved json_loads self contract_address source_result
              fields others text w Hn Hnet Hstatus Hresult Hsource Hdisk)
    as (w1 & -> & Hfiles & Hwarn & _).
  exists w1. split; [|by split].
  unfold try_except, bind at 1, loads, dict_get_default. rewrite Habi.
  destruct abi; try reflexivity. by destruct (Hnot s).
Qed.

(** * More concrete runs *)

(** Two timeouts then a reply, under the default three attempts. *)
Lemma retries_until_success_witness :
  ∃ w', _make_request default_config [] "GET"
          (sample_world replies_after_two_failures)
        = (Ok (ok_body (JStr "42")), w') ∧
        sleep_log w' = [1; 2] ∧ length (http_log w') = 3%nat.
Proof.
  destruct (retries_until_success default_config [] "GET"
              (sample_world replies_after_two_failures) ["timeout"; "timeout"]
              (ok_body (JStr "42")))
    as (w' & Hrun & Hlog & Hsleep & _).
  - cbn. lia.
  - cbn. lia.
  - intros [|[|i]] msg [= <-]; reflexivity.
  - reflexivity.
  - exists w'. split; [exact Hrun|]. rewrite Hsleep, Hlog. split; reflexivity.
Defined.

(** Three refusals under the default three attempts. *)
Lemma every_attempt_fails_witness :
  ∃ w', _make_request default_config [] "GET" (sample_world replies_never)
        = (Raise (RequestException "connection refused"), w') ∧
        sleep_log w' = [1; 2] ∧
        warn_log w' = [WarnAttemptFailed 1 "connection refused";
                       WarnAttemptFailed 2 "connection refused";
                       WarnAttemptFailed 3 "connection refused"].
Proof.
  destruct (every_attempt_fails default_config [] "GET" (sample_world replies_never)
              ["connection refused"; "connection refused"] "connection refused")
    as (w' & Hrun & _ & Hsleep & Hwarn & _).
  - cbn. lia.
  - reflexivity.
  - intros [|[|[|i]]] msg [= <-]; reflexivity.
  - exists w'. split; [exact Hrun|]. rewrite Hsleep, Hwarn. split; reflexivity.
Defined.

Lemma other_exception_not_retried_witness :
  ∃ w', _make_request default_config [] "GET" (sample_world replies_invalid)
        = (Raise (ValueError "Invalid header value"), w') ∧
        length (http_log w') = 1%nat ∧ sleep_log w' = [] ∧ warn_log w' = [].
Proof.
  eexists. split.
  - apply (other_exception_not_retried default_config [] "GET"
             (sample_world replies_invalid) (ValueError "Invalid header value")).
    + cbn. lia.
    + reflexivity.
    + discriminate.
  - repeat split.
Defined.

(** Neither address nor hash; then an address alone. *)
Lemma internal_transactions_guard_witness :
  get_internal_transactions default_config None (Some "") None None 1 10 "asc"
    (sample_world replies_never)
  = (Raise (ValueError "Either address or txhash must be provided"),
     sample_world replies_never) ∧
  ∃ params,
    get_internal_transactions default_config (Some "0xabc") None (Some 7) None
      1 10 "asc" (sample_world replies_never)
    = _make_request default_config params "GET" (sample_world replies_never) ∧
    dict_get params "address" = Some (JStr "0xabc") ∧
    dict_get params "txhash" = None ∧
    dict_get params "startblock" = Some (JInt 7).
Proof.
  split.
  - apply (internal_transactions_guard default_config None (Some "") None None
             1 10 "asc" (sample_world replies_never)); reflexivity.
  - destruct (internal_transactions_guard default_config (Some "0xabc") None
                (Some 7) None 1 10 "asc" (sample_world replies_never))
      as [_ Hgiven].
    destruct Hgiven as (params & Hrun & _ & _ & _ & _ & Ha & Ht & Hs & _);
      [by left|].
    exists params. repeat split; assumption.
Defined.

Lemma block_number_by_timestamp_guard_witness :
  get_block_number_by_timestamp default_config 1700000000 "closest"
    (sample_world replies_never)
  = (Raise (ValueError "closest must be 'before' or 'after'"),
     sample_world replies_never) ∧
  get_block_number_by_timestamp default_config 1700000000 "after"
    (sample_world replies_never)
  = _make_request default_config
      [("module", JStr "block"); ("action", JStr "getblocknobytime");
       ("timestamp", JInt 1700000000); ("closest", JStr "after")] "GET"
      (sample_world replies_never).
Proof.
  split.
  - apply (block_number_by_timestamp_guard default_config 1700000000 "closest"
             (sample_world replies_never)); discriminate.
  - apply (block_number_by_timestamp_guard default_config 1700000000 "after"
             (sample_world replies_never)). by right.
Defined.

(** A cap of 1 and a first page of two records: one record, one page. *)
Lemma cap_reached_truncates_witness :
  let w := sample_world replies_three_records in
  fetched w (all_transactions sample_extractor "0xabc" 1 w) [record_of 1] [1] ∧
  fetched w (all_transfers sample_extractor "0xabc" None 1 w) [record_of 1] [1] ∧
  fetched w (all_holders sample_extractor "0xabc" 1 w) [record_of 1] [1].
Proof.
  apply (cap_reached_truncates sample_extractor "0xabc" None 1 []
           (ok_body (JList [record_of 1; record_of 2]))
           (sample_world replies_three_records)).
  - cbn. lia.
  - intros [|j] body [= <-]; reflexivity.
  - repeat constructor.
  - cbn. lia.
  - cbn. lia.
Defined.

(** A page of two records, then three refusals: the two records are lost. *)
Lemma transport_failure_aborts_witness :
  let w := sample_world replies_page_then_refused in
  let e := RequestException "connection refused" in
  aborts e 4 w (all_transfers sample_extractor "0xabc" None 10 w) ∧
  aborts e 4 w (extract_token_transfers sample_extractor "0xabc" None 10 w).
Proof.
  destruct (transport_failure_aborts sample_extractor "0xabc" None 10
              [ok_body (JList [record_of 1; record_of 2])]
              ["connection refused"; "connection refused"] "connection refused"
              (sample_world replies_page_then_refused))
    as (_ & Htransfers & _ & Hextract).
  - cbn. lia.
  - reflexivity.
  - intros [|j] body [= <-]; reflexivity.
  - repeat constructor.
  - cbn. lia.
  - intros [|[|[|i]]] msg [= <-]; reflexivity.
  - split; [exact Htransfers | exact Hextract].
Defined.

(** A balance reply of status ['0'] is saved all the same. *)
Lemma balance_saved_whatever_status_witness :
  ∃ w', extract_account_data sample_extractor "0x95426f2bc716022f" false false 100
          (sample_world (replies_always error_body))
        = (Ok {["balance" :=
                  Some "out/json/account_0x95426f2b/20260101_120000_balance.json"]},
           w') ∧
        files w' !! "out/json/account_0x95426f2b/20260101_120000_balance.json"
        = Some (FJson (JObj error_body)) ∧
        length (http_log w') = 1%nat.
Proof.
  destruct (balance_saved_whatever_status sample_extractor "0x95426f2bc716022f" 100
              error_body (sample_world (replies_always error_body)))
    as (w' & Hrun & Hfiles & Hlog & _).
  - cbn. lia.
  - reflexivity.
  - intros i Hi. reflexivity.
  - exists w'. split; [exact Hrun|]. rewrite Hfiles, Hlog.
    split; [apply lookup_insert_eq | reflexivity].
Defined.

(** An address with ['/'] in it, whose account directory cannot be made. *)
Lemma account_directory_refused_witness :
  ∃ w', extract_account_data sample_extractor "0xabc/def" true true 100
          (sample_world_without_directory (replies_always (ok_body (JStr "42"))))
        = (Raise missing_directory, w') ∧
        files w' = ∅ ∧
        fs_log w' = [Mkdir "out/json/account_0xabc/def"].
Proof.
  destruct (account_directory_refused sample_extractor "0xabc/def" true true 100
              (ok_body (JStr "42")) missing_directory
              (sample_world_without_directory
                 (replies_always (ok_body (JStr "42")))))
    as (w' & Hrun & Hfiles & _ & Hlog).
  - cbn. lia.
  - reflexivity.
  - reflexivity.
  - exists w'. split; [exact Hrun|]. split; [exact Hfiles | exact Hlog].
Defined.

(** A contract that is not found, and a status ['1'] without a contract. *)
Lemma contract_not_found_witness :
  (∃ w', extract_contract_data sample_loads sample_extractor "0xabc"
           (sample_world (replies_always error_body)) = (Ok ∅, w') ∧
         files w' = ∅ ∧
         last (warn_log w') = Some (WarnContractNotFound "0xabc")) ∧
  (∃ w', extract_contract_data sample_loads sample_extractor "0xabc"
           (sample_world (replies_always (ok_body (JList [])))) = (Ok ∅, w') ∧
         files w' = ∅ ∧ warn_log w' = []).
Proof.
  split.
  - destruct (contract_not_found sample_loads sample_extractor "0xabc" error_body
                (sample_world (replies_always error_body))) as [Hnot _];
      [cbn; lia | reflexivity |].
    exact (Hnot eq_refl).
  - destruct (contract_not_found sample_loads sample_extractor "0xabc"
                (ok_body (JList []))
                (sample_world (replies_always (ok_body (JList []))))) as [_ Hempty];
      [cbn; lia | reflexivity |].
    exact (Hempty eq_refl eq_refl).
Defined.

(** A contract whose ABI is the text of an empty list. *)
Lemma abi_saved_when_json_witness :
  ∃ w', extract_contract_data sample_loads sample_extractor "0x95426f2bc716022f"
          (sample_world (replies_always (ok_body (JList [JObj verified_contract]))))
        = (Ok (<["abi" := Some "out/contract_0x95426f2b/20260101_120000_abi.json"]>
                 (<["source_code" :=
                      Some "out/contract_0x95426f2b/20260101_120000_source.sol"]>
                    {["full_data" :=
                        Some "out/json/contract_0x95426f2b/20260101_120000_contract_full.json"]})),
           w') ∧
        files w' !! "out/contract_0x95426f2b/20260101_120000_abi.json"
        = Some (FJson (JList [])).
Proof.
  destruct (abi_saved_when_json sample_loads sample_extractor "0x95426f2bc716022f"
              (ok_body (JList [JObj verified_contract])) verified_contract []
              "contract C {}" "[]" (JList [])
              (sample_world (replies_always (ok_body (JList [JObj verified_contract])))))
    as (w' & Hrun & Hfiles & _); try reflexivity.
  - cbn. lia.
  - intros i Hi. reflexivity.
  - exists w'. split; [exact Hrun|]. rewrite Hfiles. apply lookup_insert_eq.
Defined.

(** A contract whose ABI is null. *)
Lemma abi_not_text_is_fatal_witness :
  ∃ w', extract_contract_data sample_loads sample_extractor "0x95426f2bc716022f"
          (sample_world (replies_always (ok_body (JList [JObj contract_without_abi]))))
        = (Raise (TypeError
                    "the JSON object must be str, bytes or bytearray, not NoneType"),
           w') ∧
        files w' !! "out/contract_0x95426f2b/20260101_120000_source.sol"
        = Some (FText "contract C {}").
Proof.
  destruct (abi_not_text_is_fatal sample_loads sample_extractor "0x95426f2bc716022f"
              (ok_body (JList [JObj contract_without_abi])) contract_without_abi []
              "contract C {}" JNull
              (sample_world (replies_always (ok_body (JList [JObj contract_without_abi])))))
    as (w' & Hrun & Hfiles & _); try reflexivity.
  - cbn. lia.
  - discriminate.
  - intros i Hi. reflexivity.
  - exists w'. split; [exact Hrun|]. rewrite Hfiles. apply lookup_insert_eq.
Defined.

(** The general results on sample runs. *)
Example token_transfers_export_sample :
  let w := sample_world replies_three_records in
  let r := extract_token_transfers sample_extractor "0x95426f2bc716022f" None 2 w in
  r.1 = Ok (<["csv" := Some "out/csv/token_transfers/20260101_120000_token_transfers_0x95426f2b.csv"]>
              {["json" := Some "out/json/token_transfers/20260101_120000_token_transfers_0x95426f2b.json"]}) ∧
  files r.2 !! "out/json/token_transfers/20260101_120000_token_transfers_0x95426f2b.json"
  = Some (FJson (JList [record_of 1; record_of 2])) ∧
  files r.2 !! "out/csv/token_transfers/20260101_120000_token_transfers_0x95426f2b.csv"
  = Some (FCsv ["blockNumber"] [[JInt 1]; [JInt 2]]).
Proof. repeat split; vm_compute; reflexivity. Qed.

Example transactions_json_sample :
  let w := sample_world (replies_always error_body) in
  let r := extract_account_data sample_extractor "0x95426f2bc716022f" true false 5 w in
  (∃ saved_files : saved,
     r.1 = Ok saved_files ∧ saved_files !! "transactions_csv" = None) ∧
  files r.2 !! "out/json/account_0x95426f2b/20260101_120000_transactions.json"
  = Some (FJson (JList [])).
Proof. split; [eexists; split|]; vm_compute; reflexivity. Qed.
